(** * VulcanVariance: the movie-dataset cleaning pipeline and the notebook builders

    A shallow embedding of [notebooks/data_cleaning_script.py],
    [create_notebooks.py] and [create_eda_notebook.py], and the properties
    the specification states about them.

    The cleaning script is a sequence of pandas calls.  The Python, pandas,
    pathlib, zipfile and sqlite3 operations it uses are modelled in the
    modules [Py], [Numeric], [Pandas] and [OS], at the granularity the
    script observes (cells, dtypes, rows, paths), with the behaviour of
    pandas 1.x and 2.x, where text columns are of dtype object.  The script
    itself is embedded in [Cleaning], following the source statement by
    statement, and the two notebook builders in [Notebooks].  The file
    system is the regular files by path, a directory being there when
    something lies below it.  Console output ([print]) has no influence on
    any value or file and is left out. *)

From Stdlib Require Import Ascii String QArith Qround Decimal DecimalString DecimalNat.
From stdpp Require Import gmap strings list sorting.

Local Open Scope string_scope.
Local Open Scope Z_scope.
Local Open Scope list_scope.

(** ** Python strings *)

Module Py.

(** Code point of a character.  A [string] is read as a sequence of code
    points below 256. *)
Definition ord (c : ascii) : nat := nat_of_ascii c.

(** [str.isspace] on one character (code points below 256): the ASCII
    controls 9-13 and 28-31, the space, NEL and the no-break space. *)
Definition isspace (c : ascii) : bool :=
  let n := ord c in
  ((9 <=? n) && (n <=? 13) || (28 <=? n) && (n <=? 32)
   || (n =? 133) || (n =? 160))%nat.

(** [str.lower] on one character: the ASCII capitals and the Latin-1
    capitals (192-222 but for the multiplication sign) move up by 32. *)
Definition lower_char (c : ascii) : ascii :=
  let n := ord c in
  if ((65 <=? n) && (n <=? 90)
      || (192 <=? n) && (n <=? 222) && negb (n =? 215))%nat
  then ascii_of_nat (n + 32) else c.

Fixpoint lower (s : string) : string :=
  match s with
  | EmptyString => EmptyString
  | String c s' => String (lower_char c) (lower s')
  end.

Fixpoint startswith (p s : string) : bool :=
  match p, s with
  | EmptyString, _ => true
  | String a p', String b s' => Ascii.eqb a b && startswith p' s'
  | String _ _, EmptyString => false
  end.

(** [x in s] for strings: [x] occurs as a substring of [s]. *)
Fixpoint contains (x s : string) : bool :=
  startswith x s ||
  match s with
  | EmptyString => false
  | String _ s' => contains x s'
  end.

Fixpoint endswith (p s : string) : bool :=
  String.eqb p s ||
  match s with
  | EmptyString => false
  | String _ s' => endswith p s'
  end.

(** [any(x in s for x in kws)] *)
Definition any_in (kws : list string) (s : string) : bool :=
  existsb (fun x => contains x s) kws.

Fixpoint lstrip (s : string) : string :=
  match s with
  | EmptyString => EmptyString
  | String c s' => if isspace c then lstrip s' else s
  end.

Fixpoint rstrip (s : string) : string :=
  match s with
  | EmptyString => EmptyString
  | String c s' =>
      let r := rstrip s' in
      if isspace c && String.eqb r EmptyString then EmptyString
      else String c r
  end.

(** [str.strip()] *)
Definition strip (s : string) : string := rstrip (lstrip s).

(** [re.sub('[' + chars + ']', '', s)], and [s.replace(c, '')] for a
    one-character [c]: every occurrence of a listed character is
    removed. *)
Fixpoint remove_chars (chars : list ascii) (s : string) : string :=
  match s with
  | EmptyString => EmptyString
  | String c s' =>
      if existsb (Ascii.eqb c) chars then remove_chars chars s'
      else String c (remove_chars chars s')
  end.

Fixpoint occurs (c : ascii) (s : string) : bool :=
  match s with
  | EmptyString => false
  | String d s' => Ascii.eqb c d || occurs c s'
  end.

Definition first_char (s : string) : option ascii :=
  match s with EmptyString => None | String c _ => Some c end.

Fixpoint last_char (s : string) : option ascii :=
  match s with
  | EmptyString => None
  | String c EmptyString => Some c
  | String _ s' => last_char s'
  end.

(** No whitespace at either end. *)
Definition trimmed (s : string) : bool :=
  match first_char s, last_char s with
  | Some a, Some b => negb (isspace a) && negb (isspace b)
  | _, _ => true
  end.

End Py.

(** ** Numbers and the numeric parser *)

Module Numeric.

(** A numeric value other than NaN.  Finite values are kept as exact
    reduced rationals.  [pd.to_numeric] returns int64 or float64, so the
    model is the program where these hold the value exactly: for whole
    numbers up to 2^53 in absolute value, which both hold, and for the
    fractions with few digits that are a multiple of a power of two, such
    as 1234.5.  Outside that range the program rounds or overflows, the
    model does not, and no property below is stated there. *)
Inductive number :=
| Fin (q : Q)
| Inf (negative : bool).

Definition number_eqb (a b : number) : bool :=
  match a, b with
  | Fin p, Fin q => Qeq_bool p q
  | Inf x, Inf y => Bool.eqb x y
  | _, _ => false
  end.

Definition is_digit (c : ascii) : bool :=
  let n := nat_of_ascii c in ((48 <=? n) && (n <=? 57))%nat.

Definition digit_value (c : ascii) : Z := Z.of_nat (nat_of_ascii c) - 48.

(** C [isspace], as used by the numeric tokenizer. *)
Definition c_isspace (c : ascii) : bool :=
  let n := nat_of_ascii c in (((9 <=? n) && (n <=? 13)) || (n =? 32))%nat.

Fixpoint skip_space (s : string) : string :=
  match s with
  | String c s' => if c_isspace c then skip_space s' else s
  | EmptyString => EmptyString
  end.

(** The string without its trailing whitespace. *)
Fixpoint drop_trailing_space (s : string) : string :=
  match s with
  | String c s' =>
      let r := drop_trailing_space s' in
      if c_isspace c && String.eqb r EmptyString then EmptyString
      else String c r
  | EmptyString => EmptyString
  end.

Fixpoint all_space (s : string) : bool :=
  match s with
  | String c s' => c_isspace c && all_space s'
  | EmptyString => true
  end.

(** Reads a run of digits: accumulated value, number of digits read and
    the rest of the input. *)
Fixpoint read_digits (acc : Z) (n : nat) (s : string) : Z * nat * string :=
  match s with
  | String c s' =>
      if is_digit c then read_digits (10 * acc + digit_value c) (S n) s'
      else (acc, n, s)
  | EmptyString => (acc, n, s)
  end.

Definition read_sign (s : string) : bool * string :=
  match s with
  | String "-" s' => (true, s')
  | String "+" s' => (false, s')
  | _ => (false, s)
  end.

(** mantissa * 10^exponent as a reduced rational *)
Definition scale10 (m e : Z) : Q :=
  if 0 <=? e then Qred (Qmake (m * 10 ^ e) 1)
  else Qred (Qmake m (Z.to_pos (10 ^ (- e)))).

(** The optional exponent part: [e], an optional sign, at least one
    digit.  [None] when an [e] is not followed by a well-formed
    exponent. *)
Definition read_exponent (s : string) : option (Z * string) :=
  match s with
  | String c s' =>
      if Ascii.eqb c "e" || Ascii.eqb c "E" then
        let '(neg, s1) := read_sign s' in
        let '(e, n, s2) := read_digits 0 0 s1 in
        if (n =? 0)%nat then None
        else Some (if neg then - e else e, s2)
      else Some (0, s)
  | EmptyString => Some (0, s)
  end.

Definition special_word (w : string) : option (option number) :=
  if String.eqb w "nan" then Some None
  else if String.eqb w "inf" || String.eqb w "infinity"
  then Some (Some (Inf false))
  else None.

(** What the numeric tokenizer behind [pd.to_numeric] makes of a string:
    [Some (Some x)] for a number, [Some None] for a spelled-out NaN,
    [None] when the string is not a number.  Grammar: optional
    whitespace, optional sign, digits with an optional fraction (or a
    fraction alone), optional exponent, optional whitespace; or the
    words nan, inf, infinity in any case. *)
Definition parse_float (s : string) : option (option number) :=
  let s0 := skip_space s in
  let '(neg, s1) := read_sign s0 in
  let '(ip, ni, s2) := read_digits 0 0 s1 in
  let '(m, nf, s3) :=
    match s2 with
    | String "." s2' => read_digits ip 0 s2'
    | _ => (ip, 0%nat, s2)
    end in
  if ((ni + nf)%nat =? 0)%nat then
    match special_word (Py.lower (drop_trailing_space s1)) with
    | Some (Some (Inf _)) => Some (Some (Inf neg))
    | r => r
    end
  else
    match read_exponent s3 with
    | Some (e, s4) =>
        if all_space s4
        then Some (Some (Fin (scale10 (if neg then - m else m)
                                      (e - Z.of_nat nf))))
        else None
    | None => None
    end.

(** A character that no number holds: not a digit, a sign, the point,
    the exponent letter, whitespace, or a letter of [nan], [inf] and
    [infinity]. *)
Definition never_in_a_number (x : ascii) : bool :=
  negb (is_digit x) && negb (c_isspace x)
  && negb (existsb (Ascii.eqb (Py.lower_char x))
             ["+"; "-"; "."; "e"; "n"; "a"; "i"; "f"; "t"; "y"]%char).

End Numeric.

(** ** The pandas operations the script uses *)

Module Pandas.
Import Numeric.

(** What the script leaves to the libraries and to the platform, kept
    abstract: how a number and a timestamp print under [str], which
    strings the permissive date parser accepts (as nanoseconds since the
    epoch), which table names SQLite accepts unquoted after [FROM] as the
    name of that table, and in which order the entries [names] of the
    directory [dir] are listed: some arrangement of them, which the script
    never sorts before it takes the first.  The order is taken to depend
    on the directory and on the names in it, not on how they came to be
    there. *)
Class Library := {
  repr_number : number -> string;
  repr_timestamp : Z -> string;
  parse_datetime : string -> option Z;
  sql_name_ok : string -> bool;
  listing_order : list string -> list string -> list string;
  listing_order_permutation :
    forall dir names, Permutation (listing_order dir names) names
}.

(** Column dtypes.  The script only ever asks whether a dtype is
    ['object'], so int64 and float64 are one [numeric]. *)
Inductive dtype := object | numeric | boolean | datetime64.

Definition is_object (d : dtype) : bool :=
  match d with object => true | _ => false end.

(** A cell.  [NaN] is the missing-value marker ([np.nan], [NaT]);
    [PyNone] is Python's [None], which is what a SQL NULL in a text
    column is read as. *)
Inductive cell :=
| NaN
| PyNone
| Str (s : string)
| Num (x : number)
| Bool (b : bool)
| Timestamp (t : Z).

(** [pd.isnull] on one cell *)
Definition isnull (c : cell) : bool :=
  match c with NaN | PyNone => true | _ => false end.

(** Equality of cells as [duplicated] sees it: missing values are equal
    to each other. *)
Definition cell_eqb (a b : cell) : bool :=
  match a, b with
  | Str s, Str t => String.eqb s t
  | Num x, Num y => number_eqb x y
  | Bool x, Bool y => Bool.eqb x y
  | Timestamp x, Timestamp y => Z.eqb x y
  | _, _ => isnull a && isnull b
  end.

Fixpoint row_eqb (r1 r2 : list cell) : bool :=
  match r1, r2 with
  | [], [] => true
  | a :: r1', b :: r2' => cell_eqb a b && row_eqb r1' r2'
  | _, _ => false
  end.

Record Series := { dtype_of : dtype; values : list cell }.

Record DataFrame := { nrows : nat; cols : list (string * Series) }.

(** [len(df)] *)
Definition len (df : DataFrame) : nat := nrows df.

(** [df.columns] *)
Definition columns (df : DataFrame) : list string := map fst (cols df).

(** Every column holds one cell per row. *)
Definition well_formed (df : DataFrame) : Prop :=
  Forall (fun c => length (values (snd c)) = nrows df) (cols df).

(** [df[col]] *)
Fixpoint lookup_col (col : string) (cs : list (string * Series))
  : option Series :=
  match cs with
  | [] => None
  | (n, s) :: cs' => if String.eqb n col then Some s else lookup_col col cs'
  end.

Definition get (df : DataFrame) (col : string) : option Series :=
  lookup_col col (cols df).

Fixpoint assign_col (col : string) (s : Series) (cs : list (string * Series))
  : list (string * Series) :=
  match cs with
  | [] => [(col, s)]
  | (n, s0) :: cs' =>
      if String.eqb n col then (n, s) :: cs'
      else (n, s0) :: assign_col col s cs'
  end.

(** [df[col] = s] *)
Definition set (df : DataFrame) (col : string) (s : Series) : DataFrame :=
  {| nrows := nrows df; cols := assign_col col s (cols df) |}.

(** [df.select_dtypes(include=['object']).columns] *)
Definition select_dtypes_object (df : DataFrame) : list string :=
  map fst (List.filter (fun c => is_object (dtype_of (snd c))) (cols df)).

(** *** Rows and duplicates *)

Definition row (df : DataFrame) (i : nat) : list cell :=
  map (fun c => nth i (values (snd c)) NaN) (cols df).

Definition rows (df : DataFrame) : list (list cell) :=
  map (row df) (seq 0 (nrows df)).

(** [duplicated()] with the default [keep='first']: a row is marked when
    an earlier row equals it. *)
Fixpoint duplicated_rows (seen rs : list (list cell)) : list bool :=
  match rs with
  | [] => []
  | r :: rs' => existsb (row_eqb r) seen :: duplicated_rows (r :: seen) rs'
  end.

Definition duplicated (df : DataFrame) : list bool :=
  duplicated_rows [] (rows df).

(** [mask.sum()] *)
Definition sum (mask : list bool) : nat :=
  length (List.filter (fun b => b) mask).

(** Boolean-mask selection: the entries whose mask bit is set. *)
Fixpoint select {A} (mask : list bool) (l : list A) : list A :=
  match mask, l with
  | b :: mask', x :: l' => if b then x :: select mask' l' else select mask' l'
  | _, _ => []
  end.

(** [df.drop_duplicates()]: the rows not marked by [duplicated]. *)
Definition drop_duplicates (df : DataFrame) : DataFrame :=
  let keep := map negb (duplicated df) in
  {| nrows := sum keep;
     cols := map (fun c => (fst c, {| dtype_of := dtype_of (snd c);
                                      values := select keep (values (snd c)) |}))
                 (cols df) |}.

(** *** Column conversions *)

Section Conversions.
Context `{Library}.

(** [str(x)] for the value in a cell *)
Definition py_str (c : cell) : string :=
  match c with
  | NaN => "nan"
  | PyNone => "None"
  | Str s => s
  | Num x => repr_number x
  | Bool true => "True"
  | Bool false => "False"
  | Timestamp t => repr_timestamp t
  end.

(** [s.astype(str)]: [str] applied to every element, so that [np.nan]
    becomes ['nan'] and [None] becomes ['None']. *)
Definition astype_str (s : Series) : Series :=
  {| dtype_of := object; values := map (fun c => Str (py_str c)) (values s) |}.

(** A [.str] method on one element: elements that are not strings give
    NaN. *)
Definition on_str (f : string -> string) (c : cell) : cell :=
  match c with Str s => Str (f s) | _ => NaN end.

(** [s.str.replace(r'[..]', '', regex=True)] and [s.str.replace(c, '')] *)
Definition str_remove (chars : list ascii) (s : Series) : Series :=
  {| dtype_of := object;
     values := map (on_str (Py.remove_chars chars)) (values s) |}.

(** [s.str.strip()] *)
Definition str_strip (s : Series) : Series :=
  {| dtype_of := object; values := map (on_str Py.strip) (values s) |}.

(** [s.replace(old, new)] for a string [old]: the elements equal to
    [old] (whole value, not substring) become [new]. *)
Definition replace_cell (old : string) (new c : cell) : cell :=
  match c with
  | Str s => if String.eqb s old then new else c
  | _ => c
  end.

Definition replace (old : string) (new : cell) (s : Series) : Series :=
  {| dtype_of := dtype_of s; values := map (replace_cell old new) (values s) |}.

(** [pd.to_numeric(.., errors='coerce')] on one element of an object
    column: what does not parse becomes NaN. *)
Definition to_numeric_cell (c : cell) : cell :=
  match c with
  | Str s =>
      match parse_float s with
      | Some (Some x) => Num x
      | _ => NaN
      end
  | Num x => Num x
  | Bool b => Num (Fin (if b then 1 else 0)%Q)
  | NaN | PyNone | Timestamp _ => NaN
  end.

(** [pd.to_numeric(s, errors='coerce')]: numeric and boolean columns
    come back as they are, a datetime column as its integer
    nanoseconds, an object column element by element. *)
Definition to_numeric (s : Series) : Series :=
  match dtype_of s with
  | numeric | boolean => s
  | datetime64 =>
      {| dtype_of := numeric;
         values := map (fun c => match c with
                                 | Timestamp t => Num (Fin (inject_Z t))
                                 | _ => NaN
                                 end) (values s) |}
  | object => {| dtype_of := numeric; values := map to_numeric_cell (values s) |}
  end.

Definition is_bool_cell (c : cell) : bool :=
  match c with Bool _ => true | _ => false end.

Definition to_datetime_cell (c : cell) : cell :=
  match c with
  | Str s => match parse_datetime s with Some t => Timestamp t | None => NaN end
  | Num (Fin q) => Timestamp (Qfloor q)
  | Timestamp t => Timestamp t
  | _ => NaN
  end.

(** [pd.to_datetime(s, errors='coerce')].  Elements that do not parse
    become NaT, a boolean among them, and so does every element of a
    boolean column.  [None] stands for a raised exception, which is what
    the script's [try]/[except] is there for; with [errors='coerce'] the
    values of a table do not raise one. *)
Definition to_datetime (s : Series) : option Series :=
  match dtype_of s with
  | datetime64 => Some s
  | boolean | numeric | object =>
      Some {| dtype_of := datetime64;
              values := map to_datetime_cell (values s) |}
  end.

End Conversions.

End Pandas.

(** ** Files, archives, databases and exceptions *)

Module OS.
Import Pandas.

(** A [pathlib.Path], as its components. *)
Definition path := list string.

(** [p / name] *)
Definition join (p : path) (name : string) : path := p ++ [name].

(** File contents, at the granularity the script reads them: a delimited
    text file (comma or tab separated, gzip-compressed or not) is the
    table its reader returns, a zip archive is its member files, each
    with the directories it lies in and its name (an entry for an empty
    directory is left out), a SQLite file is its tables by name in
    catalogue order (the empty file being the database without tables),
    and anything else is a [Blob]. *)
#[local] Unset Elimination Schemes.
Inductive file :=
| Table (df : DataFrame)
| Archive (members : list (path * string * file))
| Database (tables : list (string * DataFrame))
| Blob.
#[local] Set Elimination Schemes.

Inductive exn :=
| FileNotFoundError
| FileExistsError
| NotADirectoryError
| IsADirectoryError
| ParserError
| BadZipFile
| KeyError
| DatabaseError
| OperationalError.

Inductive result (A : Type) :=
| Ok (a : A)
| Raise (e : exn).
Arguments Ok {A} a.
Arguments Raise {A} e.

(** The world the script runs in: the files by path, and the number of
    database connections currently open. *)
Record state := { fs : gmap path file; open_connections : nat }.

Definition M (A : Type) : Type := state -> result A * state.

Definition ret {A} (a : A) : M A := fun s => (Ok a, s).

Definition bind {A B} (m : M A) (k : A -> M B) : M B :=
  fun s =>
    match m s with
    | (Ok a, s') => k a s'
    | (Raise e, s') => (Raise e, s')
    end.

#[global] Instance M_ret : MRet M := @ret.
#[global] Instance M_bind : MBind M := fun A B k m => bind m k.

Definition raise {A} (e : exn) : M A := fun s => (Raise e, s).

Definition get_fs : M (gmap path file) := fun s => (Ok (fs s), s).

(** Writing a file replaces what the path holds.  The directory written
    to is there: the script makes the output directory first, and the
    extraction makes the directories it needs.  A write the program
    refuses is not told apart here: see [consistent] below. *)
Definition write_file (p : path) (f : file) : M unit :=
  fun s => (Ok tt, {| fs := <[p := f]> (fs s);
                      open_connections := open_connections s |}).

(** The name of the entry of [dir] that [p] is or lies below, if [p] is
    below [dir]. *)
Fixpoint child_of (dir p : path) : option string :=
  match dir, p with
  | [], n :: _ => Some n
  | d :: dir', c :: p' => if String.eqb d c then child_of dir' p' else None
  | _, _ => None
  end.

(** The directory entries directly below [dir]: the names [n] such that
    [dir / n] is a file or has files below it. *)
Definition entries (m : gmap path file) (dir : path) : list string :=
  remove_dups (omap (fun kv => child_of dir (fst kv)) (map_to_list m)).

(** The entries of [dir] as the platform lists them: the names, each
    once, in the platform's order. *)
Definition listdir `{Library} (m : gmap path file) (dir : path) : list string :=
  listing_order dir (merge_sort String.le (entries m dir)).

(** [p.is_file()] *)
Definition is_file (m : gmap path file) (p : path) : bool :=
  bool_decide (is_Some (m !! p)).

(** What is at a path.  The map holds the regular files; a directory is
    not an entry of its own but is there when something lies below it, an
    empty directory being left out of the model; the working directory
    [[]] is always there. *)
Inductive kind := Missing | RegularFile | Directory.

Definition kind_of (m : gmap path file) (p : path) : kind :=
  match p with
  | [] => Directory
  | _ =>
      if is_file m p then RegularFile
      else match entries m p with [] => Missing | _ => Directory end
  end.

(** [p.parent] *)
Definition parent (p : path) : path := removelast p.

(** The exception of [p.mkdir(exist_ok=True)], if any: the path is taken
    by a file, or its parent is missing or is a file.  [None] when the
    directory is there already or can be made. *)
Definition mkdir_error (m : gmap path file) (p : path) : option exn :=
  match kind_of m p with
  | Directory => None
  | RegularFile => Some FileExistsError
  | Missing =>
      match kind_of m (parent p) with
      | Directory => None
      | RegularFile => Some NotADirectoryError
      | Missing => Some FileNotFoundError
      end
  end.

(** [p.mkdir(exist_ok=True)].  A directory that had to be made is empty,
    and nothing the script does afterwards tells it from the directory it
    then writes into or lists: the files are as they were. *)
Definition mkdir_exist_ok (p : path) : M unit :=
  m ← get_fs;
  match mkdir_error m p with
  | None => mret tt
  | Some e => raise e
  end.

(** [open(p, 'rb')], as the readers of the script do first: the file at
    [p], or the exception for a missing path or a directory. *)
Definition open_file (m : gmap path file) (p : path) : result file :=
  match m !! p with
  | Some f => Ok f
  | None =>
      match entries m p with
      | [] => Raise FileNotFoundError
      | _ => Raise IsADirectoryError
      end
  end.

Definition open_read (p : path) : M file := fun s => (open_file (fs s) p, s).

(** No file lies below a file, as in any file system.  [write_file]
    replaces what a path holds without a test, where the program refuses
    to write to a path that is a directory or that lies below a file.
    Such a write leaves a file below a file, and no write removes a file:
    the writes of a run have all gone through when the files it leaves
    are consistent. *)
Definition consistent (m : gmap path file) : Prop :=
  map_Forall (fun p _ => entries m p = []) m.

(** [dir.iterdir()], as names *)
Definition iterdir `{Library} (dir : path) : M (list string) :=
  m ← get_fs;
  match kind_of m dir with
  | Directory => mret (listdir m dir)
  | RegularFile => raise NotADirectoryError
  | Missing => raise FileNotFoundError
  end.

(** [dir.glob('*' + suffix)]: the entries of [dir] whose name ends with
    [suffix], in the order of the listing; none when nothing lies below
    [dir]. *)
Definition glob_suffix `{Library} (m : gmap path file) (dir : path)
    (suffix : string) : list path :=
  map (join dir) (List.filter (Py.endswith suffix) (listdir m dir)).

End OS.

(** ** The cleaning script *)

Module Cleaning.
Import Pandas OS.

Definition original_data_path : path := ["Original_Data"].
Definition cleaned_data_path : path := ["Cleaned_Data"].

(** [pd.read_csv(p, ...)] *)
Definition read_csv (p : path) : M DataFrame :=
  f ← open_read p;
  match f with
  | Table df => ret df
  | _ => raise ParserError
  end.

(** [df.to_csv(p, index=False)] *)
Definition to_csv (df : DataFrame) (p : path) : M unit :=
  write_file p (Table df).

(** [col in names] *)
Definition mem (col : string) (names : list string) : bool :=
  existsb (String.eqb col) names.

(** [[col for col in df.columns if any(x in col.lower() for x in kws)]] *)
Definition keyword_columns (kws : list string) (df : DataFrame) : list string :=
  List.filter (fun col => Py.any_in kws (Py.lower col)) (columns df).

(** [for col in names: df = body df col] *)
Definition for_each (names : list string) (body : DataFrame -> string -> DataFrame)
    (df : DataFrame) : DataFrame :=
  fold_left body names df.

(** [df[col] = f(df[col])] *)
Definition update (f : Series -> Series) (df : DataFrame) (col : string)
  : DataFrame :=
  match get df col with
  | Some s => set df col (f s)
  | None => df
  end.

(** A loop body that rewrites the column it is given when the name
    passes a test, and leaves everything else alone: the shape every
    loop body of the script has. *)
Definition col_step (P : string -> bool) (g : Series -> Series)
    (df : DataFrame) (col : string) : DataFrame :=
  if P col then update g df col else df.

Definition always (col : string) : bool := true.
Definition outside (names : list string) (col : string) : bool :=
  negb (mem col names).

(** The paths of the archive step, and the state with a file written or
    with the files replaced. *)
Definition zip_path : path := join original_data_path "im.db.zip".
Definition extract_path : path := join original_data_path "extracted".
Definition imdb_output (table_name : string) : path :=
  join cleaned_data_path ("imdb_" +:+ table_name +:+ "_cleaned.csv").

Definition extract_files (members : list (path * string * file)) (dir : path)
    (m : gmap path file) : gmap path file :=
  fold_left
    (fun m '(parents, name, f) => <[join (dir ++ parents) name := f]> m)
    members m.

Definition with_fs (m : gmap path file) (s : state) : state :=
  {| fs := m; open_connections := open_connections s |}.

Definition written (p : path) (f : file) (s : state) : state :=
  {| fs := <[p := f]> (fs s); open_connections := open_connections s |}.

Section Steps.
Context `{Library}.

(** The body of the monetary loop:
<<
    if df[col].dtype == 'object':
        df[col] = df[col].astype(str).str.replace(r'[$,]', '', regex=True)
        df[col] = pd.to_numeric(df[col], errors='coerce')
>>
*)
Definition money_body (df : DataFrame) (col : string) : DataFrame :=
  match get df col with
  | Some s =>
      if is_object (dtype_of s) then
        let df := update (fun s => str_remove ["$"; ","]%char (astype_str s)) df col in
        update to_numeric df col
      else df
  | None => df
  end.

(** [df[col] = pd.to_numeric(df[col], errors='coerce')] *)
Definition numeric_body (df : DataFrame) (col : string) : DataFrame :=
  update to_numeric df col.

(** The same under the guard [if col in df.columns] *)
Definition guarded_numeric_body (df : DataFrame) (col : string) : DataFrame :=
  if mem col (columns df) then update to_numeric df col else df.

(** The body of the rating loop of the movie-info cleaner:
<<
    if col in df.columns:
        if df[col].dtype == 'object':
            df[col] = df[col].astype(str).str.replace('%', '')
            df[col] = pd.to_numeric(df[col], errors='coerce')
>>
*)
Definition percent_body (df : DataFrame) (col : string) : DataFrame :=
  if mem col (columns df) then
    match get df col with
    | Some s =>
        if is_object (dtype_of s) then
          let df := update (fun s => str_remove ["%"]%char (astype_str s)) df col in
          update to_numeric df col
        else df
    | None => df
    end
  else df.

(** The body of the date loops:
<<
    try:
        df[col] = pd.to_datetime(df[col], errors='coerce')
    except:
        (the column is left as it is)
>>
*)
Definition date_body (df : DataFrame) (col : string) : DataFrame :=
  match get df col with
  | Some s =>
      match to_datetime s with
      | Some s' => set df col s'
      | None => df
      end
  | None => df
  end.

(** The text treatment of one column:
<<
    df[col] = df[col].astype(str).str.strip()
    df[col] = df[col].replace('nan', np.nan)
>>
*)
Definition text_body (df : DataFrame) (col : string) : DataFrame :=
  let df := update (fun s => str_strip (astype_str s)) df col in
  update (replace "nan" NaN) df col.

(** The text loop: over the columns that are of dtype object at that
    point, skipping the names in [excluded]. *)
Definition text_loop (excluded : list string) (df : DataFrame) : DataFrame :=
  let text_columns := select_dtypes_object df in
  for_each text_columns
    (fun df col => if negb (mem col excluded) then text_body df col else df) df.

(** *** The five named datasets

    Each cleaner is split into the in-memory part, from the loaded frame
    to the frame that is saved, and the function of the script, which
    loads, transforms, saves and returns. *)

Definition box_office_frame (bom_df : DataFrame) : DataFrame :=
  let duplicates := sum (duplicated bom_df) in
  let bom_clean := bom_df in
  let bom_clean :=
    if (0 <? duplicates)%nat then drop_duplicates bom_clean else bom_clean in
  let money_columns :=
    keyword_columns ["gross"; "revenue"; "budget"; "sales"] bom_clean in
  let bom_clean := for_each money_columns money_body bom_clean in
  let year_columns := keyword_columns ["year"] bom_clean in
  let bom_clean := for_each year_columns numeric_body bom_clean in
  text_loop money_columns bom_clean.

Definition clean_box_office_data : M DataFrame :=
  bom_df ← read_csv (join original_data_path "bom.movie_gross.csv.gz");
  let bom_clean := box_office_frame bom_df in
  to_csv bom_clean (join cleaned_data_path "bom_movie_gross_cleaned.csv");;
  ret bom_clean.

Definition movie_budgets_frame (budgets_df : DataFrame) : DataFrame :=
  let budgets_clean := drop_duplicates budgets_df in
  let money_columns :=
    keyword_columns ["budget"; "gross"; "revenue"] budgets_clean in
  let budgets_clean := for_each money_columns money_body budgets_clean in
  let date_columns := keyword_columns ["date"; "release"] budgets_clean in
  let budgets_clean := for_each date_columns date_body budgets_clean in
  text_loop (money_columns ++ date_columns) budgets_clean.

Definition clean_movie_budgets_data : M DataFrame :=
  budgets_df ← read_csv (join original_data_path "tn.movie_budgets.csv.gz");
  let budgets_clean := movie_budgets_frame budgets_df in
  to_csv budgets_clean (join cleaned_data_path "movie_budgets_cleaned.csv");;
  ret budgets_clean.

Definition tmdb_frame (tmdb_df : DataFrame) : DataFrame :=
  let tmdb_clean := drop_duplicates tmdb_df in
  let numeric_columns :=
    keyword_columns ["budget"; "revenue"; "runtime"; "vote_average";
                     "vote_count"; "popularity"] tmdb_clean in
  let tmdb_clean := for_each numeric_columns guarded_numeric_body tmdb_clean in
  let date_columns := keyword_columns ["date"; "release"] tmdb_clean in
  let tmdb_clean := for_each date_columns date_body tmdb_clean in
  text_loop date_columns tmdb_clean.

Definition clean_tmdb_data : M DataFrame :=
  tmdb_df ← read_csv (join original_data_path "tmdb.movies.csv.gz");
  let tmdb_clean := tmdb_frame tmdb_df in
  to_csv tmdb_clean (join cleaned_data_path "tmdb_movies_cleaned.csv");;
  ret tmdb_clean.

Definition rotten_tomatoes_info_frame (rt_info_df : DataFrame) : DataFrame :=
  let rt_info_clean := drop_duplicates rt_info_df in
  let rating_columns :=
    keyword_columns ["rating"; "score"; "percent"] rt_info_clean in
  let rt_info_clean := for_each rating_columns percent_body rt_info_clean in
  let year_columns := keyword_columns ["year"] rt_info_clean in
  let rt_info_clean := for_each year_columns numeric_body rt_info_clean in
  text_loop rating_columns rt_info_clean.

Definition clean_rotten_tomatoes_info : M DataFrame :=
  rt_info_df ← read_csv (join original_data_path "rt.movie_info.tsv.gz");
  let rt_info_clean := rotten_tomatoes_info_frame rt_info_df in
  to_csv rt_info_clean (join cleaned_data_path "rt_movie_info_cleaned.csv");;
  ret rt_info_clean.

Definition rotten_tomatoes_reviews_frame (rt_reviews_df : DataFrame)
  : DataFrame :=
  let rt_reviews_clean := drop_duplicates rt_reviews_df in
  let rating_columns := keyword_columns ["rating"; "score"] rt_reviews_clean in
  let rt_reviews_clean :=
    for_each rating_columns guarded_numeric_body rt_reviews_clean in
  let date_columns := keyword_columns ["date"] rt_reviews_clean in
  let rt_reviews_clean := for_each date_columns date_body rt_reviews_clean in
  text_loop date_columns rt_reviews_clean.

Definition clean_rotten_tomatoes_reviews : M DataFrame :=
  rt_reviews_df ← read_csv (join original_data_path "rt.reviews.tsv");
  let rt_reviews_clean := rotten_tomatoes_reviews_frame rt_reviews_df in
  to_csv rt_reviews_clean (join cleaned_data_path "rt_reviews_cleaned.csv");;
  ret rt_reviews_clean.

(** *** The IMDb archive *)

(** [zipfile.ZipFile(p, 'r')] *)
Definition open_zip (p : path) : M (list (path * string * file)) :=
  f ← open_read p;
  match f with
  | Archive members => mret members
  | _ => raise BadZipFile
  end.

(** [zip_ref.extractall(dir)]: every member is written below [dir], in
    archive order. *)
Fixpoint extractall (members : list (path * string * file)) (dir : path)
  : M unit :=
  match members with
  | [] => mret tt
  | (parents, name, f) :: rest =>
      write_file (join (dir ++ parents) name) f;; extractall rest dir
  end.

(** [sqlite3.connect(p)]: the file is opened lazily, so any existing
    file gives a connection; a path that is no file does not. *)
Definition connect (p : path) : M unit :=
  fun s =>
    if is_file (fs s) p
    then (Ok tt, {| fs := fs s; open_connections := S (open_connections s) |})
    else (Raise OperationalError, s).

(** [conn.close()] *)
Definition close : M unit :=
  fun s => (Ok tt, {| fs := fs s;
                      open_connections := pred (open_connections s) |}).

(** [SELECT name FROM sqlite_master WHERE type='table'] on the
    connection to [p]: fails when the file is not a database. *)
Definition table_names (p : path) : M (list string) :=
  m ← get_fs;
  match m !! p with
  | Some (Database tables) => mret (map fst tables)
  | _ => raise DatabaseError
  end.

Fixpoint lookup_table (name : string) (tables : list (string * DataFrame))
  : option DataFrame :=
  match tables with
  | [] => None
  | (n, df) :: rest => if String.eqb n name then Some df else lookup_table name rest
  end.

(** [SELECT * FROM {table_name}] with the name spliced in unquoted: a
    name SQLite does not accept there makes the statement fail. *)
Definition select_all (p : path) (table_name : string) : M DataFrame :=
  m ← get_fs;
  if sql_name_ok table_name then
    match m !! p with
    | Some (Database tables) =>
        match lookup_table table_name tables with
        | Some df => mret df
        | None => raise OperationalError
        end
    | _ => raise DatabaseError
    end
  else raise OperationalError.

(** [SELECT COUNT( * ) FROM {table_name}] *)
Definition count_rows (p : path) (table_name : string) : M nat :=
  df ← select_all p table_name; mret (len df).

(** The cleaning of one table, from the frame read to the frame saved. *)
Definition imdb_table_frame (df : DataFrame) : DataFrame :=
  let df_clean := drop_duplicates df in
  let text_columns := select_dtypes_object df_clean in
  let df_clean := for_each text_columns text_body df_clean in
  for_each (columns df_clean)
    (fun df col => if negb (mem col text_columns) then numeric_body df col else df)
    df_clean.

Fixpoint count_loop (db_path : path) (tables : list string) : M unit :=
  match tables with
  | [] => mret tt
  | table_name :: rest =>
      count_rows db_path table_name;; count_loop db_path rest
  end.

Fixpoint clean_loop (db_path : path) (tables : list string)
    (cleaned_tables : gmap string DataFrame) : M (gmap string DataFrame) :=
  match tables with
  | [] => mret cleaned_tables
  | table_name :: rest =>
      df ← select_all db_path table_name;
      let df_clean := imdb_table_frame df in
      to_csv df_clean
        (join cleaned_data_path ("imdb_" +:+ table_name +:+ "_cleaned.csv"));;
      clean_loop db_path rest (<[table_name := df_clean]> cleaned_tables)
  end.

(** [None] is the script's [return None]. *)
Definition extract_and_clean_imdb_data : M (option (gmap string DataFrame)) :=
  let zip_path := join original_data_path "im.db.zip" in
  let extract_path := join original_data_path "extracted" in
  mkdir_exist_ok extract_path;;
  members ← open_zip zip_path;
  extractall members extract_path;;
  m ← get_fs;
  let db_files := glob_suffix m extract_path ".db" in
  match db_files with
  | [] => mret None
  | db_path :: _ =>
      connect db_path;;
      tables ← table_names db_path;
      count_loop db_path tables;;
      cleaned_tables ← clean_loop db_path tables ∅;
      close;;
      mret (Some cleaned_tables)
  end.

(** *** Inventory, summary and the main block *)

(** The inventory lists the files directly in the source directory.
    With no file at all the frame built from the empty list has no
    ['size_mb'] column and sorting by it raises [KeyError].  Sizes are
    not modelled: the result is the file names, and their order, which
    the script makes that of the sizes, carries no meaning. *)
Definition inspect_dataset_files : M (list string) :=
  names ← iterdir original_data_path;
  m ← get_fs;
  let files_info :=
    List.filter (fun n => is_file m (join original_data_path n)) names in
  match files_info with
  | [] => raise KeyError
  | _ => mret files_info
  end.

(** The summary reads the output directory; whatever goes wrong while a
    file is measured is caught inside the loop, and the result is the
    list of files found. *)
Definition generate_cleaning_summary : M (list path) :=
  m ← get_fs;
  mret (glob_suffix m cleaned_data_path ".csv").

Record run := {
  files_inventory : list string;
  bom_clean : DataFrame;
  budgets_clean : DataFrame;
  tmdb_clean : DataFrame;
  rt_info_clean : DataFrame;
  rt_reviews_clean : DataFrame;
  imdb_tables : option (gmap string DataFrame);
  cleaned_files : list path
}.

(** The main block from the first cleaner on, [files_inventory] being the
    result of the inventory. *)
Definition after_inventory (files_inventory : list string) : M run :=
  bom_clean ← clean_box_office_data;
  budgets_clean ← clean_movie_budgets_data;
  tmdb_clean ← clean_tmdb_data;
  rt_info_clean ← clean_rotten_tomatoes_info;
  rt_reviews_clean ← clean_rotten_tomatoes_reviews;
  imdb_tables ← extract_and_clean_imdb_data;
  cleaned_files ← generate_cleaning_summary;
  mret {| files_inventory := files_inventory;
          bom_clean := bom_clean;
          budgets_clean := budgets_clean;
          tmdb_clean := tmdb_clean;
          rt_info_clean := rt_info_clean;
          rt_reviews_clean := rt_reviews_clean;
          imdb_tables := imdb_tables;
          cleaned_files := cleaned_files |}.

(** The block under [if __name__ == "__main__"] *)
Definition main : M run :=
  files_inventory ← inspect_dataset_files;
  bom_clean ← clean_box_office_data;
  budgets_clean ← clean_movie_budgets_data;
  tmdb_clean ← clean_tmdb_data;
  rt_info_clean ← clean_rotten_tomatoes_info;
  rt_reviews_clean ← clean_rotten_tomatoes_reviews;
  imdb_tables ← extract_and_clean_imdb_data;
  cleaned_files ← generate_cleaning_summary;
  mret {| files_inventory := files_inventory;
          bom_clean := bom_clean;
          budgets_clean := budgets_clean;
          tmdb_clean := tmdb_clean;
          rt_info_clean := rt_info_clean;
          rt_reviews_clean := rt_reviews_clean;
          imdb_tables := imdb_tables;
          cleaned_files := cleaned_files |}.

(** Running the script as a fresh process on the files [m]: the
    statements at module level, of which [cleaned_data_path.mkdir] is the
    one that acts on the files, and then the main block. *)
Definition run_script (m : gmap path file) : result run * state :=
  (mkdir_exist_ok cleaned_data_path;; main) {| fs := m; open_connections := 0 |}.

(** *** The loops, element by element and stage by stage

    Derived readings of the code above, used to state its properties:
    what each conversion does to one cell and to one column, and the
    cleaners as a sequence of stages. *)

Definition money_cell (c : cell) : cell :=
  to_numeric_cell (on_str (Py.remove_chars ["$"; ","]%char) (Str (py_str c))).

Definition percent_cell (c : cell) : cell :=
  to_numeric_cell (on_str (Py.remove_chars ["%"]%char) (Str (py_str c))).

Definition text_cell (c : cell) : cell :=
  replace_cell "nan" NaN (on_str Py.strip (Str (py_str c))).

Definition money_series (s : Series) : Series :=
  if is_object (dtype_of s)
  then {| dtype_of := numeric; values := map money_cell (values s) |}
  else s.

Definition percent_series (s : Series) : Series :=
  if is_object (dtype_of s)
  then {| dtype_of := numeric; values := map percent_cell (values s) |}
  else s.

Definition text_series (s : Series) : Series :=
  {| dtype_of := object; values := map text_cell (values s) |}.

Definition date_series (s : Series) : Series :=
  match to_datetime s with Some s' => s' | None => s end.

(** The five datasets that have a cleaner of their own. *)
Inductive dataset :=
| BoxOffice
| MovieBudgets
| Tmdb
| RottenTomatoesInfo
| RottenTomatoesReviews.

Definition source_file (d : dataset) : path :=
  join original_data_path
    match d with
    | BoxOffice => "bom.movie_gross.csv.gz"
    | MovieBudgets => "tn.movie_budgets.csv.gz"
    | Tmdb => "tmdb.movies.csv.gz"
    | RottenTomatoesInfo => "rt.movie_info.tsv.gz"
    | RottenTomatoesReviews => "rt.reviews.tsv"
    end.

Definition output_file (d : dataset) : path :=
  join cleaned_data_path
    match d with
    | BoxOffice => "bom_movie_gross_cleaned.csv"
    | MovieBudgets => "movie_budgets_cleaned.csv"
    | Tmdb => "tmdb_movies_cleaned.csv"
    | RottenTomatoesInfo => "rt_movie_info_cleaned.csv"
    | RottenTomatoesReviews => "rt_reviews_cleaned.csv"
    end.

Definition frame_of (d : dataset) : DataFrame -> DataFrame :=
  match d with
  | BoxOffice => box_office_frame
  | MovieBudgets => movie_budgets_frame
  | Tmdb => tmdb_frame
  | RottenTomatoesInfo => rotten_tomatoes_info_frame
  | RottenTomatoesReviews => rotten_tomatoes_reviews_frame
  end.

Definition cleaner (d : dataset) : M DataFrame :=
  match d with
  | BoxOffice => clean_box_office_data
  | MovieBudgets => clean_movie_budgets_data
  | Tmdb => clean_tmdb_data
  | RottenTomatoesInfo => clean_rotten_tomatoes_info
  | RottenTomatoesReviews => clean_rotten_tomatoes_reviews
  end.

(** The categories a column can be put in, and the keywords each
    cleaner looks for.  [generic_number] is the keyword list of the
    movie-metadata cleaner (budget, revenue, runtime, votes,
    popularity); [textual] has no keywords. *)
Inductive category :=
| monetary
| temporal
| year
| rating
| generic_number
| textual.

Definition keywords (d : dataset) (c : category) : list string :=
  match d, c with
  | BoxOffice, monetary => ["gross"; "revenue"; "budget"; "sales"]
  | BoxOffice, year => ["year"]
  | MovieBudgets, monetary => ["budget"; "gross"; "revenue"]
  | MovieBudgets, temporal => ["date"; "release"]
  | Tmdb, generic_number =>
      ["budget"; "revenue"; "runtime"; "vote_average"; "vote_count";
       "popularity"]
  | Tmdb, temporal => ["date"; "release"]
  | RottenTomatoesInfo, rating => ["rating"; "score"; "percent"]
  | RottenTomatoesInfo, year => ["year"]
  | RottenTomatoesReviews, rating => ["rating"; "score"]
  | RottenTomatoesReviews, temporal => ["date"]
  | _, _ => []
  end.

(** The category of the first and of the second keyword loop of each
    cleaner. *)
Definition first_category (d : dataset) : category :=
  match d with
  | BoxOffice | MovieBudgets => monetary
  | Tmdb => generic_number
  | RottenTomatoesInfo | RottenTomatoesReviews => rating
  end.

Definition second_category (d : dataset) : category :=
  match d with
  | BoxOffice | RottenTomatoesInfo => year
  | MovieBudgets | Tmdb | RottenTomatoesReviews => temporal
  end.

Definition deduplicate (d : dataset) (df : DataFrame) : DataFrame :=
  match d with
  | BoxOffice =>
      if (0 <? sum (duplicated df))%nat then drop_duplicates df else df
  | _ => drop_duplicates df
  end.

Definition first_loop (d : dataset) (df : DataFrame) : DataFrame :=
  for_each (keyword_columns (keywords d (first_category d)) df)
    match d with
    | BoxOffice | MovieBudgets => money_body
    | Tmdb | RottenTomatoesReviews => guarded_numeric_body
    | RottenTomatoesInfo => percent_body
    end df.

Definition second_loop (d : dataset) (df : DataFrame) : DataFrame :=
  for_each (keyword_columns (keywords d (second_category d)) df)
    match d with
    | BoxOffice | RottenTomatoesInfo => numeric_body
    | MovieBudgets | Tmdb | RottenTomatoesReviews => date_body
    end df.

(** The names the text loop skips, [df] being the deduplicated frame. *)
Definition text_excluded (d : dataset) (df : DataFrame) : list string :=
  let first := keyword_columns (keywords d (first_category d)) df in
  let second :=
    keyword_columns (keywords d (second_category d)) (first_loop d df) in
  match d with
  | BoxOffice | RottenTomatoesInfo => first
  | MovieBudgets => first ++ second
  | Tmdb | RottenTomatoesReviews => second
  end.

(** The frame the text loop starts from. *)
Definition typed (d : dataset) (df : DataFrame) : DataFrame :=
  second_loop d (first_loop d (deduplicate d df)).

(** The columns a category claims: by keyword for the keyword
    categories; for [textual], the columns the text loop rewrites. *)
Definition claimed (d : dataset) (c : category) (df : DataFrame) : list string :=
  match c with
  | textual =>
      List.filter
        (fun col => negb (mem col (text_excluded d (deduplicate d df))))
        (select_dtypes_object (typed d df))
  | _ => keyword_columns (keywords d c) df
  end.

(** The conversion each keyword loop applies to a column it visits. *)
Definition first_conversion (d : dataset) : Series -> Series :=
  match d with
  | BoxOffice | MovieBudgets => money_series
  | Tmdb | RottenTomatoesReviews => to_numeric
  | RottenTomatoesInfo => percent_series
  end.

Definition second_conversion (d : dataset) : Series -> Series :=
  match d with
  | BoxOffice | RottenTomatoesInfo => to_numeric
  | MovieBudgets | Tmdb | RottenTomatoesReviews => date_series
  end.

Definition datasets : list dataset :=
  [BoxOffice; MovieBudgets; Tmdb; RottenTomatoesInfo; RottenTomatoesReviews].

(** The files after the cleaners in [ds] have run in order on sources
    holding [raw]. *)
Definition outputs_written (raw : dataset -> DataFrame) (ds : list dataset)
    (m : gmap path file) : gmap path file :=
  fold_left (fun m d => <[output_file d := Table (frame_of d (raw d))]> m) ds m.

(** The part of the extractor that runs with the connection open. *)
Definition connected_part (db_path : path) : M (option (gmap string DataFrame)) :=
  connect db_path;;
  tables ← table_names db_path;
  count_loop db_path tables;;
  cleaned_tables ← clean_loop db_path tables ∅;
  close;;
  mret (Some cleaned_tables).

(** The rating rule as the specification words it: a ['%'] at the end
    of the string is dropped, and the rest is parsed. *)
Fixpoint strip_percent_suffix (s : string) : string :=
  match s with
  | EmptyString => EmptyString
  | String c EmptyString => if Ascii.eqb c "%" then EmptyString else s
  | String c s' => String c (strip_percent_suffix s')
  end.

Definition rating_cell_as_specified (c : cell) : cell :=
  to_numeric_cell (Str (strip_percent_suffix (py_str c))).

End Steps.

(** *** The run as a function of the files

    Derived notions used to relate two runs: sequences of writes, the
    outcome of the archive step as a function of the files it finds, and
    what the steps of the script keep. *)

(** A sequence of file writes, applied in order. *)
Definition apply_writes (W : list (path * file)) (m : gmap path file)
  : gmap path file :=
  fold_left (fun m w => <[fst w := snd w]> m) W m.

Definition member_writes (members : list (path * string * file)) (dir : path)
  : list (path * file) :=
  map (fun '(parents, name, f) => (join (dir ++ parents) name, f)) members.

(** The value the last write to [p] in [W] leaves there, if any. *)
Fixpoint last_write (W : list (path * file)) (p : path) : option file :=
  match W with
  | [] => None
  | (q, f) :: W' =>
      match last_write W' p with
      | Some g => Some g
      | None => if decide (q = p) then Some f else None
      end
  end.

(** The result of the inventory on the files [m]. *)
Definition inventory `{Library} (m : gmap path file) : list string :=
  List.filter (fun n => is_file m (join original_data_path n))
              (listdir m original_data_path).

(** No file stands where the script expects a directory: the source
    directory, the output directory and the extraction directory. *)
Definition directories_free (m : gmap path file) : Prop :=
  m !! original_data_path = None
  /\ m !! cleaned_data_path = None
  /\ m !! extract_path = None.

(** The result [r] with [files] for its inventory. *)
Definition with_inventory (files : list string) (r : run) : run :=
  {| files_inventory := files;
     bom_clean := bom_clean r;
     budgets_clean := budgets_clean r;
     tmdb_clean := tmdb_clean r;
     rt_info_clean := rt_info_clean r;
     rt_reviews_clean := rt_reviews_clean r;
     imdb_tables := imdb_tables r;
     cleaned_files := cleaned_files r |}.

(** Two outcomes of the script that are the same exception, or two
    results that differ at most in the order of the inventory. *)
Definition same_outcome (a b : result run) : Prop :=
  match a, b with
  | Ok x, Ok y =>
      files_inventory y ≡ₚ files_inventory x
      /\ y = with_inventory (files_inventory y) x
  | Raise e, Raise e' => e = e'
  | _, _ => False
  end.

(** The paths the archive step writes: below the extraction directory, and
    the outputs named after a table. *)
Definition side_path (p : path) : Prop :=
  (exists parents name, p = join (extract_path ++ parents) name)
  \/ (exists table_name, p = imdb_output table_name).

Section Pure.
Context `{Library}.

(** The table loops read nothing but the database file, so their outcome
    is a function of its content [db]: the result, and the writes made
    up to the point where the loop ends or raises. *)
Definition select_all_pure (db : option file) (table_name : string)
  : result DataFrame :=
  if sql_name_ok table_name then
    match db with
    | Some (Database tables) =>
        match lookup_table table_name tables with
        | Some df => Ok df
        | None => Raise OperationalError
        end
    | _ => Raise DatabaseError
    end
  else Raise OperationalError.

Fixpoint count_loop_pure (db : option file) (tables : list string) : result unit :=
  match tables with
  | [] => Ok tt
  | table_name :: rest =>
      match select_all_pure db table_name with
      | Ok _ => count_loop_pure db rest
      | Raise e => Raise e
      end
  end.

Fixpoint clean_loop_pure (db : option file) (tables : list string)
    (cleaned_tables : gmap string DataFrame)
  : result (gmap string DataFrame) * list (path * file) :=
  match tables with
  | [] => (Ok cleaned_tables, [])
  | table_name :: rest =>
      match select_all_pure db table_name with
      | Ok df =>
          let df_clean := imdb_table_frame df in
          let '(r, W) :=
            clean_loop_pure db rest (<[table_name := df_clean]> cleaned_tables) in
          (r, (imdb_output table_name, Table df_clean) :: W)
      | Raise e => (Raise e, [])
      end
  end.

(** The outcome of the connected part on the files [m]: the result, the
    writes, and whether the connection is left open. *)
Definition connected_outcome (db_path : path) (m : gmap path file)
  : result (option (gmap string DataFrame)) * list (path * file) * bool :=
  if is_file m db_path then
    match m !! db_path with
    | Some (Database tables) =>
        match count_loop_pure (m !! db_path) (map fst tables) with
        | Ok _ =>
            match clean_loop_pure (m !! db_path) (map fst tables) ∅ with
            | (Ok cleaned_tables, W) => (Ok (Some cleaned_tables), W, false)
            | (Raise e, W) => (Raise e, W, true)
            end
        | Raise e => (Raise e, [], true)
        end
    | _ => (Raise DatabaseError, [], true)
    end
  else (Raise OperationalError, [], false).

(** The outcome of the whole extractor on the files [m]. *)
Definition extract_outcome (m : gmap path file)
  : result (option (gmap string DataFrame)) * list (path * file) * bool :=
  match mkdir_error m extract_path with
  | Some e => (Raise e, [], false)
  | None =>
      match open_file m zip_path with
      | Ok (Archive members) =>
          let W0 := member_writes members extract_path in
          match glob_suffix (apply_writes W0 m) extract_path ".db" with
          | [] => (Ok None, W0, false)
          | db_path :: _ =>
              let '(r, W, o) := connected_outcome db_path (apply_writes W0 m) in
              (r, W0 ++ W, o)
          end
      | Ok _ => (Raise BadZipFile, [], false)
      | Raise e => (Raise e, [], false)
      end
  end.

Definition after_outcome (W : list (path * file)) (o : bool) (s : state) : state :=
  {| fs := apply_writes W (fs s);
     open_connections := if o then S (open_connections s) else open_connections s |}.

End Pure.

Section Replay.
Context `{Library}.

(** What a finished cleaner leaves behind: its source opens as it did
    and, when the source was a table, the cleaned table is in its
    output. *)
Definition cleaner_fact (d : dataset) (src : result file) (e : gmap path file)
  : Prop :=
  open_file e (source_file d) = src
  /\ forall df, src = Ok (Table df) ->
                e !! output_file d = Some (Table (frame_of d df)).

(** [c] keeps the property [Q] of the files. *)
Definition preserves {A} (c : M A) (Q : gmap path file -> Prop) : Prop :=
  forall s r s', c s = (r, s') -> Q (fs s) -> Q (fs s').

(** [Q] is kept by every step that can follow the inventory. *)
Definition stable (Q : gmap path file -> Prop) : Prop :=
  (forall d, preserves (cleaner d) Q)
  /\ preserves extract_and_clean_imdb_data Q
  /\ preserves generate_cleaning_summary Q.
End Replay.

(** *** The cleaners column by column, and the order of the main block

    Derived readings used to state what a cleaner makes of one column and
    where a run stops. *)

(** [any(x in name.lower() for x in keywords)], for the keyword list of
    the category [c] of the cleaner [d] *)
Definition carries (d : dataset) (c : category) (name : string) : bool :=
  Py.any_in (keywords d c) (Py.lower name).

(** Whether the text loop of the cleaner [d] skips a column by its name
    ([col not in money_columns], [col not in date_columns], ...). *)
Definition text_skips (d : dataset) (name : string) : bool :=
  match d with
  | BoxOffice | RottenTomatoesInfo => carries d (first_category d) name
  | MovieBudgets => carries d monetary name || carries d temporal name
  | Tmdb | RottenTomatoesReviews => carries d temporal name
  end.

Section Columns.
Context `{Library}.

(** What the cleaner [d] makes of the column [name] of the deduplicated
    frame: the conversion of the first keyword loop when the name carries
    one of its keywords, then that of the second loop, then the text
    treatment when the column is still of dtype object and the text loop
    does not skip the name. *)
Definition cleaned_column (d : dataset) (name : string) (s : Series) : Series :=
  let s1 := if carries d (first_category d) name then first_conversion d s else s in
  let s2 := if carries d (second_category d) name then second_conversion d s1 else s1 in
  if is_object (dtype_of s2) && negb (text_skips d name) then text_series s2 else s2.

(** What the cleaning of a database table makes of one column. *)
Definition cleaned_table_column (s : Series) : Series :=
  if is_object (dtype_of s) then text_series s else to_numeric s.

(** The frame saved under the table name [t], [tables] being the tables of
    the database. *)
Definition cleaned_table (tables : list (string * DataFrame)) (t : string)
  : option DataFrame :=
  imdb_table_frame <$> lookup_table t tables.

End Columns.

(** The cleaners the main block runs before that of [d]. *)
Definition earlier (d : dataset) : list dataset :=
  match d with
  | BoxOffice => []
  | MovieBudgets => [BoxOffice]
  | Tmdb => [BoxOffice; MovieBudgets]
  | RottenTomatoesInfo => [BoxOffice; MovieBudgets; Tmdb]
  | RottenTomatoesReviews => [BoxOffice; MovieBudgets; Tmdb; RottenTomatoesInfo]
  end.

(** The decimal numeral of a natural number, as [str] writes it. *)
Definition numeral (n : nat) : string := NilEmpty.string_of_uint (Nat.to_uint n).

(** A concrete library, for examples: numbers and timestamps print as
    fixed tokens, no string is a date, a table name is accepted unquoted
    when it is made of letters, digits and underscores and does not start
    with a digit, and a directory is listed in lexicographic order. *)
Definition is_name_char (c : ascii) : bool :=
  let n := nat_of_ascii c in
  ((48 <=? n) && (n <=? 57) || (65 <=? n) && (n <=? 90)
   || (97 <=? n) && (n <=? 122) || (n =? 95))%nat.

Fixpoint all_name_chars (s : string) : bool :=
  match s with
  | EmptyString => true
  | String c s' => is_name_char c && all_name_chars s'
  end.

Definition plain_identifier (s : string) : bool :=
  match s with
  | EmptyString => false
  | String c _ => negb (Numeric.is_digit c) && all_name_chars s
  end.

Definition example_library : Library :=
  {| repr_number := fun _ => "<number>";
     repr_timestamp := fun _ => "<timestamp>";
     parse_datetime := fun _ => None;
     sql_name_ok := plain_identifier;
     listing_order := fun _ names => names;
     listing_order_permutation := fun _ names => Permutation_refl names |}.

End Cleaning.

(** ** The notebook builders *)

Module Notebooks.

(** The values [json.dump] is given: Python dictionaries with string
    keys (in insertion order), lists, strings, integers and [None]. *)
#[local] Unset Elimination Schemes.
Inductive json :=
| JNull
| JInt (n : Z)
| JStr (s : string)
| JList (items : list json)
| JDict (entries : list (string * json)).
#[local] Set Elimination Schemes.

(** The double quote and the line feed, which a string literal cannot
    hold. *)
Definition dq : string := String (ascii_of_nat 34) EmptyString.
Definition nl : string := String (ascii_of_nat 10) EmptyString.

(** [d[key]] *)
Fixpoint lookup_entry (key : string) (entries : list (string * json))
  : option json :=
  match entries with
  | [] => None
  | (k, v) :: rest => if String.eqb k key then Some v else lookup_entry key rest
  end.

Definition field (key : string) (j : json) : option json :=
  match j with
  | JDict entries => lookup_entry key entries
  | _ => None
  end.

Definition cells (nb : json) : list json :=
  match field "cells" nb with
  | Some (JList items) => items
  | _ => []
  end.

Definition is_cell_of_type (t : string) (c : json) : Prop :=
  field "cell_type" c = Some (JStr t).

Definition create_cleaning_notebook : json :=
  JDict [
    ("cells", JList [
        JDict [
          ("cell_type", JStr "markdown");
          ("metadata", JDict []);
          ("source", JList [
              JStr ("# Movie Dataset Cleaning Pipeline" +:+ nl);
              JStr ("## Comprehensive Data Cleaning for EDA Project" +:+ nl);
              JStr nl;
              JStr ("This notebook systematically cleans all movie datasets from the `Original_Data` folder and exports clean, analysis-ready datasets." +:+ nl);
              JStr nl;
              JStr ("### 📋 Datasets to Process:" +:+ nl);
              JStr ("1. **Box Office Mojo** (`bom.movie_gross.csv.gz`) - Box office gross earnings" +:+ nl);
              JStr ("2. **TMDb Movies** (`tmdb.movies.csv.gz`) - The Movie Database metadata" +:+ nl);
              JStr ("3. **Movie Budgets** (`tn.movie_budgets.csv.gz`) - Production budgets and revenues" +:+ nl);
              JStr ("4. **Rotten Tomatoes Info** (`rt.movie_info.tsv.gz`) - Movie ratings and metadata" +:+ nl);
              JStr ("5. **Rotten Tomatoes Reviews** (`rt.reviews.tsv`) - Individual movie reviews" +:+ nl);
              JStr ("6. **IMDb Database** (`im.db.zip`) - Comprehensive movie database" +:+ nl);
              JStr nl;
              JStr ("### 🎯 Cleaning Objectives:" +:+ nl);
              JStr ("- Handle missing values appropriately" +:+ nl);
              JStr ("- Standardize data types and formats" +:+ nl);
              JStr ("- Remove duplicates" +:+ nl);
              JStr ("- Clean financial data (currency formatting)" +:+ nl);
              JStr ("- Validate and correct data inconsistencies" +:+ nl);
              JStr ("- Export clean datasets for analysis")])];
        JDict [
          ("cell_type", JStr "code");
          ("execution_count", JNull);
          ("metadata", JDict []);
          ("outputs", JList []);
          ("source", JList [
              JStr ("# Import required libraries" +:+ nl);
              JStr ("import pandas as pd" +:+ nl);
              JStr ("import numpy as np" +:+ nl);
              JStr ("import sqlite3" +:+ nl);
              JStr ("import zipfile" +:+ nl);
              JStr ("import gzip" +:+ nl);
              JStr ("import warnings" +:+ nl);
              JStr ("from pathlib import Path" +:+ nl);
              JStr ("import re" +:+ nl);
              JStr nl;
              JStr ("# Configure pandas for better display" +:+ nl);
              JStr ("pd.set_option('display.max_columns', None)" +:+ nl);
              JStr ("pd.set_option('display.width', None)" +:+ nl);
              JStr ("pd.set_option('display.max_rows', 100)" +:+ nl);
              JStr ("warnings.filterwarnings('ignore')" +:+ nl);
              JStr nl;
              JStr ("# Create directories" +:+ nl);
              JStr ("Path('cleaned_data').mkdir(exist_ok=True)" +:+ nl);
              JStr nl;
              JStr ("print(" +:+ dq +:+ "✅ Environment setup complete!" +:+ dq +:+ ")" +:+ nl);
              JStr ("print(f" +:+ dq +:+ "📁 Working directory: {Path.cwd()}" +:+ dq +:+ ")")])]]);
    ("metadata", JDict [
        ("kernelspec", JDict [
            ("display_name", JStr ("Python 3"));
            ("language", JStr "python");
            ("name", JStr "python3")]);
        ("language_info", JDict [
            ("codemirror_mode", JDict [
                ("name", JStr "ipython");
                ("version", JInt 3)]);
            ("file_extension", JStr ".py");
            ("name", JStr "python");
            ("nbconvert_exporter", JStr "python");
            ("pygments_lexer", JStr "ipython3");
            ("version", JStr "3.8.0")])]);
    ("nbformat", JInt 4);
    ("nbformat_minor", JInt 4)].

Definition create_eda_notebook : json :=
  JDict [
    ("cells", JList [
        JDict [
          ("cell_type", JStr "markdown");
          ("metadata", JDict []);
          ("source", JList [
              JStr ("# Movie Industry Exploratory Data Analysis" +:+ nl);
              JStr ("## Comprehensive Analysis of Movie Performance, Ratings, and Financial Data" +:+ nl);
              JStr nl;
              JStr ("This notebook performs thorough exploratory data analysis on cleaned movie datasets to uncover insights about:" +:+ nl);
              JStr nl;
              JStr ("### 🎯 Analysis Objectives:" +:+ nl);
              JStr ("- **Movie Performance Trends** - Box office performance over time" +:+ nl);
              JStr ("- **Rating Patterns** - TMDb and Rotten Tomatoes rating distributions" +:+ nl);
              JStr ("- **Financial Analysis** - Budget vs revenue relationships" +:+ nl);
              JStr ("- **Genre Analysis** - Popular genres and their performance" +:+ nl);
              JStr ("- **Studio Analysis** - Top performing studios and distributors" +:+ nl);
              JStr ("- **Temporal Trends** - Movie industry evolution over years" +:+ nl);
              JStr nl;
              JStr ("### 📋 Cleaned Datasets Used:" +:+ nl);
              JStr ("- **TMDb Movies** (26,517 records) - Movie metadata, ratings, popularity" +:+ nl);
              JStr ("- **Movie Budgets** (5,782 records) - Production budgets and revenues" +:+ nl);
              JStr ("- **Box Office Mojo** (3,387 records) - Domestic and foreign gross earnings" +:+ nl);
              JStr ("- **Rotten Tomatoes** (1,560 records) - Critical ratings and movie info")])];
        JDict [
          ("cell_type", JStr "code");
          ("execution_count", JNull);
          ("metadata", JDict []);
          ("outputs", JList []);
          ("source", JList [
              JStr ("# Import required libraries for comprehensive EDA" +:+ nl);
              JStr ("import pandas as pd" +:+ nl);
              JStr ("import numpy as np" +:+ nl);
              JStr ("import matplotlib.pyplot as plt" +:+ nl);
              JStr ("import seaborn as sns" +:+ nl);
              JStr ("import plotly.express as px" +:+ nl);
              JStr ("import plotly.graph_objects as go" +:+ nl);
              JStr ("from plotly.subplots import make_subplots" +:+ nl);
              JStr ("import warnings" +:+ nl);
              JStr ("from pathlib import Path" +:+ nl);
              JStr ("from datetime import datetime" +:+ nl);
              JStr ("import re" +:+ nl);
              JStr nl;
              JStr ("# Configure visualization settings" +:+ nl);
              JStr ("plt.style.use('seaborn-v0_8')" +:+ nl);
              JStr ("sns.set_palette(" +:+ dq +:+ "husl" +:+ dq +:+ ")" +:+ nl);
              JStr ("plt.rcParams['figure.figsize'] = (12, 8)" +:+ nl);
              JStr ("pd.set_option('display.max_columns', None)" +:+ nl);
              JStr ("warnings.filterwarnings('ignore')" +:+ nl);
              JStr nl;
              JStr ("print(" +:+ dq +:+ "✅ Libraries imported successfully!" +:+ dq +:+ ")" +:+ nl);
              JStr ("print(f" +:+ dq +:+ "📊 Analysis environment ready" +:+ dq +:+ ")")])];
        JDict [
          ("cell_type", JStr "markdown");
          ("metadata", JDict []);
          ("source", JList [
              JStr ("## Data Loading and Initial Overview" +:+ nl);
              JStr nl;
              JStr ("Loading all cleaned datasets and performing initial data quality checks.")])];
        JDict [
          ("cell_type", JStr "code");
          ("execution_count", JNull);
          ("metadata", JDict []);
          ("outputs", JList []);
          ("source", JList [
              JStr ("# Load all cleaned datasets" +:+ nl);
              JStr ("print(" +:+ dq +:+ "📂 Loading cleaned datasets..." +:+ dq +:+ ")" +:+ nl);
              JStr ("print(" +:+ dq +:+ "=" +:+ dq +:+ " * 40)" +:+ nl);
              JStr nl;
              JStr ("# Load datasets" +:+ nl);
              JStr ("tmdb_df = pd.read_csv('cleaned_data/tmdb_movies_cleaned.csv')" +:+ nl);
              JStr ("budgets_df = pd.read_csv('cleaned_data/movie_budgets_cleaned.csv')" +:+ nl);
              JStr ("bom_df = pd.read_csv('cleaned_data/box_office_mojo_cleaned.csv')" +:+ nl);
              JStr ("rt_df = pd.read_csv('cleaned_data/rotten_tomatoes_info_cleaned.csv')" +:+ nl);
              JStr nl;
              JStr ("# Convert date columns" +:+ nl);
              JStr ("tmdb_df['release_date'] = pd.to_datetime(tmdb_df['release_date'])" +:+ nl);
              JStr ("budgets_df['release_date'] = pd.to_datetime(budgets_df['release_date'])" +:+ nl);
              JStr nl;
              JStr ("datasets = {" +:+ nl);
              JStr ("    'TMDb Movies': tmdb_df," +:+ nl);
              JStr ("    'Movie Budgets': budgets_df," +:+ nl);
              JStr ("    'Box Office Mojo': bom_df," +:+ nl);
              JStr ("    'Rotten Tomatoes': rt_df" +:+ nl);
              JStr ("}" +:+ nl);
              JStr nl;
              JStr ("# Display basic info for each dataset" +:+ nl);
              JStr ("for name, df in datasets.items():" +:+ nl);
              JStr ("    print(f" +:+ dq +:+ "\n📊 {name}:" +:+ dq +:+ ")" +:+ nl);
              JStr ("    print(f" +:+ dq +:+ "   Shape: {df.shape[0]:,} rows × {df.shape[1]} columns" +:+ dq +:+ ")" +:+ nl);
              JStr ("    print(f" +:+ dq +:+ "   Columns: {list(df.columns)}" +:+ dq +:+ ")" +:+ nl);
              JStr ("    print(f" +:+ dq +:+ "   Memory usage: {df.memory_usage(deep=True).sum() / 1024**2:.1f} MB" +:+ dq +:+ ")" +:+ nl);
              JStr nl;
              JStr ("print(" +:+ dq +:+ "\n✅ All datasets loaded successfully!" +:+ dq +:+ ")")])]]);
    ("metadata", JDict [
        ("kernelspec", JDict [
            ("display_name", JStr ("Python 3"));
            ("language", JStr "python");
            ("name", JStr "python3")]);
        ("language_info", JDict [
            ("codemirror_mode", JDict [
                ("name", JStr "ipython");
                ("version", JInt 3)]);
            ("file_extension", JStr ".py");
            ("name", JStr "python");
            ("nbconvert_exporter", JStr "python");
            ("pygments_lexer", JStr "ipython3");
            ("version", JStr "3.8.0")])]);
    ("nbformat", JInt 4);
    ("nbformat_minor", JInt 4)].

(** Both scripts write the document with [json.dump(notebook, f, indent=2)];
    the documents are the two values above. *)
Definition generated_notebooks : list json :=
  [create_cleaning_notebook; create_eda_notebook].

(** [list(d)]: the keys of a dictionary, in insertion order *)
Definition keys (j : json) : list string :=
  match j with
  | JDict entries => map fst entries
  | _ => []
  end.

(** The number of line feeds in a string *)
Fixpoint line_feeds (s : string) : nat :=
  match s with
  | EmptyString => 0
  | String c s' => (if Ascii.eqb c (ascii_of_nat 10) then 1 else 0) + line_feeds s'
  end.

(** A multi-line string in the list form of the notebook format: strings
    only, every line but the last ending with its one line feed and the
    last line holding none. *)
Fixpoint is_multiline (lines : list json) : bool :=
  match lines with
  | [] => true
  | [JStr s] => (line_feeds s =? 0)%nat
  | JStr s :: rest => (line_feeds s =? 1)%nat && Py.endswith nl s && is_multiline rest
  | _ => false
  end.

End Notebooks.

(** ** Example inputs *)

Module Examples.
Import Numeric Pandas OS Cleaning.

#[local] Existing Instance example_library.

Definition column (d : dtype) (cells : list cell) : Series :=
  {| dtype_of := d; values := cells |}.

(** A box-office table of four rows in which the second row repeats the
    first and a gross is written with a currency sign and commas. *)
Definition box_office : DataFrame :=
  {| nrows := 4;
     cols :=
       [("title", column object [Str "Toy Story 3"; Str "Toy Story 3";
                                 Str "  Inception "; Str "nan"]);
        ("studio", column object [Str "BV"; Str "BV"; Str "WB"; NaN]);
        ("domestic_gross", column object [Str "$500,000"; Str "$500,000";
                                          Str "$1,234.50"; Str "n/a"]);
        ("year", column numeric [Num (Fin 2010); Num (Fin 2010);
                                 Num (Fin 2010); Num (Fin 2011)])] |}.

(** A budgets table with a column whose name carries a monetary and a
    date keyword. *)
Definition budgets : DataFrame :=
  {| nrows := 1;
     cols := [("movie", column object [Str "Avatar"]);
              ("release_gross", column object [Str "$5"])] |}.

Definition ratings : DataFrame :=
  {| nrows := 2;
     cols := [("critic", column object [Str " A. O. Scott"; Str "nan "]);
              ("rating", column object [Str "85%"; Str "8%5"])] |}.

(** A table of the database with a NULL in a text column. *)
Definition movie_basics : DataFrame :=
  {| nrows := 2;
     cols := [("movie_id", column object [Str "tt001"; Str "tt002"]);
              ("genres", column object [Str " Drama "; PyNone]);
              ("runtime_minutes", column numeric [Num (Fin 90); NaN])] |}.

Definition sources : gmap path file :=
  <[source_file BoxOffice := Table box_office]>
  (<[source_file MovieBudgets := Table budgets]>
  (<[source_file Tmdb := Table budgets]>
  (<[source_file RottenTomatoesInfo := Table ratings]>
  (<[source_file RottenTomatoesReviews := Table ratings]> ∅)))).

(** The raw table of each dataset in [sources]. *)
Definition raw (d : dataset) : DataFrame :=
  match d with
  | BoxOffice => box_office
  | MovieBudgets | Tmdb => budgets
  | RottenTomatoesInfo | RottenTomatoesReviews => ratings
  end.

(** The source directory with an archive that holds a database, one that
    holds no [.db] file, and one whose [.db] file is not a database. *)
Definition files_with_database : gmap path file :=
  <[zip_path := Archive [([], "im.db", Database [("movie_basics", movie_basics)])]]>
    sources.

Definition files_without_database : gmap path file :=
  <[zip_path := Archive [([], "README.txt", Blob);
                         (["data"], "im.db", Database [])]]> sources.


Definition fresh (m : gmap path file) : state :=
  {| fs := m; open_connections := 0 |}.

(** A reviews table with a date column, and a table whose two rows differ
    by a leading space only. *)
Definition reviews : DataFrame :=
  {| nrows := 2;
     cols := [("review", column object [Str " Good "; Str "Bad"]);
              ("date", column object [Str "2018-11-10"; NaN]);
              ("top_critic", column numeric [Num (Fin 0); Num (Fin 1)])] |}.

Definition two_titles : DataFrame :=
  {| nrows := 2; cols := [("title", column object [Str "Up"; Str " Up"])] |}.

(** A table with a budget written with a currency sign and a comma. *)
Definition priced : DataFrame :=
  {| nrows := 1; cols := [("budget", column object [Str "$1,234.50"])] |}.

(** The source directory without the movie-metadata file, a directory
    that holds nothing but an extracted database, an archive whose
    database has a table with a name that needs quoting, and a run's
    directory with an output of an earlier run that no step writes any
    more. *)
Definition files_without_tmdb : gmap path file :=
  delete (source_file Tmdb) sources.

Definition only_extracted : gmap path file :=
  {[ join extract_path "im.db" := Database [] ]}.


Definition files_with_stale_output : gmap path file :=
  <[join cleaned_data_path "old_cleaned.csv" := Table budgets]> files_without_database.

(** Complete inputs with a file that has the name of the output
    directory, and with one that has the name of the extraction
    directory. *)
Definition files_with_output_name_taken : gmap path file :=
  <[cleaned_data_path := Blob]> files_with_database.

Definition files_with_extraction_name_taken : gmap path file :=
  <[extract_path := Blob]> files_with_database.

End Examples.

(** * Properties *)

Import Numeric Pandas OS Cleaning.

(** ** Facts about the string helpers *)

Lemma lstrip_first s :
  match Py.first_char (Py.lstrip s) with
  | Some c => Py.isspace c = false
  | None => True
  end.
Proof.
  induction s as [|c s IH]; simpl; [done|].
  destruct (Py.isspace c) eqn:E; [exact IH | simpl; exact E].
Qed.

Lemma rstrip_last s :
  match Py.last_char (Py.rstrip s) with
  | Some c => Py.isspace c = false
  | None => True
  end.
Proof.
  induction s as [|c s IH]; simpl; [done|].
  destruct (Py.isspace c) eqn:E, (Py.rstrip s) as [|d r] eqn:R; simpl in *; auto.
Qed.

Lemma lstrip_fixed s :
  match Py.first_char s with Some c => Py.isspace c = false | None => True end ->
  Py.lstrip s = s.
Proof. destruct s as [|c s]; simpl; [done|]. by intros ->. Qed.

Lemma rstrip_fixed s :
  match Py.last_char s with Some c => Py.isspace c = false | None => True end ->
  Py.rstrip s = s.
Proof.
  induction s as [|c s IH]; [done|].
  change (Py.last_char (String c s))
    with (match s with EmptyString => Some c | String _ _ => Py.last_char s end).
  intros Hl. simpl. destruct s as [|d s'].
  - simpl. by rewrite Hl.
  - rewrite (IH Hl). by rewrite andb_false_r.
Qed.

Lemma rstrip_keeps_first c s :
  Py.isspace c = false ->
  Py.first_char (Py.rstrip (String c s)) = Some c.
Proof. intros E. simpl. by rewrite E. Qed.

Lemma strip_first s :
  match Py.first_char (Py.strip s) with
  | Some c => Py.isspace c = false
  | None => True
  end.
Proof.
  unfold Py.strip. pose proof (lstrip_first s) as Hf.
  destruct (Py.lstrip s) as [|c t]; [done|].
  simpl in Hf. by rewrite rstrip_keeps_first.
Qed.

Lemma trimmed_strip s : Py.trimmed (Py.strip s) = true.
Proof.
  unfold Py.trimmed. pose proof (strip_first s) as Hf.
  pose proof (rstrip_last (Py.lstrip s)) as Hl. fold (Py.strip s) in Hl.
  destruct (Py.first_char (Py.strip s)); [|done].
  destruct (Py.last_char (Py.strip s)); [|done].
  by rewrite Hf, Hl.
Qed.

Lemma strip_idempotent s : Py.strip (Py.strip s) = Py.strip s.
Proof.
  unfold Py.strip at 1. rewrite (lstrip_fixed _ (strip_first s)).
  apply rstrip_fixed. apply (rstrip_last (Py.lstrip s)).
Qed.

Lemma remove_chars_occurs c chars s :
  existsb (Ascii.eqb c) chars = true ->
  Py.occurs c (Py.remove_chars chars s) = false.
Proof.
  intros Hc. induction s as [|d s IH]; simpl; [done|].
  destruct (existsb (Ascii.eqb d) chars) eqn:E; [done|].
  simpl. rewrite IH, orb_false_r.
  destruct (Ascii.eqb_spec c d) as [->|]; [congruence | done].
Qed.

(** ** Columns of a frame *)

Lemma mem_true col names : mem col names = true <-> col ∈ names.
Proof.
  unfold mem. rewrite existsb_exists. split.
  - intros (x & Hx & E). apply String.eqb_eq in E as ->. by apply list_elem_of_In.
  - intros Hc. exists col. split; [by apply list_elem_of_In | apply String.eqb_refl].
Qed.

Lemma mem_false col names : mem col names = false <-> col ∉ names.
Proof. rewrite <- mem_true. destruct (mem col names); split; congruence. Qed.

Lemma lookup_assign col s cs : lookup_col col (assign_col col s cs) = Some s.
Proof.
  induction cs as [|[n s0] cs IH]; simpl.
  - by rewrite String.eqb_refl.
  - destruct (String.eqb n col) eqn:E; simpl; by rewrite E.
Qed.

Lemma lookup_assign_ne col n s cs :
  n <> col -> lookup_col n (assign_col col s cs) = lookup_col n cs.
Proof.
  intros Hne. induction cs as [|[m s0] cs IH]; simpl.
  - destruct (String.eqb_spec col n); congruence.
  - destruct (String.eqb_spec m col) as [->|]; simpl.
    + destruct (String.eqb_spec col n); congruence.
    + by rewrite IH.
Qed.

Lemma assign_assign col s t cs :
  assign_col col t (assign_col col s cs) = assign_col col t cs.
Proof.
  induction cs as [|[n s0] cs IH]; simpl.
  - by rewrite String.eqb_refl.
  - destruct (String.eqb n col) eqn:E; simpl; rewrite E; [done | by rewrite IH].
Qed.

Lemma assign_same col s cs : lookup_col col cs = Some s -> assign_col col s cs = cs.
Proof.
  induction cs as [|[n s0] cs IH]; simpl; [done|].
  destruct (String.eqb_spec n col) as [->|]; [by intros [= ->] | intros Hl; by rewrite IH].
Qed.

Lemma names_assign col s cs :
  is_Some (lookup_col col cs) -> map fst (assign_col col s cs) = map fst cs.
Proof.
  induction cs as [|[n s0] cs IH]; simpl; [by intros [? [=]]|].
  destruct (String.eqb n col) eqn:E; simpl; [done | intros Hs; by rewrite IH].
Qed.

Lemma lookup_col_Some col cs : is_Some (lookup_col col cs) <-> col ∈ map fst cs.
Proof.
  induction cs as [|[n s0] cs IH]; simpl.
  - split; [by intros [? [=]] | by intros ?%elem_of_nil].
  - rewrite elem_of_cons. destruct (String.eqb_spec n col) as [->|Hne]; [split; [by left | by eexists]|].
    rewrite IH. split; [by right | intros [?|?]; [congruence | done]].
Qed.

Lemma get_set df col s : get (set df col s) col = Some s.
Proof. apply lookup_assign. Qed.

Lemma get_set_ne df col n s : n <> col -> get (set df col s) n = get df n.
Proof. apply lookup_assign_ne. Qed.

Lemma set_set df col s t : set (set df col s) col t = set df col t.
Proof. unfold set; simpl. by rewrite assign_assign. Qed.

Lemma set_same df col s : get df col = Some s -> set df col s = df.
Proof. intros Hg. unfold set. rewrite (assign_same _ _ _ Hg). by destruct df. Qed.

Lemma update_update f g df col :
  update g (update f df col) col = update (fun s => g (f s)) df col.
Proof.
  unfold update. destruct (get df col) as [s|] eqn:E.
  - by rewrite get_set, set_set.
  - by rewrite E.
Qed.

Lemma update_ext f g df col :
  (forall s, get df col = Some s -> f s = g s) -> update f df col = update g df col.
Proof. intros Hfg. unfold update. destruct (get df col) as [s|]; [by rewrite Hfg|done]. Qed.

Lemma update_fixed g df col :
  (forall s, get df col = Some s -> g s = s) -> update g df col = df.
Proof.
  intros Hg. unfold update. destruct (get df col) as [s|] eqn:E; [|done].
  rewrite (Hg s eq_refl). by apply set_same.
Qed.

Lemma get_update g df col n :
  get (update g df col) n = if String.eqb n col then g <$> get df n else get df n.
Proof.
  unfold update. destruct (String.eqb_spec n col) as [->|Hne].
  - destruct (get df col) as [s|] eqn:E; [by rewrite get_set | by rewrite E].
  - destruct (get df col) as [s|] eqn:E; [by rewrite get_set_ne|done].
Qed.

Lemma nrows_update g df col : nrows (update g df col) = nrows df.
Proof. unfold update. by destruct (get df col). Qed.

Lemma columns_update g df col : columns (update g df col) = columns df.
Proof.
  unfold update. destruct (get df col) as [s|] eqn:E; [|done].
  unfold columns, set; simpl. apply names_assign. unfold get in E. by rewrite E.
Qed.

Lemma get_Some_columns df col : is_Some (get df col) <-> col ∈ columns df.
Proof. apply lookup_col_Some. Qed.

Lemma nrows_for_each_step P g names df :
  nrows (for_each names (col_step P g) df) = nrows df.
Proof.
  unfold for_each. revert df. induction names as [|n names IH]; intros df; simpl; [done|].
  rewrite IH. unfold col_step. destruct (P n); [apply nrows_update | done].
Qed.

Lemma columns_for_each_step P g names df :
  columns (for_each names (col_step P g) df) = columns df.
Proof.
  unfold for_each. revert df. induction names as [|n names IH]; intros df; simpl; [done|].
  rewrite IH. unfold col_step. destruct (P n); [apply columns_update | done].
Qed.

Lemma get_for_each_step P g names df n :
  (forall s, g (g s) = g s) ->
  get (for_each names (col_step P g) df) n
  = if mem n names && P n then g <$> get df n else get df n.
Proof.
  intros Hg. unfold for_each. revert df.
  induction names as [|m names IH]; intros df; simpl; [done|].
  rewrite IH. unfold col_step.
  destruct (P m) eqn:Pm.
  - rewrite get_update. destruct (String.eqb_spec n m) as [->|Hne]; simpl.
    + rewrite Pm. destruct (mem m names); simpl; [|done].
      destruct (get df m); simpl; [by rewrite Hg | done].
    + done.
  - destruct (String.eqb_spec n m) as [->|Hne]; simpl; [|done].
    by rewrite Pm, andb_false_r.
Qed.

Lemma for_each_step_fixed P g names df :
  (forall n s, n ∈ names -> P n = true -> get df n = Some s -> g s = s) ->
  for_each names (col_step P g) df = df.
Proof.
  unfold for_each. induction names as [|m names IH]; intros Hfix; simpl; [done|].
  assert (col_step P g df m = df) as ->.
  { unfold col_step. destruct (P m) eqn:Pm; [|done].
    apply update_fixed. intros s Hs. apply (Hfix m s); [left | done | done]. }
  apply IH. intros n s Hn. apply Hfix. by right.
Qed.

Lemma for_each_step_idempotent P g names df :
  (forall s, g (g s) = g s) ->
  for_each names (col_step P g) (for_each names (col_step P g) df)
  = for_each names (col_step P g) df.
Proof.
  intros Hg. apply for_each_step_fixed. intros n s Hn Pn.
  rewrite get_for_each_step by done.
  apply mem_true in Hn. rewrite Hn, Pn. simpl.
  destruct (get df n); simpl; [|done]. intros [= <-]. apply Hg.
Qed.

Lemma for_each_ext names (b1 b2 : DataFrame -> string -> DataFrame) df :
  (forall d c, b1 d c = b2 d c) -> for_each names b1 df = for_each names b2 df.
Proof.
  intros Hb. unfold for_each. revert df.
  induction names as [|m names IH]; intros df; simpl; [done|]. by rewrite Hb, IH.
Qed.

Section Bodies.
Context `{Library}.

Lemma money_series_object s :
  is_object (dtype_of s) = true ->
  to_numeric (str_remove ["$"; ","]%char (astype_str s)) = money_series s.
Proof.
  intros Ho. unfold money_series. rewrite Ho. unfold to_numeric; simpl.
  f_equal. rewrite !map_map. done.
Qed.

Lemma percent_series_object s :
  is_object (dtype_of s) = true ->
  to_numeric (str_remove ["%"]%char (astype_str s)) = percent_series s.
Proof.
  intros Ho. unfold percent_series. rewrite Ho. unfold to_numeric; simpl.
  f_equal. rewrite !map_map. done.
Qed.

Lemma text_series_eq s :
  replace "nan" NaN (str_strip (astype_str s)) = text_series s.
Proof. unfold text_series, replace; simpl. f_equal. by rewrite !map_map. Qed.

Lemma money_body_step df col : money_body df col = col_step always money_series df col.
Proof.
  unfold money_body, col_step, always.
  destruct (get df col) as [s|] eqn:E; [|unfold update; by rewrite E].
  destruct (is_object (dtype_of s)) eqn:Ho.
  - rewrite update_update. apply update_ext. intros s' Hs'.
    assert (s' = s) as -> by congruence. by apply money_series_object.
  - symmetry. apply update_fixed. intros s' Hs'.
    assert (s' = s) as -> by congruence. unfold money_series. by rewrite Ho.
Qed.

Lemma numeric_body_step df col : numeric_body df col = col_step always to_numeric df col.
Proof. done. Qed.

Lemma guard_update g df col :
  (if mem col (columns df) then update g df col else df) = update g df col.
Proof.
  destruct (mem col (columns df)) eqn:E; [done|].
  apply mem_false in E. unfold update.
  destruct (get df col) as [s|] eqn:G; [|done].
  exfalso. apply E, get_Some_columns. by rewrite G.
Qed.

Lemma guarded_numeric_body_step df col :
  guarded_numeric_body df col = col_step always to_numeric df col.
Proof. unfold guarded_numeric_body. apply guard_update. Qed.

Lemma percent_body_step df col :
  percent_body df col = col_step always percent_series df col.
Proof.
  unfold percent_body, col_step, always.
  rewrite <- (guard_update percent_series).
  destruct (mem col (columns df)); [|done].
  destruct (get df col) as [s|] eqn:E; [|unfold update; by rewrite E].
  destruct (is_object (dtype_of s)) eqn:Ho.
  - rewrite update_update. apply update_ext. intros s' Hs'.
    assert (s' = s) as -> by congruence. by apply percent_series_object.
  - symmetry. apply update_fixed. intros s' Hs'.
    assert (s' = s) as -> by congruence. unfold percent_series. by rewrite Ho.
Qed.

Lemma date_body_step df col : date_body df col = col_step always date_series df col.
Proof.
  unfold date_body, col_step, always, update, date_series.
  destruct (get df col) as [s|] eqn:E; [|done].
  destruct (to_datetime s); [done|]. symmetry. by apply set_same.
Qed.

Lemma text_body_update df col : text_body df col = update text_series df col.
Proof.
  unfold text_body. rewrite update_update. apply update_ext.
  intros s _. apply text_series_eq.
Qed.

Lemma text_loop_step excluded df :
  text_loop excluded df
  = for_each (select_dtypes_object df) (col_step (outside excluded) text_series) df.
Proof.
  unfold text_loop. apply for_each_ext. intros d c.
  unfold col_step, outside. destruct (negb (mem c excluded)); [|done].
  apply text_body_update.
Qed.

(** *** The conversions reach a fixed point in one application *)

Lemma money_series_idempotent s : money_series (money_series s) = money_series s.
Proof.
  unfold money_series. destruct (is_object (dtype_of s)) eqn:Ho; simpl; [done|].
  by rewrite Ho.
Qed.

Lemma percent_series_idempotent s :
  percent_series (percent_series s) = percent_series s.
Proof.
  unfold percent_series. destruct (is_object (dtype_of s)) eqn:Ho; simpl; [done|].
  by rewrite Ho.
Qed.

Lemma to_numeric_idempotent s : to_numeric (to_numeric s) = to_numeric s.
Proof.
  unfold to_numeric. destruct (dtype_of s) eqn:Hd; simpl; try done.
  all: by rewrite Hd.
Qed.

Lemma to_datetime_fixed s s' : to_datetime s = Some s' -> to_datetime s' = Some s'.
Proof.
  intros E. assert (dtype_of s' = datetime64) as Hd.
  { unfold to_datetime in E. destruct (dtype_of s) eqn:Hd; by simplify_eq. }
  unfold to_datetime. by rewrite Hd.
Qed.

Lemma date_series_idempotent s : date_series (date_series s) = date_series s.
Proof.
  unfold date_series. destruct (to_datetime s) as [s'|] eqn:E.
  - by rewrite (to_datetime_fixed _ _ E).
  - by rewrite E.
Qed.

Lemma text_cell_cases c :
  text_cell c = NaN /\ Py.strip (py_str c) = "nan"
  \/ text_cell c = Str (Py.strip (py_str c)) /\ Py.strip (py_str c) <> "nan".
Proof.
  unfold text_cell; simpl.
  destruct (String.eqb_spec (Py.strip (py_str c)) "nan"); auto.
Qed.

Lemma text_cell_idempotent c : text_cell (text_cell c) = text_cell c.
Proof.
  destruct (text_cell_cases c) as [[-> _]|[-> Hne]]; [done|].
  unfold text_cell; simpl. rewrite strip_idempotent.
  by destruct (String.eqb_spec (Py.strip (py_str c)) "nan").
Qed.

Lemma text_series_idempotent s : text_series (text_series s) = text_series s.
Proof.
  unfold text_series; simpl. f_equal. rewrite map_map.
  apply map_ext. intros c. apply text_cell_idempotent.
Qed.

End Bodies.

(** ** Duplicates *)

Lemma sum_negb mask : (sum (map negb mask) + sum mask = length mask)%nat.
Proof.
  unfold sum. induction mask as [|[] mask IH]; simpl; lia.
Qed.

Lemma length_duplicated_rows seen rs : length (duplicated_rows seen rs) = length rs.
Proof. revert seen. induction rs as [|r rs IH]; intros seen; simpl; [done|]. by rewrite IH. Qed.

Lemma length_duplicated df : length (duplicated df) = nrows df.
Proof.
  unfold duplicated, rows. by rewrite length_duplicated_rows, length_map, length_seq.
Qed.

Lemma len_drop_duplicates df :
  len (drop_duplicates df) = (len df - sum (duplicated df))%nat.
Proof.
  unfold len, drop_duplicates; simpl.
  pose proof (sum_negb (duplicated df)) as Hs. rewrite length_duplicated in Hs. lia.
Qed.

Lemma select_map {A B} (f : A -> B) mask l :
  select mask (map f l) = map f (select mask l).
Proof.
  revert l. induction mask as [|b mask IH]; intros [|x l]; simpl; try done.
  destruct b; simpl; by rewrite IH.
Qed.

Lemma length_select {A} mask (l : list A) :
  length mask = length l -> length (select mask l) = sum mask.
Proof.
  unfold sum. revert l. induction mask as [|b mask IH]; intros [|x l]; simpl; try done.
  intros [= Hl]. destruct b; simpl; by rewrite IH.
Qed.

Lemma select_all_true {A} (l : list A) : select (repeat true (length l)) l = l.
Proof. induction l as [|x l IH]; simpl; [done | by rewrite IH]. Qed.

Lemma sum_repeat_true n : sum (repeat true n) = n.
Proof. unfold sum. induction n as [|n IH]; simpl; [done | by rewrite IH]. Qed.

Lemma map_nth_seq {A} (l : list A) d :
  map (fun k => nth k l d) (seq 0 (length l)) = l.
Proof.
  induction l as [|x l IH]; simpl; [done|].
  f_equal. rewrite <- seq_shift, map_map. exact IH.
Qed.

Lemma select_as_indices {A} mask (l : list A) d :
  select mask l = map (fun k => nth k l d) (select mask (seq 0 (length l))).
Proof. rewrite <- select_map. by rewrite map_nth_seq. Qed.

Lemma rows_drop_duplicates df :
  well_formed df ->
  rows (drop_duplicates df) = select (map negb (duplicated df)) (rows df).
Proof.
  intros Hwf. set (keep := map negb (duplicated df)).
  set (K := select keep (seq 0 (nrows df))).
  assert (length K = sum keep) as HK.
  { apply length_select. unfold keep.
    by rewrite length_map, length_duplicated, length_seq. }
  unfold rows at 2. rewrite select_map. fold K.
  unfold rows. change (nrows (drop_duplicates df)) with (sum keep).
  rewrite <- HK. rewrite <- (map_nth_seq K 0%nat) at 2. rewrite map_map.
  apply map_ext_in. intros i Hi%in_seq.
  unfold row; simpl. rewrite map_map. apply map_ext_in.
  intros c Hc. simpl.
  assert (length (values c.2) = nrows df) as Hlen.
  { unfold well_formed in Hwf. rewrite Forall_forall in Hwf.
    apply Hwf. by apply list_elem_of_In. }
  fold keep. rewrite (select_as_indices keep (values c.2) NaN), Hlen. fold K.
  rewrite (nth_indep _ NaN (nth 0 (values c.2) NaN)) by (rewrite length_map; lia).
  apply (map_nth (fun k => nth k (values c.2) NaN)).
Qed.

Lemma kept_rows_distinct seen seen' rs :
  (forall r, existsb (row_eqb r) seen' = true -> existsb (row_eqb r) seen = true) ->
  let kept := select (map negb (duplicated_rows seen rs)) rs in
  duplicated_rows seen' kept = repeat false (length kept).
Proof.
  revert seen seen'. induction rs as [|r rs IH]; intros seen seen' Hsub; simpl; [done|].
  destruct (existsb (row_eqb r) seen) eqn:E; simpl.
  - apply IH. intros x Hx. simpl. rewrite (Hsub x Hx). apply orb_true_r.
  - destruct (existsb (row_eqb r) seen') eqn:E'.
    { rewrite (Hsub r E') in E. done. }
    f_equal. apply IH. intros x. simpl.
    destruct (row_eqb x r); [done|]. simpl. apply Hsub.
Qed.

Lemma duplicated_drop_duplicates df :
  well_formed df ->
  duplicated (drop_duplicates df) = repeat false (nrows (drop_duplicates df)).
Proof.
  intros Hwf. unfold duplicated at 1. rewrite rows_drop_duplicates by done.
  unfold duplicated. rewrite (kept_rows_distinct [] [] (rows df)) by done.
  f_equal. apply length_select. by rewrite length_map, length_duplicated_rows.
Qed.

Lemma well_formed_drop_duplicates df :
  well_formed df -> well_formed (drop_duplicates df).
Proof.
  unfold well_formed. intros Hwf. simpl. rewrite Forall_map.
  eapply Forall_impl; [exact Hwf|]. intros c Hc. simpl.
  apply length_select. by rewrite length_map, length_duplicated.
Qed.

Lemma map_negb_repeat_false n : map negb (repeat false n) = repeat true n.
Proof. induction n as [|n IH]; simpl; [done | by rewrite IH]. Qed.

Lemma drop_duplicates_fixed df :
  well_formed df ->
  duplicated df = repeat false (nrows df) ->
  drop_duplicates df = df.
Proof.
  intros Hwf Hd. unfold drop_duplicates. rewrite Hd.
  rewrite map_negb_repeat_false.
  rewrite sum_repeat_true. destruct df as [n cs]. simpl in *. f_equal.
  unfold well_formed in Hwf. simpl in Hwf. clear Hd.
  induction cs as [|[name [d vs]] cs IH]; simpl; [done|].
  apply Forall_cons in Hwf as [Hlen Hwf]. simpl in Hlen.
  rewrite (IH Hwf). do 3 f_equal. rewrite <- Hlen. apply select_all_true.
Qed.

Lemma drop_duplicates_idempotent df :
  well_formed df ->
  drop_duplicates (drop_duplicates df) = drop_duplicates df.
Proof.
  intros Hwf. apply drop_duplicates_fixed.
  - by apply well_formed_drop_duplicates.
  - by apply duplicated_drop_duplicates.
Qed.

Section Stages.
Context `{Library}.

(** Each cleaner is its stages in sequence. *)
Lemma frame_of_stages d df :
  frame_of d df = text_loop (text_excluded d (deduplicate d df)) (typed d df).
Proof. destruct d; reflexivity. Qed.

Lemma first_loop_step d df :
  first_loop d df
  = for_each (keyword_columns (keywords d (first_category d)) df)
             (col_step always (first_conversion d)) df.
Proof.
  unfold first_loop. apply for_each_ext. intros d' c. destruct d; simpl.
  - apply money_body_step.
  - apply money_body_step.
  - apply guarded_numeric_body_step.
  - apply percent_body_step.
  - apply guarded_numeric_body_step.
Qed.

Lemma second_loop_step d df :
  second_loop d df
  = for_each (keyword_columns (keywords d (second_category d)) df)
             (col_step always (second_conversion d)) df.
Proof.
  unfold second_loop. apply for_each_ext. intros d' c. destruct d; simpl.
  - apply numeric_body_step.
  - apply date_body_step.
  - apply date_body_step.
  - apply numeric_body_step.
  - apply date_body_step.
Qed.

Lemma first_conversion_idempotent d s :
  first_conversion d (first_conversion d s) = first_conversion d s.
Proof.
  destruct d; simpl; auto using money_series_idempotent, to_numeric_idempotent,
    percent_series_idempotent.
Qed.

Lemma second_conversion_idempotent d s :
  second_conversion d (second_conversion d s) = second_conversion d s.
Proof.
  destruct d; simpl; auto using date_series_idempotent, to_numeric_idempotent.
Qed.

Lemma nrows_text_loop excluded df : nrows (text_loop excluded df) = nrows df.
Proof. rewrite text_loop_step. apply nrows_for_each_step. Qed.

Lemma columns_text_loop excluded df : columns (text_loop excluded df) = columns df.
Proof. rewrite text_loop_step. apply columns_for_each_step. Qed.

Lemma nrows_first_loop d df : nrows (first_loop d df) = nrows df.
Proof. rewrite first_loop_step. apply nrows_for_each_step. Qed.

Lemma nrows_second_loop d df : nrows (second_loop d df) = nrows df.
Proof. rewrite second_loop_step. apply nrows_for_each_step. Qed.

Lemma columns_first_loop d df : columns (first_loop d df) = columns df.
Proof. rewrite first_loop_step. apply columns_for_each_step. Qed.

Lemma columns_second_loop d df : columns (second_loop d df) = columns df.
Proof. rewrite second_loop_step. apply columns_for_each_step. Qed.

Lemma columns_drop_duplicates df : columns (drop_duplicates df) = columns df.
Proof. unfold columns, drop_duplicates; simpl. by rewrite map_map. Qed.

Lemma columns_deduplicate d df : columns (deduplicate d df) = columns df.
Proof.
  destruct d; simpl; try apply columns_drop_duplicates.
  destruct (0 <? sum (duplicated df))%nat; [apply columns_drop_duplicates | done].
Qed.

Lemma len_deduplicate d df :
  len (deduplicate d df) = (len df - sum (duplicated df))%nat.
Proof.
  destruct d; simpl; try apply len_drop_duplicates.
  destruct (Nat.ltb_spec 0 (sum (duplicated df))); [apply len_drop_duplicates | lia].
Qed.

Lemma len_frame_of d df :
  len (frame_of d df) = (len df - sum (duplicated df))%nat.
Proof.
  rewrite frame_of_stages. unfold len, typed.
  rewrite nrows_text_loop, nrows_second_loop, nrows_first_loop.
  apply len_deduplicate.
Qed.

Lemma imdb_table_frame_step df :
  imdb_table_frame df
  = let df0 := drop_duplicates df in
    let text_columns := select_dtypes_object df0 in
    let df1 := for_each text_columns (col_step always text_series) df0 in
    for_each (columns df1) (col_step (outside text_columns) to_numeric) df1.
Proof.
  unfold imdb_table_frame. cbv zeta.
  assert (for_each (select_dtypes_object (drop_duplicates df)) text_body
            (drop_duplicates df)
          = for_each (select_dtypes_object (drop_duplicates df))
              (col_step always text_series) (drop_duplicates df)) as ->.
  { apply for_each_ext. intros. apply text_body_update. }
  apply for_each_ext. intros d c. done.
Qed.


Lemma read_csv_table p s df :
  fs s !! p = Some (Table df) -> read_csv p s = (Ok df, s).
Proof.
  intros Hp. unfold read_csv, mbind, M_bind, bind, open_read, open_file. by rewrite Hp.
Qed.

Lemma read_csv_raise p s e :
  open_file (fs s) p = Raise e -> read_csv p s = (Raise e, s).
Proof.
  intros Hp. unfold read_csv, mbind, M_bind, bind, open_read. by rewrite Hp.
Qed.

(** Running a cleaner: the source is read, the cleaned frame is written
    to the output path and returned. *)
Lemma cleaner_run d s df :
  fs s !! source_file d = Some (Table df) ->
  cleaner d s
  = (Ok (frame_of d df), written (output_file d) (Table (frame_of d df)) s).
Proof.
  intros Hsrc. destruct d; cbv beta iota delta [source_file] in Hsrc.
  all: cbv beta iota delta [cleaner clean_box_office_data clean_movie_budgets_data
    clean_tmdb_data clean_rotten_tomatoes_info clean_rotten_tomatoes_reviews
    mbind M_bind bind].
  all: by rewrite (read_csv_table _ _ _ Hsrc).
Qed.

Lemma cleaner_raise d s e :
  open_file (fs s) (source_file d) = Raise e -> cleaner d s = (Raise e, s).
Proof.
  intros Hsrc. destruct d; cbv beta iota delta [source_file] in Hsrc.
  all: cbv beta iota delta [cleaner clean_box_office_data clean_movie_budgets_data
    clean_tmdb_data clean_rotten_tomatoes_info clean_rotten_tomatoes_reviews
    mbind M_bind bind].
  all: by rewrite (read_csv_raise _ _ _ Hsrc).
Qed.

End Stages.

Section Classification.
Context `{Library}.

Lemma keyword_columns_names kws df df' :
  columns df = columns df' -> keyword_columns kws df = keyword_columns kws df'.
Proof. unfold keyword_columns. by intros ->. Qed.

Lemma keyword_columns_nil df : keyword_columns [] df = [].
Proof.
  unfold keyword_columns. induction (columns df) as [|c l IH]; simpl; [done|exact IH].
Qed.

Lemma columns_typed d df : columns (typed d df) = columns df.
Proof.
  unfold typed. by rewrite columns_second_loop, columns_first_loop, columns_deduplicate.
Qed.

Lemma get_first_loop d df n :
  get (first_loop d df) n
  = if mem n (keyword_columns (keywords d (first_category d)) df)
    then first_conversion d <$> get df n else get df n.
Proof.
  rewrite first_loop_step, get_for_each_step by apply first_conversion_idempotent.
  unfold always. by rewrite andb_true_r.
Qed.

Lemma get_second_loop d df n :
  get (second_loop d df) n
  = if mem n (keyword_columns (keywords d (second_category d)) df)
    then second_conversion d <$> get df n else get df n.
Proof.
  rewrite second_loop_step, get_for_each_step by apply second_conversion_idempotent.
  unfold always. by rewrite andb_true_r.
Qed.

Lemma to_numeric_not_object s : is_object (dtype_of (to_numeric s)) = false.
Proof. unfold to_numeric. by destruct (dtype_of s) eqn:E; simpl; rewrite ?E. Qed.

Lemma to_datetime_dtype s s' : to_datetime s = Some s' -> dtype_of s' = datetime64.
Proof.
  unfold to_datetime. intros E.
  destruct (dtype_of s) eqn:Hd; by simplify_eq.
Qed.

Lemma date_series_keeps_not_object s :
  is_object (dtype_of s) = false -> is_object (dtype_of (date_series s)) = false.
Proof.
  intros Hs. unfold date_series. destruct (to_datetime s) as [s'|] eqn:E; [|done].
  by rewrite (to_datetime_dtype _ _ E).
Qed.

Lemma select_dtypes_object_get df n :
  NoDup (columns df) ->
  n ∈ select_dtypes_object df ->
  exists s, get df n = Some s /\ is_object (dtype_of s) = true.
Proof.
  unfold columns, select_dtypes_object, get. destruct df as [k cs]; simpl. clear k.
  induction cs as [|[m s] cs IH]; simpl; intros Hnd Hn.
  - by apply elem_of_nil in Hn.
  - apply NoDup_cons in Hnd as [Hm Hnd].
    destruct (String.eqb_spec m n) as [->|Hne].
    + destruct (is_object (dtype_of s)) eqn:Ho; [by eauto|].
      exfalso. apply Hm. apply list_elem_of_fmap in Hn as ([n' s'] & -> & Hin%list_elem_of_In).
      apply filter_In in Hin as [Hin _]. apply list_elem_of_fmap.
      exists (n', s'). split; [done | by apply list_elem_of_In].
    + apply IH; [done|]. destruct (is_object (dtype_of s)); [|done].
      simpl in Hn. apply elem_of_cons in Hn as [->|]; [congruence | done].
Qed.

Lemma get_select_dtypes_object df n s :
  get df n = Some s -> is_object (dtype_of s) = true -> n ∈ select_dtypes_object df.
Proof.
  unfold select_dtypes_object, get. destruct df as [k cs]; simpl. clear k.
  induction cs as [|[m s0] cs IH]; simpl; [done|].
  destruct (String.eqb_spec m n) as [->|Hne].
  - intros [= ->] ->. simpl. by left.
  - intros Hg Ho. destruct (is_object (dtype_of s0)); simpl; [right|]; by apply IH.
Qed.

(** The columns in the first or second keyword list of a cleaner that the
    text loop does not skip by name are no longer of dtype object when the
    text loop starts. *)
Lemma typed_keyword_column_not_object d df n s :
  n ∈ keyword_columns (keywords d (first_category d)) df
  \/ n ∈ keyword_columns (keywords d (second_category d)) df ->
  mem n (text_excluded d (deduplicate d df)) = false ->
  get (typed d df) n = Some s ->
  is_object (dtype_of s) = false.
Proof.
  intros Hkw Hex Hget. unfold typed in Hget.
  set (df0 := deduplicate d df) in *.
  assert (columns df0 = columns df) as Hc0 by apply columns_deduplicate.
  assert (columns (first_loop d df0) = columns df) as Hc1
    by (by rewrite columns_first_loop).
  rewrite get_second_loop, get_first_loop in Hget.
  rewrite (keyword_columns_names _ _ _ Hc1), (keyword_columns_names _ _ _ Hc0) in Hget.
  unfold text_excluded in Hex.
  rewrite (keyword_columns_names _ _ _ Hc1), (keyword_columns_names _ _ _ Hc0) in Hex.
  set (K1 := keyword_columns (keywords d (first_category d)) df) in *.
  set (K2 := keyword_columns (keywords d (second_category d)) df) in *.
  assert (mem n K1 = true \/ mem n K2 = true) as Hm
    by (destruct Hkw; [left | right]; by apply mem_true).
  assert (forall l1 l2, mem n (l1 ++ l2) = mem n l1 || mem n l2) as Happ
    by (intros; unfold mem; apply existsb_app).
  destruct d; simpl in Hex, Hget; rewrite ?Happ in Hex;
    destruct (mem n K1) eqn:E1, (mem n K2) eqn:E2;
    simpl in Hex; try discriminate; try (by destruct Hm);
    destruct (get df0 n) as [s0|]; simpl in Hget; simplify_eq;
    auto using to_numeric_not_object, date_series_keeps_not_object.
Qed.

Lemma textual_excludes_keyword_categories d df n c :
  NoDup (columns df) ->
  c <> textual ->
  n ∈ claimed d textual df ->
  n ∉ claimed d c df.
Proof.
  intros Hnd Hc Hn Hk. unfold claimed in Hn.
  apply list_elem_of_In, filter_In in Hn as [Hn Hex]. apply list_elem_of_In in Hn.
  apply negb_true_iff in Hex.
  destruct (select_dtypes_object_get (typed d df) n) as (s & Hget & Ho);
    [by rewrite columns_typed | done |].
  assert (n ∈ keyword_columns (keywords d (first_category d)) df
          \/ n ∈ keyword_columns (keywords d (second_category d)) df) as Hkw.
  { destruct d, c; simpl in Hk; try done; auto;
      rewrite keyword_columns_nil in Hk; by apply elem_of_nil in Hk. }
  rewrite (typed_keyword_column_not_object d df n s Hkw Hex Hget) in Ho. done.
Qed.

End Classification.

Lemma bind_unfold {A B} (c : M A) (k : A -> M B) s :
  (c ≫= k) s = match c s with (Ok a, s') => k a s' | (Raise e, s') => (Raise e, s') end.
Proof. done. Qed.

Lemma with_fs_id s : with_fs (fs s) s = s.
Proof. by destruct s. Qed.

(** ** Directory listings *)

Lemma child_of_below dir n rest : child_of dir (dir ++ n :: rest) = Some n.
Proof. induction dir as [|d dir IH]; simpl; [done|]. by rewrite String.eqb_refl. Qed.

Lemma child_of_inv dir p n :
  child_of dir p = Some n -> exists rest, p = (dir ++ n :: rest)%list.
Proof.
  revert p. induction dir as [|d dir IH]; intros [|c p]; simpl; try done.
  - intros [= ->]. by exists p.
  - destruct (String.eqb_spec d c) as [->|]; [|done].
    intros (rest & ->)%IH. by exists rest.
Qed.

Lemma elem_of_entries m dir n :
  n ∈ entries m dir <-> exists rest, is_Some (m !! (dir ++ n :: rest)%list).
Proof.
  unfold entries. rewrite elem_of_remove_dups, list_elem_of_omap.
  split.
  - intros ([p f] & Hin & Hc). apply elem_of_map_to_list in Hin.
    simpl in Hc. apply child_of_inv in Hc as (rest & ->). exists rest. by eexists.
  - intros (rest & f & Hf). exists ((dir ++ n :: rest)%list, f). split.
    + by apply elem_of_map_to_list.
    + apply child_of_below.
Qed.

Lemma entries_nil m dir :
  entries m dir = [] <-> forall n rest, m !! (dir ++ n :: rest)%list = None.
Proof.
  split.
  - intros E n rest. destruct (m !! (dir ++ n :: rest)%list) as [f|] eqn:Hf; [|done].
    assert (n ∈ entries m dir) as Hn by (apply elem_of_entries; exists rest; by eexists).
    rewrite E in Hn. by apply elem_of_nil in Hn.
  - intros Hm. destruct (entries m dir) as [|n l] eqn:E; [done|].
    assert (n ∈ entries m dir) as Hn by (rewrite E; by left).
    apply elem_of_entries in Hn as (rest & f & Hf). by rewrite Hm in Hf.
Qed.

(** A write that leaves the files consistent found them consistent, and
    was to a path that was no directory and lay below no file. *)
Lemma consistent_insert m (p : path) f :
  consistent (<[p := f]> m) ->
  consistent m
  /\ entries m p = []
  /\ forall (q : path) n rest, p = (q ++ n :: rest)%list -> m !! q = None.
Proof.
  intros Hc. split; [|split].
  - intros q g Hq. apply entries_nil. intros n rest.
    assert (entries (<[p := f]> m) q = []) as E.
    { destruct (decide (p = q)) as [->|Hne].
      - apply (Hc q f). apply lookup_insert_eq.
      - apply (Hc q g). by rewrite lookup_insert_ne. }
    pose proof (proj1 (entries_nil _ _) E n rest) as Hn.
    destruct (decide (p = (q ++ n :: rest)%list)) as [->|Hne].
    + by rewrite lookup_insert_eq in Hn.
    + by rewrite lookup_insert_ne in Hn.
  - apply entries_nil. intros n rest.
    pose proof (proj1 (entries_nil _ _) (Hc p f (lookup_insert_eq m p f)) n rest) as Hn.
    rewrite lookup_insert_ne in Hn; [done|].
    intros E. apply (f_equal length) in E. rewrite length_app in E. simpl in E. lia.
  - intros q n rest ->. destruct (m !! q) as [g|] eqn:Hq; [|done].
    assert ((<[(q ++ n :: rest)%list := f]> m) !! q = Some g) as Hq'.
    { rewrite lookup_insert_ne; [done|].
      intros E. apply (f_equal length) in E. rewrite length_app in E. simpl in E. lia. }
    pose proof (proj1 (entries_nil _ _) (Hc q g Hq') n rest) as Hn.
    by rewrite lookup_insert_eq in Hn.
Qed.

(** Whether a directory has entries depends on which paths hold a file,
    not on what they hold. *)
Lemma entries_nil_ext m m' dir :
  (forall n rest, is_Some (m' !! (dir ++ n :: rest)%list)
                  <-> is_Some (m !! (dir ++ n :: rest)%list)) ->
  match entries m' dir with [] => true | _ => false end
  = match entries m dir with [] => true | _ => false end.
Proof.
  intros Hext.
  assert (forall a b : gmap path file,
             (forall n rest, is_Some (a !! (dir ++ n :: rest)%list)
                             -> is_Some (b !! (dir ++ n :: rest)%list)) ->
             entries b dir = [] -> entries a dir = []) as Hone.
  { intros a b Hab Hb. apply entries_nil. intros n rest.
    destruct (a !! (dir ++ n :: rest)%list) as [f|] eqn:Hf; [|done].
    destruct (Hab n rest) as [g Hg]; [by eexists|].
    by rewrite (proj1 (entries_nil b dir) Hb) in Hg. }
  destruct (entries m dir) as [|x l] eqn:E, (entries m' dir) as [|x' l'] eqn:E'; try done.
  - assert (entries m' dir = []) as E0; [|by rewrite E0 in E'].
    apply (Hone m' m); [|done]. intros n rest. apply Hext.
  - assert (entries m dir = []) as E0; [|by rewrite E0 in E].
    apply (Hone m m'); [|done]. intros n rest. apply Hext.
Qed.

Section Listings.
Context `{Library}.

Lemma elem_of_listdir m dir n :
  n ∈ listdir m dir <-> exists rest, is_Some (m !! (dir ++ n :: rest)%list).
Proof.
  unfold listdir.
  rewrite (listing_order_permutation dir _), merge_sort_Permutation.
  apply elem_of_entries.
Qed.

Lemma elem_of_glob_suffix m dir suffix n f :
  m !! join dir n = Some f -> Py.endswith suffix n = true ->
  join dir n ∈ glob_suffix m dir suffix.
Proof.
  intros Hm Hs. unfold glob_suffix. apply list_elem_of_fmap. exists n. split; [done|].
  apply list_elem_of_In, filter_In. split; [|done].
  apply list_elem_of_In, elem_of_listdir. exists []. by eexists.
Qed.

End Listings.

(** ** What is at a path, and making a directory *)

Lemma is_file_true m p : is_file m p = true <-> is_Some (m !! p).
Proof. unfold is_file. apply bool_decide_eq_true. Qed.

Lemma is_file_false m p : is_file m p = false <-> m !! p = None.
Proof.
  unfold is_file. rewrite bool_decide_eq_false. split.
  - intros Hn. destruct (m !! p); [|done]. destruct Hn. by eexists.
  - intros -> [f Hf]. done.
Qed.

Lemma kind_of_file m p f : p <> [] -> m !! p = Some f -> kind_of m p = RegularFile.
Proof.
  intros Hp Hf. destruct p as [|c p]; [done|]. unfold kind_of.
  by rewrite (proj2 (is_file_true m (c :: p))) by (by eexists).
Qed.

Lemma kind_of_directory m p n rest f :
  m !! p = None -> m !! (p ++ n :: rest)%list = Some f -> kind_of m p = Directory.
Proof.
  intros Hp Hf. destruct p as [|c p]; [done|]. unfold kind_of.
  rewrite (proj2 (is_file_false m (c :: p)) Hp).
  destruct (entries m (c :: p)) as [|x l] eqn:E; [|done].
  by rewrite (proj1 (entries_nil m (c :: p)) E n rest) in Hf.
Qed.

Lemma kind_of_not_file m p : m !! p = None -> kind_of m p <> RegularFile.
Proof.
  intros Hp. destruct p as [|c p]; [done|]. unfold kind_of.
  rewrite (proj2 (is_file_false m (c :: p)) Hp). by destruct (entries m (c :: p)).
Qed.

Lemma kind_of_regular m p : kind_of m p = RegularFile -> is_Some (m !! p).
Proof.
  destruct p as [|c p]; [done|]. unfold kind_of.
  destruct (is_file m (c :: p)) eqn:E; [intros _; by apply is_file_true|].
  by destruct (entries m (c :: p)).
Qed.

(** A directory stays one, and a path that holds no file keeps holding
    none, when files are added elsewhere. *)
Lemma kind_of_directory_mono m m' p :
  (is_Some (m' !! p) <-> is_Some (m !! p)) ->
  (forall q, is_Some (m !! q) -> is_Some (m' !! q)) ->
  kind_of m p = Directory -> kind_of m' p = Directory.
Proof.
  intros Hp Hmono. destruct p as [|c p]; [done|]. unfold kind_of.
  assert (is_file m' (c :: p) = is_file m (c :: p)) as ->.
  { unfold is_file. by apply bool_decide_ext. }
  destruct (is_file m (c :: p)); [done|].
  destruct (entries m (c :: p)) as [|n l] eqn:E; [done|]. intros _.
  assert (n ∈ entries m (c :: p)) as Hn by (rewrite E; by left).
  apply elem_of_entries in Hn as (rest & Hf). apply Hmono in Hf.
  destruct (entries m' (c :: p)) as [|x l'] eqn:E'; [|done].
  destruct Hf as [f Hf].
  assert (Some f = None) as Hc; [|done].
  rewrite <- Hf. exact (proj1 (entries_nil m' (c :: p)) E' n rest).
Qed.

Lemma mkdir_error_mono m m' p :
  (is_Some (m' !! p) <-> is_Some (m !! p)) ->
  (is_Some (m' !! parent p) <-> is_Some (m !! parent p)) ->
  (forall q, is_Some (m !! q) -> is_Some (m' !! q)) ->
  mkdir_error m p = None -> mkdir_error m' p = None.
Proof.
  intros Hp Hpar Hmono. unfold mkdir_error.
  destruct (kind_of m p) eqn:K; try done.
  - (* missing: the parent is a directory, and stays one *)
    destruct (kind_of m (parent p)) eqn:Kp; try done. intros _.
    rewrite (kind_of_directory_mono m m' (parent p) Hpar Hmono Kp).
    destruct (kind_of m' p) eqn:K'; try done.
    apply kind_of_regular, Hp in K'. destruct K' as [f Hf].
    destruct p as [|c p]; [done|].
    by rewrite (kind_of_file m (c :: p) f) in K.
  - intros _. by rewrite (kind_of_directory_mono m m' p Hp Hmono K).
Qed.

Lemma mkdir_run p s :
  mkdir_exist_ok p s
  = match mkdir_error (fs s) p with
    | None => (Ok tt, s)
    | Some e => (Raise e, s)
    end.
Proof.
  unfold mkdir_exist_ok. rewrite bind_unfold. unfold get_fs.
  by destruct (mkdir_error (fs s) p).
Qed.

(** The output directory lies in the working directory: it can be made
    unless a file has its name. *)
Lemma mkdir_cleaned m :
  mkdir_error m cleaned_data_path
  = if is_file m cleaned_data_path then Some FileExistsError else None.
Proof.
  unfold mkdir_error, cleaned_data_path, kind_of, parent. simpl.
  destruct (is_file m ["Cleaned_Data"]); [done|].
  by destruct (entries m ["Cleaned_Data"]).
Qed.

(** The extraction directory can be made when no file has its name and
    the source directory, in which it lies, is a directory. *)
Lemma mkdir_extracted m n f :
  m !! extract_path = None ->
  m !! original_data_path = None ->
  m !! join original_data_path n = Some f ->
  mkdir_error m extract_path = None.
Proof.
  intros He Ho Hn. unfold mkdir_error.
  pose proof (kind_of_not_file m extract_path He) as Hk.
  destruct (kind_of m extract_path); try done.
  change (parent extract_path) with original_data_path.
  by rewrite (kind_of_directory m original_data_path n [] f Ho Hn).
Qed.

Section Runs.
Context `{Library}.

Lemma extractall_run members dir s :
  extractall members dir s = (Ok tt, with_fs (extract_files members dir (fs s)) s).
Proof.
  revert s. induction members as [|[[parents name] f] members IH]; intros s; simpl.
  - unfold mret, M_ret, ret. by rewrite with_fs_id.
  - rewrite bind_unfold. unfold write_file at 1. rewrite IH. done.
Qed.

Lemma open_file_Some m p f : m !! p = Some f -> open_file m p = Ok f.
Proof. unfold open_file. by intros ->. Qed.

Lemma open_file_Ok m p f : open_file m p = Ok f -> m !! p = Some f.
Proof.
  unfold open_file. destruct (m !! p); [by intros [= ->]|]. by destruct (entries m p).
Qed.

Lemma open_zip_run p s :
  open_zip p s
  = match open_file (fs s) p with
    | Ok (Archive members) => (Ok members, s)
    | Ok _ => (Raise BadZipFile, s)
    | Raise e => (Raise e, s)
    end.
Proof.
  unfold open_zip. rewrite bind_unfold. unfold open_read.
  by destruct (open_file (fs s) p) as [[| | |]|].
Qed.

(** What the extractor does, step by step. *)
Lemma extract_run s :
  extract_and_clean_imdb_data s =
    match mkdir_error (fs s) extract_path with
    | Some e => (Raise e, s)
    | None =>
        match open_file (fs s) zip_path with
        | Ok (Archive members) =>
            let s1 := with_fs (extract_files members extract_path (fs s)) s in
            match glob_suffix (fs s1) extract_path ".db" with
            | [] => (Ok None, s1)
            | db_path :: _ =>
                (connect db_path;;
                 tables ← table_names db_path;
                 count_loop db_path tables;;
                 cleaned_tables ← clean_loop db_path tables ∅;
                 close;;
                 mret (Some cleaned_tables)) s1
            end
        | Ok _ => (Raise BadZipFile, s)
        | Raise e => (Raise e, s)
        end
    end.
Proof.
  unfold extract_and_clean_imdb_data. fold zip_path extract_path.
  rewrite bind_unfold, mkdir_run.
  destruct (mkdir_error (fs s) extract_path); [done|].
  rewrite bind_unfold, open_zip_run.
  destruct (open_file (fs s) zip_path) as [[|members| |]|]; try done.
  rewrite bind_unfold, extractall_run.
  rewrite bind_unfold. unfold get_fs at 1.
  by destruct (glob_suffix _ _ _).
Qed.

End Runs.

Section MainRun.
Context `{Library}.

Lemma source_output_ne d d' : source_file d <> output_file d'.
Proof. by destruct d, d'. Qed.

Lemma zip_output_ne d : zip_path <> output_file d.
Proof. by destruct d. Qed.

Lemma outputs_written_other raw ds m p :
  (forall d, p <> output_file d) -> outputs_written raw ds m !! p = m !! p.
Proof.
  intros Hp. unfold outputs_written. revert m.
  induction ds as [|d ds IH]; intros m; simpl; [done|].
  rewrite IH. apply lookup_insert_ne. by apply not_eq_sym.
Qed.

Lemma output_file_inj d d' : output_file d = output_file d' -> d = d'.
Proof. by destruct d, d'. Qed.

Lemma outputs_written_output raw ds m d :
  d ∈ ds -> outputs_written raw ds m !! output_file d = Some (Table (frame_of d (raw d))).
Proof.
  unfold outputs_written. revert m.
  induction ds as [|d' ds IH] using rev_ind; intros m Hd; [by apply elem_of_nil in Hd|].
  rewrite fold_left_app. simpl.
  destruct (decide (output_file d' = output_file d)) as [E|Hne].
  - apply output_file_inj in E as ->. apply lookup_insert_eq.
  - rewrite lookup_insert_ne by done. apply IH.
    apply elem_of_app in Hd as [?|Hd]; [done|].
    apply list_elem_of_singleton in Hd as ->. done.
Qed.

Lemma iterdir_run dir s :
  iterdir dir s
  = match kind_of (fs s) dir with
    | Directory => (Ok (listdir (fs s) dir), s)
    | RegularFile => (Raise NotADirectoryError, s)
    | Missing => (Raise FileNotFoundError, s)
    end.
Proof.
  unfold iterdir. rewrite bind_unfold. unfold get_fs.
  by destruct (kind_of (fs s) dir).
Qed.

Lemma inspect_run s n f :
  fs s !! original_data_path = None ->
  fs s !! join original_data_path n = Some f ->
  exists files, inspect_dataset_files s = (Ok files, s).
Proof.
  intros Ho Hn. unfold inspect_dataset_files. rewrite bind_unfold, iterdir_run.
  rewrite (kind_of_directory (fs s) original_data_path n [] f Ho Hn).
  rewrite bind_unfold. unfold get_fs.
  set (files := List.filter _ _).
  assert (n ∈ files) as Hin.
  { apply list_elem_of_In, filter_In. split.
    - apply list_elem_of_In, elem_of_listdir. exists []. by eexists.
    - unfold is_file. apply bool_decide_eq_true. by eexists. }
  destruct files as [|x files]; [by apply elem_of_nil in Hin|].
  by eexists.
Qed.

Lemma cleaner_bind {B} d s df (k : DataFrame -> M B) :
  fs s !! source_file d = Some (Table df) ->
  (cleaner d ≫= k) s
  = k (frame_of d df) (written (output_file d) (Table (frame_of d df)) s).
Proof. intros Hsrc. by rewrite bind_unfold, (cleaner_run d s df Hsrc). Qed.

Lemma cleaners_run raw s (k : DataFrame -> DataFrame -> DataFrame -> DataFrame
                              -> DataFrame -> M run) :
  (forall d, fs s !! source_file d = Some (Table (raw d))) ->
  (bom ← cleaner BoxOffice;
   budgets ← cleaner MovieBudgets;
   tmdb ← cleaner Tmdb;
   rt_info ← cleaner RottenTomatoesInfo;
   rt_reviews ← cleaner RottenTomatoesReviews;
   k bom budgets tmdb rt_info rt_reviews) s
  = k (frame_of BoxOffice (raw BoxOffice))
      (frame_of MovieBudgets (raw MovieBudgets))
      (frame_of Tmdb (raw Tmdb))
      (frame_of RottenTomatoesInfo (raw RottenTomatoesInfo))
      (frame_of RottenTomatoesReviews (raw RottenTomatoesReviews))
      (with_fs (outputs_written raw datasets (fs s)) s).
Proof.
  intros Hsrc.
  rewrite (cleaner_bind BoxOffice s (raw BoxOffice)) by apply Hsrc.
  rewrite (cleaner_bind MovieBudgets _ (raw MovieBudgets))
    by (simpl; rewrite ?lookup_insert_ne by done; apply Hsrc).
  rewrite (cleaner_bind Tmdb _ (raw Tmdb))
    by (simpl; rewrite ?lookup_insert_ne by done; apply Hsrc).
  rewrite (cleaner_bind RottenTomatoesInfo _ (raw RottenTomatoesInfo))
    by (simpl; rewrite ?lookup_insert_ne by done; apply Hsrc).
  rewrite (cleaner_bind RottenTomatoesReviews _ (raw RottenTomatoesReviews))
    by (simpl; rewrite ?lookup_insert_ne by done; apply Hsrc).
  done.
Qed.

Lemma extract_files_other members dir m p :
  (forall parents name, join (dir ++ parents) name <> p) ->
  extract_files members dir m !! p = m !! p.
Proof.
  intros Hp. unfold extract_files. revert m.
  induction members as [|[[parents name] f] members IH]; intros m; simpl; [done|].
  rewrite IH. by apply lookup_insert_ne.
Qed.

Lemma extracted_output_ne parents name d :
  join (extract_path ++ parents) name <> output_file d.
Proof. by destruct d. Qed.

(** The extractor on an archive that leaves no [.db] entry in the
    extraction directory. *)
Lemma extract_without_database s members :
  mkdir_error (fs s) extract_path = None ->
  fs s !! zip_path = Some (Archive members) ->
  glob_suffix (extract_files members extract_path (fs s)) extract_path ".db" = [] ->
  extract_and_clean_imdb_data s
  = (Ok None, with_fs (extract_files members extract_path (fs s)) s).
Proof.
  intros Hdir Hzip Hglob.
  rewrite extract_run, Hdir, (open_file_Some _ _ _ Hzip). cbv zeta. simpl.
  by rewrite Hglob.
Qed.

Lemma run_script_run m :
  run_script m
  = match mkdir_error m cleaned_data_path with
    | None => main {| fs := m; open_connections := 0 |}
    | Some e => (Raise e, {| fs := m; open_connections := 0 |})
    end.
Proof.
  unfold run_script. rewrite bind_unfold, mkdir_run. simpl.
  by destruct (mkdir_error m cleaned_data_path).
Qed.

Lemma run_script_main m :
  m !! cleaned_data_path = None ->
  run_script m = main {| fs := m; open_connections := 0 |}.
Proof.
  intros Hc. rewrite run_script_run, mkdir_cleaned.
  by rewrite (proj2 (is_file_false m cleaned_data_path) Hc).
Qed.

Lemma outputs_written_is_Some raw ds m q :
  is_Some (m !! q) -> is_Some (outputs_written raw ds m !! q).
Proof.
  unfold outputs_written. revert m.
  induction ds as [|d ds IH]; intros m Hq; simpl; [done|].
  apply IH. rewrite lookup_insert_is_Some.
  destruct (decide (output_file d = q)); auto.
Qed.

Lemma mkdir_extracted_after_outputs raw ds m n f :
  m !! extract_path = None ->
  m !! original_data_path = None ->
  m !! join original_data_path n = Some f ->
  mkdir_error (outputs_written raw ds m) extract_path = None.
Proof.
  intros He Ho Hn.
  destruct (outputs_written_is_Some raw ds m (join original_data_path n)) as [g Hg];
    [by eexists|].
  apply (mkdir_extracted _ n g); [| |done].
  - rewrite outputs_written_other; [done | by intros []].
  - rewrite outputs_written_other; [done | by intros []].
Qed.

End MainRun.

Section StepIdempotence.
Context `{Library}.

Lemma first_loop_idempotent d df : first_loop d (first_loop d df) = first_loop d df.
Proof.
  rewrite (first_loop_step d (first_loop d df)).
  rewrite (keyword_columns_names _ _ df) by apply columns_first_loop.
  rewrite first_loop_step. apply for_each_step_idempotent.
  apply first_conversion_idempotent.
Qed.

Lemma second_loop_idempotent d df :
  second_loop d (second_loop d df) = second_loop d df.
Proof.
  rewrite (second_loop_step d (second_loop d df)).
  rewrite (keyword_columns_names _ _ df) by apply columns_second_loop.
  rewrite second_loop_step. apply for_each_step_idempotent.
  apply second_conversion_idempotent.
Qed.

Lemma text_loop_idempotent excluded df :
  NoDup (columns df) ->
  text_loop excluded (text_loop excluded df) = text_loop excluded df.
Proof.
  intros Hnd. rewrite (text_loop_step excluded (text_loop excluded df)).
  apply for_each_step_fixed. intros n s Hn Pn Hget.
  destruct (select_dtypes_object_get (text_loop excluded df) n) as (s' & Hs' & Ho);
    [by rewrite columns_text_loop | done |].
  assert (s' = s) as -> by congruence. clear Hs'.
  rewrite text_loop_step, get_for_each_step in Hget by apply text_series_idempotent.
  rewrite Pn, andb_true_r in Hget.
  destruct (mem n (select_dtypes_object df)) eqn:Hm.
  - destruct (get df n) as [s0|]; simplify_eq/=. apply text_series_idempotent.
  - apply mem_false in Hm. destruct Hm. by eapply get_select_dtypes_object.
Qed.

End StepIdempotence.

Section Cells.
Context `{Library}.

Lemma to_numeric_cell_numeric_or_null c :
  to_numeric_cell c = NaN \/ exists x, to_numeric_cell c = Num x.
Proof.
  destruct c as [| |s|x|b|t]; simpl; eauto.
  destruct (parse_float s) as [[x|]|]; eauto.
Qed.

Lemma text_cell_clean c :
  text_cell c = NaN
  \/ exists t, text_cell c = Str t /\ Py.trimmed t = true /\ t <> "nan".
Proof.
  destruct (text_cell_cases c) as [[-> _]|[-> Hne]]; [by left|].
  right. eexists. split; [done|]. split; [apply trimmed_strip | done].
Qed.

Lemma get_text_body df col s :
  get df col = Some s -> get (text_body df col) col = Some (text_series s).
Proof.
  intros Hg. by rewrite text_body_update, get_update, String.eqb_refl, Hg.
Qed.

(** What does hold of every column the text loop rewrites, in every
    cleaner: each cell is NaN or a string without whitespace at either end
    and other than ["nan"], and a NaN stays a NaN. *)
Lemma text_column_clean df col s :
  get df col = Some s ->
  exists s',
    get (text_body df col) col = Some s'
    /\ dtype_of s' = object
    /\ Forall2
         (fun c c' =>
            (c' = NaN
             \/ exists t, c' = Str t /\ Py.trimmed t = true /\ t <> "nan")
            /\ (c = NaN -> c' = NaN))
         (values s) (values s').
Proof.
  intros Hget. exists (text_series s). split; [by apply get_text_body|].
  split; [done|]. simpl. apply Forall2_fmap_r, Forall_Forall2_diag, Forall_true.
  intros c. split; [apply text_cell_clean | by intros ->].
Qed.

End Cells.

(** ** Sequences of writes *)

Lemma apply_writes_app W1 W2 m :
  apply_writes (W1 ++ W2) m = apply_writes W2 (apply_writes W1 m).
Proof. apply fold_left_app. Qed.

(** When a sequence of writes leaves the files consistent, every write of
    it found them consistent and was to a path that was then no directory
    and lay below no file: none was one the program refuses. *)
Lemma consistent_apply_writes W1 (p : path) f W2 m :
  consistent (apply_writes (W1 ++ (p, f) :: W2) m) ->
  consistent (apply_writes W1 m)
  /\ entries (apply_writes W1 m) p = []
  /\ forall (q : path) n rest,
       p = (q ++ n :: rest)%list -> apply_writes W1 m !! q = None.
Proof.
  rewrite apply_writes_app.
  change (apply_writes ((p, f) :: W2) (apply_writes W1 m))
    with (apply_writes W2 (<[p := f]> (apply_writes W1 m))).
  intros Hc. apply (consistent_insert _ p f).
  revert Hc. generalize (<[p := f]> (apply_writes W1 m)).
  induction W2 as [|[q g] W2 IH]; intros m' Hc; [done|].
  change (apply_writes ((q, g) :: W2) m') with (apply_writes W2 (<[q := g]> m')) in Hc.
  by apply (consistent_insert m' q g), IH.
Qed.

Lemma lookup_apply_writes W m p :
  apply_writes W m !! p
  = match last_write W p with Some f => Some f | None => m !! p end.
Proof.
  revert m. induction W as [|[q f] W IH]; intros m; [done|].
  change (apply_writes ((q, f) :: W) m) with (apply_writes W (<[q := f]> m)).
  rewrite IH. simpl. destruct (last_write W p); [done|].
  destruct (decide (q = p)) as [->|Hne].
  - apply lookup_insert_eq.
  - by apply lookup_insert_ne.
Qed.

Lemma last_write_path W p f : last_write W p = Some f -> p ∈ map fst W.
Proof.
  induction W as [|[q g] W IH]; simpl; [done|].
  destruct (last_write W p); [intros E; right; by apply IH|].
  destruct (decide (q = p)) as [->|]; [intros _; by left | done].
Qed.

Lemma apply_writes_other W m p : p ∉ map fst W -> apply_writes W m !! p = m !! p.
Proof.
  intros Hp. rewrite lookup_apply_writes.
  destruct (last_write W p) eqn:E; [|done]. by apply last_write_path in E.
Qed.

(** Writing the same sequence again changes nothing, also after other
    writes elsewhere. *)
Lemma apply_writes_again W W' m :
  (forall p, p ∈ map fst W -> p ∉ map fst W') ->
  apply_writes W (apply_writes W' (apply_writes W m)) = apply_writes W' (apply_writes W m).
Proof.
  intros Hdisj. apply map_eq. intros p.
  rewrite !lookup_apply_writes.
  destruct (last_write W p) eqn:E; [|done].
  destruct (last_write W' p) eqn:E'; [|done].
  apply last_write_path in E, E'. by destruct (Hdisj p).
Qed.

Lemma apply_writes_twice W m : apply_writes W (apply_writes W m) = apply_writes W m.
Proof. apply (apply_writes_again W [] m). intros p _ Hp. by apply elem_of_nil in Hp. Qed.

Lemma extract_files_writes members dir m :
  extract_files members dir m = apply_writes (member_writes members dir) m.
Proof.
  unfold extract_files, apply_writes, member_writes. revert m.
  induction members as [|[[parents name] f] members IH]; intros m; simpl; [done|].
  apply IH.
Qed.

(** ** Listings depend on the set of entries only *)

Lemma sorted_nodup_ext (l1 l2 : list string) :
  Sorted String.le l1 -> NoDup l1 -> Sorted String.le l2 -> NoDup l2 ->
  (forall x, x ∈ l1 <-> x ∈ l2) -> l1 = l2.
Proof.
  intros S1 N1 S2 N2 Hext. apply (Sorted_unique String.le); try done.
  by apply NoDup_Permutation.
Qed.

Lemma NoDup_list_filter {A} (f : A -> bool) l : NoDup l -> NoDup (List.filter f l).
Proof.
  induction 1 as [|x l Hx Hl IH]; simpl; [constructor|].
  destruct (f x); [|done]. constructor; [|done].
  intros Hin%list_elem_of_In%filter_In. apply Hx, list_elem_of_In, Hin.
Qed.

Lemma entries_nodup m dir : NoDup (entries m dir).
Proof. apply NoDup_remove_dups. Qed.

Section ListingsExt.
Context `{Library}.

Lemma listdir_nodup m dir : NoDup (listdir m dir).
Proof.
  unfold listdir. rewrite listing_order_permutation, merge_sort_Permutation.
  apply entries_nodup.
Qed.

(** The platform's order is that of the names: two maps with the same
    entries in a directory are listed alike. *)
Lemma listdir_ext m m' dir :
  (forall n, n ∈ listdir m dir <-> n ∈ listdir m' dir) -> listdir m dir = listdir m' dir.
Proof.
  intros Hext. unfold listdir. f_equal.
  apply sorted_nodup_ext.
  - apply Sorted_merge_sort. apply _.
  - rewrite merge_sort_Permutation. apply entries_nodup.
  - apply Sorted_merge_sort. apply _.
  - rewrite merge_sort_Permutation. apply entries_nodup.
  - intros n. rewrite !merge_sort_Permutation, !elem_of_entries.
    by rewrite <- !elem_of_listdir.
Qed.

Lemma elem_of_inventory m n :
  n ∈ inventory m <-> is_Some (m !! join original_data_path n).
Proof.
  unfold inventory. rewrite list_elem_of_In, filter_In, <- list_elem_of_In.
  unfold is_file. rewrite bool_decide_eq_true, elem_of_listdir. split.
  - by intros [_ ?].
  - intros Hn. split; [|done]. by exists [].
Qed.

Lemma inventory_nodup m : NoDup (inventory m).
Proof. apply NoDup_list_filter, listdir_nodup. Qed.

(** The inventory of two maps with the same files directly in the source
    directory holds the same names, in an order that may differ when other
    entries of the directory differ. *)
Lemma inventory_permutation m m' :
  (forall n, is_Some (m !! join original_data_path n)
             <-> is_Some (m' !! join original_data_path n)) ->
  inventory m ≡ₚ inventory m'.
Proof.
  intros Hext. apply NoDup_Permutation; try apply inventory_nodup.
  intros n. by rewrite !elem_of_inventory.
Qed.

Lemma glob_suffix_ext m m' dir suffix :
  (forall n, n ∈ listdir m dir <-> n ∈ listdir m' dir) ->
  glob_suffix m dir suffix = glob_suffix m' dir suffix.
Proof. intros Hext. unfold glob_suffix. by rewrite (listdir_ext m m' dir Hext). Qed.

Lemma elem_of_glob_suffix_inv m dir suffix p :
  p ∈ glob_suffix m dir suffix -> exists n, p = join dir n.
Proof. unfold glob_suffix. intros (n & -> & _)%list_elem_of_fmap. by exists n. Qed.

End ListingsExt.

(** ** The archive step as a function of the files *)

Section Outcome.
Context `{Library}.

Lemma select_all_pure_run p t s :
  select_all p t s = (select_all_pure (fs s !! p) t, s).
Proof.
  unfold select_all, select_all_pure. rewrite bind_unfold. unfold get_fs.
  destruct (sql_name_ok t); [|done].
  destruct (fs s !! p) as [[| |tables|]|]; try done.
  by destruct (lookup_table t tables).
Qed.

Lemma count_loop_pure_run p ts s :
  count_loop p ts s = (count_loop_pure (fs s !! p) ts, s).
Proof.
  induction ts as [|t ts IH]; simpl; [done|].
  rewrite bind_unfold. unfold count_rows. rewrite bind_unfold, select_all_pure_run.
  destruct (select_all_pure (fs s !! p) t); [|done].
  unfold mret, M_ret, ret. apply IH.
Qed.

Lemma clean_loop_pure_paths db ts acc :
  Forall (fun w => exists t, fst w = imdb_output t) (clean_loop_pure db ts acc).2.
Proof.
  revert acc. induction ts as [|t ts IH]; intros acc; simpl; [constructor|].
  destruct (select_all_pure db t); [|constructor].
  specialize (IH (<[t := imdb_table_frame a]> acc)).
  destruct (clean_loop_pure db ts _) as [r W]. simpl in *.
  constructor; [by exists t | done].
Qed.

Lemma imdb_output_not_extracted t n : imdb_output t <> join extract_path n.
Proof. done. Qed.

Lemma clean_loop_pure_run p ts acc s :
  (forall t, imdb_output t <> p) ->
  clean_loop p ts acc s
  = ((clean_loop_pure (fs s !! p) ts acc).1,
     with_fs (apply_writes (clean_loop_pure (fs s !! p) ts acc).2 (fs s)) s).
Proof.
  intros Hp. revert acc s. induction ts as [|t ts IH]; intros acc s; simpl.
  - unfold mret, M_ret, ret. by rewrite with_fs_id.
  - rewrite bind_unfold, select_all_pure_run.
    destruct (select_all_pure (fs s !! p) t) as [df|e]; simpl;
      [|by rewrite with_fs_id].
    rewrite bind_unfold. unfold to_csv, write_file at 1. rewrite IH. simpl.
    fold (imdb_output t). rewrite lookup_insert_ne by apply Hp.
    by destruct (clean_loop_pure (fs s !! p) ts _).
Qed.

Lemma connected_outcome_run n s :
  connected_part (join extract_path n) s
  = let '(r, W, o) := connected_outcome (join extract_path n) (fs s) in
    (r, after_outcome W o s).
Proof.
  set (db := join extract_path n).
  unfold connected_part, connected_outcome. rewrite bind_unfold. unfold connect at 1.
  destruct (is_file (fs s) db) eqn:Hf; [|by destruct s].
  rewrite bind_unfold. unfold table_names at 1. rewrite bind_unfold.
  unfold get_fs at 1. simpl.
  destruct (fs s !! db) as [[| |tables|]|] eqn:Hdb; try done.
  unfold mret at 1, M_ret at 1, ret at 1.
  rewrite bind_unfold, count_loop_pure_run. simpl. rewrite Hdb.
  destruct (count_loop_pure _ _) as [[]|e]; [|done].
  rewrite bind_unfold, clean_loop_pure_run
    by (intros t; apply imdb_output_not_extracted).
  simpl. rewrite Hdb.
  destruct (clean_loop_pure _ _ _) as [[cleaned|e] W]; simpl; [|done].
  rewrite bind_unfold. unfold close at 1. done.
Qed.

Lemma extract_outcome_run s :
  extract_and_clean_imdb_data s
  = let '(r, W, o) := extract_outcome (fs s) in (r, after_outcome W o s).
Proof.
  rewrite extract_run. unfold extract_outcome.
  destruct (mkdir_error (fs s) extract_path); [by destruct s|].
  destruct (open_file (fs s) zip_path) as [[|members| |]|]; try (by destruct s).
  cbv zeta. rewrite <- extract_files_writes.
  change (fs (with_fs ?m s)) with m.
  destruct (glob_suffix _ extract_path ".db") as [|db rest] eqn:Hglob.
  - unfold after_outcome. by rewrite extract_files_writes.
  - assert (exists n, db = join extract_path n) as [n ->].
    { eapply elem_of_glob_suffix_inv. rewrite Hglob. by left. }
    fold (connected_part (join extract_path n)).
    rewrite connected_outcome_run. simpl.
    destruct (connected_outcome _ _) as [[r W] o].
    unfold after_outcome. simpl. by rewrite apply_writes_app, extract_files_writes.
Qed.

End Outcome.

(** ** The paths of the archive step are apart from all others *)

Lemma extracted_path_long parents name :
  (3 <= length (join (extract_path ++ parents) name))%nat.
Proof. unfold join, extract_path. rewrite !length_app. simpl. lia. Qed.

Lemma side_path_not_source d : ~ side_path (source_file d).
Proof.
  intros [(parents & name & E)|(t & E)].
  - pose proof (extracted_path_long parents name) as Hl. rewrite <- E in Hl.
    destruct d; simpl in Hl; lia.
  - by destruct d.
Qed.

Lemma side_path_not_output d : ~ side_path (output_file d).
Proof.
  intros [(parents & name & E)|(t & E)].
  - by destruct d.
  - by destruct d.
Qed.

Lemma side_path_not_zip : ~ side_path zip_path.
Proof.
  intros [(parents & name & E)|(t & E)]; [|done].
  pose proof (extracted_path_long parents name) as Hl. rewrite <- E in Hl.
  simpl in Hl; lia.
Qed.

Lemma side_path_not_direct n : ~ side_path (join original_data_path n).
Proof.
  intros [(parents & name & E)|(t & E)]; [|done].
  pose proof (extracted_path_long parents name) as Hl. rewrite <- E in Hl.
  simpl in Hl; lia.
Qed.

Lemma side_path_not_extract : ~ side_path extract_path.
Proof.
  intros [(parents & name & E)|(t & E)]; [|done].
  pose proof (extracted_path_long parents name) as Hl. rewrite <- E in Hl.
  simpl in Hl; lia.
Qed.

Lemma side_path_not_original : ~ side_path original_data_path.
Proof.
  intros [(parents & name & E)|(t & E)]; [|done].
  pose proof (extracted_path_long parents name) as Hl. rewrite <- E in Hl.
  simpl in Hl; lia.
Qed.

Lemma side_path_not_cleaned : ~ side_path cleaned_data_path.
Proof.
  intros [(parents & name & E)|(t & E)]; [|done].
  pose proof (extracted_path_long parents name) as Hl. rewrite <- E in Hl.
  simpl in Hl; lia.
Qed.

Lemma is_Some_apply_writes W m p :
  is_Some (m !! p) -> is_Some (apply_writes W m !! p).
Proof. rewrite lookup_apply_writes. by destruct (last_write W p). Qed.

Lemma member_writes_paths members :
  Forall (fun w => exists parents name, fst w = join (extract_path ++ parents) name)
         (member_writes members extract_path).
Proof.
  unfold member_writes. rewrite Forall_map. apply Forall_true.
  intros [[parents name] f]. simpl. eauto.
Qed.

Lemma not_in_paths (P : path -> Prop) (W : list (path * file)) p :
  Forall (fun w => P (fst w)) W -> ~ P p -> p ∉ map fst W.
Proof.
  intros HW Hp Hin. apply list_elem_of_fmap in Hin as (w & -> & Hw).
  rewrite Forall_forall in HW. by apply Hp, HW.
Qed.

Section Again.
Context `{Library}.

Lemma connected_outcome_paths db m :
  Forall (fun w => exists t, fst w = imdb_output t) (connected_outcome db m).1.2.
Proof.
  unfold connected_outcome. destruct (is_file m db); [|constructor].
  destruct (m !! db) as [[| |tables|]|]; try constructor.
  destruct (count_loop_pure _ _) as [[]|e]; [|constructor].
  pose proof (clean_loop_pure_paths (Some (Database tables)) (map fst tables) ∅) as Hp.
  by destruct (clean_loop_pure _ _ _) as [[cleaned|e] W].
Qed.

Lemma connected_outcome_ext db m m' :
  m' !! db = m !! db -> connected_outcome db m' = connected_outcome db m.
Proof. intros E. unfold connected_outcome, is_file. by rewrite E. Qed.

Lemma extract_outcome_side m :
  Forall (fun w => side_path (fst w)) (extract_outcome m).1.2.
Proof.
  unfold extract_outcome.
  destruct (mkdir_error m extract_path); [constructor|].
  destruct (open_file m zip_path) as [[|members| |]|]; try constructor.
  cbv zeta.
  assert (Forall (fun w => side_path (fst w)) (member_writes members extract_path))
    as H0.
  { eapply Forall_impl; [apply member_writes_paths|]. intros w Hw. by left. }
  destruct (glob_suffix _ _ _) as [|db rest]; [done|].
  pose proof (connected_outcome_paths db
                (apply_writes (member_writes members extract_path) m)) as H1.
  destruct (connected_outcome _ _) as [[r W] o]. simpl in *.
  apply Forall_app. split; [done|].
  eapply Forall_impl; [exact H1|]. intros w Hw. by right.
Qed.

Lemma listdir_extract_writes W m :
  Forall (fun w => exists t, fst w = imdb_output t) W ->
  forall n, n ∈ listdir (apply_writes W m) extract_path <-> n ∈ listdir m extract_path.
Proof.
  intros HW n. rewrite !elem_of_listdir.
  assert (forall rest, apply_writes W m !! (extract_path ++ n :: rest)
                       = m !! (extract_path ++ n :: rest)) as Heq.
  { intros rest. apply apply_writes_other.
    apply (not_in_paths (fun p => exists t, p = imdb_output t) _ _ HW).
    by intros [t E]. }
  split; intros [rest Hr]; exists rest; by rewrite ?Heq in *.
Qed.

(** Running the archive step on the files it left gives the same result
    and the same writes. *)
Lemma extract_outcome_again m :
  extract_outcome (apply_writes (extract_outcome m).1.2 m) = extract_outcome m.
Proof.
  pose proof (extract_outcome_side m) as Hside.
  destruct (mkdir_error m extract_path) as [e|] eqn:Hdir.
  { unfold extract_outcome at 2. rewrite Hdir. simpl.
    unfold extract_outcome. by rewrite Hdir. }
  destruct (open_file m zip_path) as [f|e] eqn:Hzip; cycle 1.
  { unfold extract_outcome at 2. rewrite Hdir, Hzip. simpl.
    unfold extract_outcome. by rewrite Hdir, Hzip. }
  assert (mkdir_error (apply_writes (extract_outcome m).1.2 m) extract_path = None)
    as Hdir'.
  { apply (mkdir_error_mono m); [| | |done].
    - rewrite apply_writes_other; [done|].
      apply (not_in_paths side_path _ _ Hside), side_path_not_extract.
    - rewrite apply_writes_other; [done|].
      apply (not_in_paths side_path _ _ Hside), side_path_not_original.
    - intros q. apply is_Some_apply_writes. }
  assert (open_file (apply_writes (extract_outcome m).1.2 m) zip_path = Ok f) as Hzip'.
  { apply open_file_Some. rewrite apply_writes_other; [by apply open_file_Ok|].
    apply (not_in_paths side_path _ _ Hside), side_path_not_zip. }
  unfold extract_outcome at 1. rewrite Hdir', Hzip'. clear Hdir' Hzip' Hside.
  unfold extract_outcome. rewrite Hdir, Hzip.
  destruct f as [|members| |]; try done.
  cbv zeta. set (W0 := member_writes members extract_path).
  pose proof (member_writes_paths members) as HW0. fold W0 in HW0.
  destruct (glob_suffix (apply_writes W0 m) extract_path ".db") as [|db rest] eqn:Hglob.
  - simpl. by rewrite apply_writes_twice, Hglob.
  - pose proof (connected_outcome_paths db (apply_writes W0 m)) as HW.
    destruct (connected_outcome db (apply_writes W0 m)) as [[r W] o] eqn:Hc.
    simpl in HW |- *. rewrite apply_writes_app.
    rewrite apply_writes_again; cycle 1.
    { intros p Hp. apply (not_in_paths (fun p => exists t, p = imdb_output t) _ _ HW).
      intros [t ->]. apply list_elem_of_fmap in Hp as (w & Hw & Hin).
      rewrite Forall_forall in HW0. destruct (HW0 w Hin) as (parents & name & E).
      rewrite E in Hw. discriminate Hw. }
    rewrite (glob_suffix_ext _ (apply_writes W0 m))
      by (by apply listdir_extract_writes).
    rewrite Hglob.
    assert (exists n, db = join extract_path n) as [n ->].
    { eapply elem_of_glob_suffix_inv. rewrite Hglob. by left. }
    rewrite (connected_outcome_ext _ (apply_writes W0 m)), Hc; [done|].
    apply apply_writes_other,
      (not_in_paths (fun p => exists t, p = imdb_output t) _ _ HW).
    by intros [t E].
Qed.

Lemma extract_again s r s1 :
  extract_and_clean_imdb_data s = (r, s1) ->
  extract_and_clean_imdb_data (with_fs (fs s1) s) = (r, with_fs (fs s1) s1).
Proof.
  rewrite !extract_outcome_run.
  pose proof (extract_outcome_again (fs s)) as Hag.
  destruct (extract_outcome (fs s)) as [[r0 W] o] eqn:Ho. simpl in Hag.
  intros [= <- <-]. simpl. rewrite Hag.
  unfold after_outcome, with_fs; simpl. by rewrite apply_writes_twice.
Qed.

End Again.

(** ** Opening a path after writes elsewhere *)

Lemma open_file_ext m m' (p : path) :
  m' !! p = m !! p ->
  (forall n rest, is_Some (m' !! (p ++ n :: rest)%list)
                  <-> is_Some (m !! (p ++ n :: rest)%list)) ->
  open_file m' p = open_file m p.
Proof.
  intros Hp Hbelow. unfold open_file. rewrite Hp.
  destruct (m !! p); [done|].
  pose proof (entries_nil_ext m m' p Hbelow) as He.
  by destruct (entries m p), (entries m' p).
Qed.

Lemma open_file_insert_other m (p q : path) f :
  (forall rest, q <> (p ++ rest)%list) ->
  open_file (<[q := f]> m) p = open_file m p.
Proof.
  intros Hq. apply open_file_ext.
  - apply lookup_insert_ne. specialize (Hq []). by rewrite app_nil_r in Hq.
  - intros n rest. by rewrite lookup_insert_ne by apply Hq.
Qed.

Lemma open_file_apply_writes W m (p : path) :
  Forall (fun w => forall rest, fst w <> (p ++ rest)%list) W ->
  open_file (apply_writes W m) p = open_file m p.
Proof.
  intros HW.
  assert (forall rest, apply_writes W m !! (p ++ rest)%list = m !! (p ++ rest)%list)
    as Heq.
  { intros rest. apply apply_writes_other.
    intros (w & Hw & Hin)%list_elem_of_fmap.
    by apply ((proj1 (Forall_forall _ _) HW) w Hin rest). }
  apply open_file_ext.
  - specialize (Heq []). by rewrite app_nil_r in Heq.
  - intros n rest. by rewrite Heq.
Qed.

Lemma side_path_not_below_source d q rest :
  side_path q -> q <> (source_file d ++ rest)%list.
Proof.
  intros [(parents & name & ->)|(t & ->)] E; by destruct d.
Qed.

Lemma output_not_below_source d d' rest :
  output_file d' <> (source_file d ++ rest)%list.
Proof. by destruct d, d'. Qed.

Lemma open_file_kind m (p : path) :
  p <> [] ->
  open_file m p
  = match m !! p with
    | Some f => Ok f
    | None => Raise match kind_of m p with
                    | Directory => IsADirectoryError
                    | _ => FileNotFoundError
                    end
    end.
Proof.
  intros Hp. unfold open_file. destruct (m !! p) as [f|] eqn:E; [done|].
  destruct p as [|c p]; [done|]. unfold kind_of.
  rewrite (proj2 (is_file_false m (c :: p)) E). by destruct (entries m (c :: p)).
Qed.

Lemma kind_of_missing m (p : path) :
  kind_of m p = Missing -> open_file m p = Raise FileNotFoundError.
Proof.
  intros K. destruct p as [|c p]; [by simpl in K|].
  unfold kind_of in K. unfold open_file.
  destruct (is_file m (c :: p)) eqn:E; [done|]. apply is_file_false in E.
  rewrite E. by destruct (entries m (c :: p)).
Qed.

Section Rerun.
Context `{Library}.

Lemma open_zip_outputs_written raw ds m :
  open_file (outputs_written raw ds m) zip_path = open_file m zip_path.
Proof.
  unfold outputs_written. revert m.
  induction ds as [|d' ds IH]; intros m; simpl; [done|].
  rewrite IH. apply open_file_insert_other. intros rest. by destruct d'.
Qed.

Lemma read_csv_run p s :
  read_csv p s
  = match open_file (fs s) p with
    | Ok (Table df) => (Ok df, s)
    | Ok _ => (Raise ParserError, s)
    | Raise e => (Raise e, s)
    end.
Proof.
  unfold read_csv. rewrite bind_unfold. unfold open_read.
  by destruct (open_file (fs s) p) as [[| | |]|].
Qed.

Lemma cleaner_outcome d s :
  cleaner d s
  = match open_file (fs s) (source_file d) with
    | Ok (Table df) =>
        (Ok (frame_of d df), written (output_file d) (Table (frame_of d df)) s)
    | Ok _ => (Raise ParserError, s)
    | Raise e => (Raise e, s)
    end.
Proof.
  destruct (open_file (fs s) (source_file d)) as [[df| | |]|e] eqn:E.
  - apply cleaner_run. by apply open_file_Ok.
  - destruct d; cbv beta iota delta [source_file] in E;
      cbv beta iota delta [cleaner clean_box_office_data clean_movie_budgets_data
        clean_tmdb_data clean_rotten_tomatoes_info clean_rotten_tomatoes_reviews];
      by rewrite bind_unfold, read_csv_run, E.
  - destruct d; cbv beta iota delta [source_file] in E;
      cbv beta iota delta [cleaner clean_box_office_data clean_movie_budgets_data
        clean_tmdb_data clean_rotten_tomatoes_info clean_rotten_tomatoes_reviews];
      by rewrite bind_unfold, read_csv_run, E.
  - destruct d; cbv beta iota delta [source_file] in E;
      cbv beta iota delta [cleaner clean_box_office_data clean_movie_budgets_data
        clean_tmdb_data clean_rotten_tomatoes_info clean_rotten_tomatoes_reviews];
      by rewrite bind_unfold, read_csv_run, E.
  - by apply cleaner_raise.
Qed.

Lemma inspect_outcome s :
  inspect_dataset_files s
  = match kind_of (fs s) original_data_path with
    | Directory =>
        match inventory (fs s) with
        | [] => (Raise KeyError, s)
        | files => (Ok files, s)
        end
    | RegularFile => (Raise NotADirectoryError, s)
    | Missing => (Raise FileNotFoundError, s)
    end.
Proof.
  unfold inspect_dataset_files. rewrite bind_unfold, iterdir_run.
  destruct (kind_of (fs s) original_data_path); try done.
  rewrite bind_unfold. unfold get_fs.
  fold (inventory (fs s)). by destruct (inventory (fs s)).
Qed.

Lemma inspect_state s r s' : inspect_dataset_files s = (r, s') -> s' = s.
Proof.
  rewrite inspect_outcome.
  destruct (kind_of (fs s) original_data_path); try (by intros [= _ <-]).
  by destruct (inventory (fs s)); intros [= _ <-].
Qed.

Lemma summary_outcome s :
  generate_cleaning_summary s = (Ok (glob_suffix (fs s) cleaned_data_path ".csv"), s).
Proof. done. Qed.

Lemma main_after_inventory : main = inspect_dataset_files ≫= after_inventory.
Proof. done. Qed.

(** *** What the steps keep *)

Lemma preserves_bind {A B} (c : M A) (k : A -> M B) Q :
  preserves c Q -> (forall a, preserves (k a) Q) -> preserves (c ≫= k) Q.
Proof.
  intros Hc Hk s r s'. rewrite bind_unfold.
  destruct (c s) as [[a|e] s1] eqn:E.
  - intros Hr HQ. eapply Hk; [exact Hr|]. by eapply Hc.
  - intros [= _ <-] HQ. by eapply Hc.
Qed.

Lemma preserves_ret {A} (a : A) Q : preserves (mret a) Q.
Proof. by intros s r s' [= _ <-]. Qed.

Lemma preserves_inspect Q : preserves inspect_dataset_files Q.
Proof. intros s r s' Hr HQ. by rewrite (inspect_state s r s' Hr). Qed.

Lemma preserves_after_inventory files Q :
  stable Q -> preserves (after_inventory files) Q.
Proof.
  intros (Hc & He & Hs). unfold after_inventory.
  change clean_box_office_data with (cleaner BoxOffice).
  change clean_movie_budgets_data with (cleaner MovieBudgets).
  change clean_tmdb_data with (cleaner Tmdb).
  change clean_rotten_tomatoes_info with (cleaner RottenTomatoesInfo).
  change clean_rotten_tomatoes_reviews with (cleaner RottenTomatoesReviews).
  repeat (apply preserves_bind; [by auto | intros ?]). apply preserves_ret.
Qed.

Lemma preserves_main Q : stable Q -> preserves main Q.
Proof.
  intros HQ. rewrite main_after_inventory.
  apply preserves_bind; [apply preserves_inspect | intros ?].
  by apply preserves_after_inventory.
Qed.

Lemma stable_lookup p v :
  ~ side_path p -> (forall d, p <> output_file d) -> stable (fun e => e !! p = v).
Proof.
  intros Hside Hout. split; [|split].
  - intros d s r s'. rewrite cleaner_outcome.
    destruct (open_file (fs s) (source_file d)) as [[df| | |]|]; intros [= _ <-]; try done.
    simpl. by rewrite lookup_insert_ne by (apply not_eq_sym, Hout).
  - intros s r s'. rewrite extract_outcome_run.
    pose proof (extract_outcome_side (fs s)) as Hs.
    destruct (extract_outcome (fs s)) as [[r0 W] o]. intros [= _ <-] HQ. simpl in *.
    by rewrite apply_writes_other by (by apply (not_in_paths side_path)).
  - by intros s r s' [= _ <-].
Qed.

Lemma stable_is_Some p : stable (fun e => is_Some (e !! p)).
Proof.
  split; [|split].
  - intros d s r s'. rewrite cleaner_outcome.
    destruct (open_file (fs s) (source_file d)) as [[df| | |]|]; intros [= _ <-]; try done.
    intros HQ. simpl. rewrite lookup_insert_is_Some. destruct (decide (output_file d = p)); auto.
  - intros s r s'. rewrite extract_outcome_run.
    destruct (extract_outcome (fs s)) as [[r0 W] o]. intros [= _ <-] HQ. simpl.
    by apply is_Some_apply_writes.
  - by intros s r s' [= _ <-].
Qed.

Lemma stable_cleaner_fact d src : stable (cleaner_fact d src).
Proof.
  split; [|split].
  - intros d' s r s'. rewrite cleaner_outcome.
    destruct (open_file (fs s) (source_file d')) as [[df'| | |]|] eqn:E;
      intros [= _ <-]; try done.
    intros [Hsrc Hout]. split.
    + simpl. rewrite open_file_insert_other; [done|].
      intros rest. apply output_not_below_source.
    + intros df Hdf. simpl.
      destruct (decide (output_file d' = output_file d)) as [Heq|Hne].
      * apply output_file_inj in Heq as ->.
        assert (df' = df) as -> by congruence. apply lookup_insert_eq.
      * rewrite lookup_insert_ne; [by apply Hout | done].
  - intros s r s'. rewrite extract_outcome_run.
    pose proof (extract_outcome_side (fs s)) as Hs.
    destruct (extract_outcome (fs s)) as [[r0 W] o]. intros [= _ <-] [Hsrc Hout].
    simpl in *. split.
    + rewrite open_file_apply_writes; [done|].
      eapply Forall_impl; [exact Hs|]. intros w Hw rest.
      by apply side_path_not_below_source.
    + intros df Hdf. rewrite apply_writes_other; [by apply Hout|].
      apply (not_in_paths side_path); [done | apply side_path_not_output].
  - by intros s r s' [= _ <-].
Qed.

(** *** Replaying one step on the files of the end of the run *)

Lemma replay_step {A B} (c : M A) (k : A -> M B) (Q : gmap path file -> Prop)
    s r s_end :
  (c ≫= k) s = (r, s_end) ->
  (forall r1 s1, c s = (r1, s1) -> Q (fs s1)) ->
  (forall r1 s1 e, c s = (r1, s1) -> Q e -> c (with_fs e s) = (r1, with_fs e s1)) ->
  (forall a, preserves (k a) Q) ->
  (forall a s1, c s = (Ok a, s1) -> k a s1 = (r, s_end) ->
                k a (with_fs (fs s_end) s1) = (r, with_fs (fs s_end) s_end)) ->
  (c ≫= k) (with_fs (fs s_end) s) = (r, with_fs (fs s_end) s_end).
Proof.
  intros Hrun Hest Hrep Hpre Hk. rewrite bind_unfold in Hrun |- *.
  destruct (c s) as [[a|e] s1] eqn:E.
  - assert (Q (fs s_end)) as HQ.
    { eapply Hpre; [exact Hrun|]. by eapply Hest. }
    rewrite (Hrep _ _ _ eq_refl HQ). by apply Hk.
  - injection Hrun as <- <-.
    by rewrite (Hrep _ _ (fs s1) eq_refl (Hest _ _ eq_refl)).
Qed.

Lemma cleaner_establishes d s r s1 :
  cleaner d s = (r, s1) -> cleaner_fact d (open_file (fs s) (source_file d)) (fs s1).
Proof.
  rewrite cleaner_outcome.
  destruct (open_file (fs s) (source_file d)) as [[df| | |]|] eqn:E; intros [= _ <-];
    try by split.
  split; simpl.
  - rewrite open_file_insert_other; [done|]. intros rest. apply output_not_below_source.
  - intros df' [= <-]. apply lookup_insert_eq.
Qed.

Lemma cleaner_replay d s r s1 e :
  cleaner d s = (r, s1) ->
  cleaner_fact d (open_file (fs s) (source_file d)) e ->
  cleaner d (with_fs e s) = (r, with_fs e s1).
Proof.
  rewrite !cleaner_outcome. intros Hrun [Hsrc Hout]. simpl. rewrite Hsrc.
  destruct (open_file (fs s) (source_file d)) as [[df| | |]|];
    injection Hrun as <- <-; try done.
  unfold written, with_fs. simpl. by rewrite (insert_id e _ _ (Hout df eq_refl)).
Qed.

(** Running the part after the inventory again on the files a run has left
    ends in the same way and leaves the same files. *)
Lemma after_inventory_again files s r s_end :
  after_inventory files s = (r, s_end) ->
  after_inventory files (with_fs (fs s_end) s) = (r, with_fs (fs s_end) s_end).
Proof.
  unfold after_inventory.
  change clean_box_office_data with (cleaner BoxOffice).
  change clean_movie_budgets_data with (cleaner MovieBudgets).
  change clean_tmdb_data with (cleaner Tmdb).
  change clean_rotten_tomatoes_info with (cleaner RottenTomatoesInfo).
  change clean_rotten_tomatoes_reviews with (cleaner RottenTomatoesReviews).
  intros Hrun.
  (* the five cleaners *)
  do 5 (
    match goal with
    | Hrun : (cleaner ?d ≫= _) ?s = _ |- _ =>
        apply (replay_step _ _ (cleaner_fact d (open_file (fs s) (source_file d))));
        [ exact Hrun
        | intros ? ?; apply cleaner_establishes
        | intros ? ? ?; apply cleaner_replay
        | intros ?;
          destruct (stable_cleaner_fact d (open_file (fs s) (source_file d)))
            as (Hc & He & Hs);
          repeat (apply preserves_bind; [by auto|intros ?]); apply preserves_ret
        | clear Hrun; intros ? ? _ Hrun ]
    end).
  (* the archive *)
  match goal with
  | Hrun : (extract_and_clean_imdb_data ≫= _) ?s = _ |- _ =>
      apply (replay_step _ _
               (fun e => e = fs (extract_and_clean_imdb_data s).2));
      [ exact Hrun
      | by intros ? ? ->
      | intros r1 s1' e Hx ->; rewrite Hx; by apply extract_again
      | intros ?; apply preserves_bind; [|intros ?; apply preserves_ret];
        by intros ? ? ? [= _ <-]
      | clear Hrun; intros ? ? _ Hrun ]
  end.
  (* the summary *)
  rewrite bind_unfold, summary_outcome in Hrun |- *.
  by injection Hrun as <- <-.
Qed.

(** The inventory is only handed on: the rest of the main block does the
    same whatever it holds. *)
Lemma after_inventory_files files files' s :
  after_inventory files' s
  = (match (after_inventory files s).1 with
     | Ok r => Ok (with_inventory files' r)
     | Raise e => Raise e
     end, (after_inventory files s).2).
Proof.
  unfold after_inventory.
  rewrite !(bind_unfold clean_box_office_data).
  destruct (clean_box_office_data s) as [[bom|e] s1]; [|done].
  rewrite !(bind_unfold clean_movie_budgets_data).
  destruct (clean_movie_budgets_data s1) as [[budgets|e] s2]; [|done].
  rewrite !(bind_unfold clean_tmdb_data).
  destruct (clean_tmdb_data s2) as [[tmdb|e] s3]; [|done].
  rewrite !(bind_unfold clean_rotten_tomatoes_info).
  destruct (clean_rotten_tomatoes_info s3) as [[rt_info|e] s4]; [|done].
  rewrite !(bind_unfold clean_rotten_tomatoes_reviews).
  destruct (clean_rotten_tomatoes_reviews s4) as [[rt_reviews|e] s5]; [|done].
  rewrite !(bind_unfold extract_and_clean_imdb_data).
  destruct (extract_and_clean_imdb_data s5) as [[imdb|e] s6]; [|done].
  by rewrite !(bind_unfold generate_cleaning_summary), summary_outcome.
Qed.

Lemma same_outcome_refl r : same_outcome r r.
Proof. destruct r as [x|e]; [|done]. split; [done|]. by destruct x. Qed.

(** Running the main block again on the files a run has left ends in the
    same way, up to the order of the inventory, and leaves the same
    files. *)
Lemma main_again s r s_end :
  main s = (r, s_end) ->
  exists r',
    main (with_fs (fs s_end) s) = (r', with_fs (fs s_end) s_end)
    /\ same_outcome r r'.
Proof.
  rewrite main_after_inventory, bind_unfold.
  destruct (inspect_dataset_files s) as [[files|e] s0] eqn:Hi;
    pose proof (inspect_state _ _ _ Hi) as ->.
  - intros Hrun.
    assert (forall p, ~ side_path p -> (forall d, p <> output_file d) ->
                      fs s_end !! p = fs s !! p) as Hother.
    { intros p Hp Hout.
      by apply (preserves_after_inventory files _
                  (stable_lookup p (fs s !! p) Hp Hout) _ _ _ Hrun). }
    rewrite inspect_outcome in Hi.
    destruct (kind_of (fs s) original_data_path) eqn:K; try done.
    assert (files = inventory (fs s) /\ inventory (fs s) <> []) as [-> Hne].
    { destruct (inventory (fs s)); [done|]. by injection Hi as <-. }
    clear Hi.
    assert (inventory (fs s_end) ≡ₚ inventory (fs s)) as Hperm.
    { apply inventory_permutation. intros n.
      rewrite Hother; [done | apply side_path_not_direct | by intros []]. }
    assert (kind_of (fs s_end) original_data_path = Directory) as K'.
    { apply (kind_of_directory_mono (fs s)); [| |done].
      - rewrite Hother; [done | apply side_path_not_original | by intros []].
      - intros q Hq.
        by apply (preserves_after_inventory _ _ (stable_is_Some q) _ _ _ Hrun). }
    rewrite bind_unfold, inspect_outcome. simpl fs. rewrite K'.
    destruct (inventory (fs s_end)) as [|n l] eqn:E.
    { destruct Hne. symmetry. by apply Permutation_nil_l. }
    rewrite <- E in *. clear E n l.
    pose proof (after_inventory_again _ _ _ _ Hrun) as Hag.
    rewrite (after_inventory_files (inventory (fs s)) (inventory (fs s_end))), Hag.
    simpl. eexists. split; [done|].
    destruct r as [x|e]; [|done]. simpl. split; [|done].
    assert (files_inventory x = inventory (fs s)) as ->; [|done].
    pose proof (after_inventory_files (inventory (fs s)) (inventory (fs s)) s) as Hx.
    rewrite Hrun in Hx. simpl in Hx. injection Hx as Hx. by rewrite Hx.
  - intros [= <- <-]. rewrite with_fs_id, bind_unfold, Hi. eexists. split; [done|].
    apply same_outcome_refl.
Qed.

End Rerun.

Section More.
Context `{Library}.

Lemma sum_repeat_false n : sum (repeat false n) = 0%nat.
Proof. unfold sum. induction n as [|n IH]; simpl; [done | exact IH]. Qed.

Lemma deduplicate_idempotent d df :
  well_formed df -> deduplicate d (deduplicate d df) = deduplicate d df.
Proof.
  intros Hwf. destruct d; simpl; try by apply drop_duplicates_idempotent.
  destruct (0 <? sum (duplicated df))%nat eqn:E.
  - by rewrite duplicated_drop_duplicates, sum_repeat_false.
  - by rewrite E.
Qed.

Lemma cleaner_again d s :
  cleaner d (cleaner d s).2 = cleaner d s.
Proof.
  destruct (cleaner d s) as [r s1] eqn:E. simpl.
  pose proof (cleaner_replay d s r s1 (fs s1) E (cleaner_establishes d s r s1 E)) as Hr.
  assert (open_connections s1 = open_connections s) as Hc.
  { rewrite cleaner_outcome in E.
    by destruct (open_file (fs s) (source_file d)) as [[df| | |]|];
      injection E as <- <-. }
  unfold with_fs in Hr. rewrite <- Hc in Hr. by destruct s1.
Qed.

Lemma run_script_again m :
  (run_script (fs (run_script m).2)).2 = (run_script m).2
  /\ same_outcome (run_script m).1 (run_script (fs (run_script m).2)).1.
Proof.
  rewrite (run_script_run m).
  destruct (mkdir_error m cleaned_data_path) as [e|] eqn:Hdir.
  { simpl. rewrite run_script_run, Hdir. by split. }
  set (s := {| fs := m; open_connections := 0 |}).
  destruct (main s) as [r s_end] eqn:E. simpl.
  assert (m !! cleaned_data_path = None) as Hc.
  { rewrite mkdir_cleaned in Hdir. apply is_file_false.
    by destruct (is_file m cleaned_data_path). }
  assert (fs s_end !! cleaned_data_path = None) as Hc'.
  { apply (preserves_main _ (stable_lookup cleaned_data_path None
             side_path_not_cleaned ltac:(by intros [])) s r s_end E). exact Hc. }
  rewrite (run_script_main _ Hc').
  destruct (main_again s r s_end E) as (r' & Hr & Hsame).
  unfold with_fs in Hr. simpl in Hr. rewrite Hr. simpl. split; [|done].
  by destruct s_end.
Qed.

Lemma imdb_text_loop_idempotent df :
  let text_columns := select_dtypes_object df in
  for_each text_columns text_body (for_each text_columns text_body df)
  = for_each text_columns text_body df.
Proof.
  intros tc.
  rewrite !(for_each_ext tc text_body (col_step always text_series))
    by (intros; apply text_body_update).
  apply for_each_step_idempotent, text_series_idempotent.
Qed.

Lemma imdb_numeric_loop_idempotent text_columns names df :
  let body := fun df col =>
    if negb (mem col text_columns) then numeric_body df col else df in
  for_each names body (for_each names body df) = for_each names body df.
Proof.
  intros body.
  apply (for_each_step_idempotent (outside text_columns) to_numeric).
  apply to_numeric_idempotent.
Qed.

End More.

(** ** The cleaned frame, column by column *)

Lemma mem_filter (f : string -> bool) n l :
  mem n (List.filter f l) = mem n l && f n.
Proof.
  unfold mem. induction l as [|a l IH]; simpl; [done|].
  destruct (f a) eqn:Ea; simpl; rewrite IH;
    destruct (String.eqb_spec n a) as [->|]; simpl; rewrite ?Ea; try done.
  by rewrite andb_false_r.
Qed.

Lemma mem_keyword_columns kws df n :
  mem n (keyword_columns kws df)
  = mem n (columns df) && Py.any_in kws (Py.lower n).
Proof.
  exact (mem_filter (fun col => Py.any_in kws (Py.lower col)) n (columns df)).
Qed.

Lemma mem_columns_get df n : mem n (columns df) = bool_decide (is_Some (get df n)).
Proof.
  destruct (mem n (columns df)) eqn:E.
  - apply mem_true, get_Some_columns in E. by rewrite bool_decide_eq_true_2.
  - apply mem_false in E. rewrite bool_decide_eq_false_2; [done|].
    by rewrite get_Some_columns.
Qed.

Section ColumnWise.
Context `{Library}.

Lemma mem_select_dtypes_object df n s :
  NoDup (columns df) -> get df n = Some s ->
  mem n (select_dtypes_object df) = is_object (dtype_of s).
Proof.
  intros Hnd Hg. destruct (is_object (dtype_of s)) eqn:Ho.
  - apply mem_true. by eapply get_select_dtypes_object.
  - apply mem_false. intros Hn.
    destruct (select_dtypes_object_get df n Hnd Hn) as (s' & Hg' & Ho'). congruence.
Qed.

Lemma mem_select_dtypes_object_none df n :
  get df n = None -> mem n (select_dtypes_object df) = false.
Proof.
  intros Hg. apply mem_false. intros Hn.
  assert (n ∈ columns df) as Hc.
  { unfold select_dtypes_object, columns in *.
    apply list_elem_of_fmap in Hn as (c & -> & Hin%list_elem_of_In).
    apply filter_In in Hin as [Hin _]. apply list_elem_of_fmap.
    exists c. split; [done | by apply list_elem_of_In]. }
  apply get_Some_columns in Hc as [s Hs]. congruence.
Qed.

Lemma get_text_loop excluded df n :
  NoDup (columns df) ->
  get (text_loop excluded df) n
  = (fun s => if is_object (dtype_of s) && negb (mem n excluded)
              then text_series s else s) <$> get df n.
Proof.
  intros Hnd. rewrite text_loop_step, get_for_each_step by apply text_series_idempotent.
  unfold outside. destruct (get df n) as [s|] eqn:Hg; simpl.
  - rewrite (mem_select_dtypes_object df n s Hnd Hg).
    by destruct (is_object (dtype_of s) && negb (mem n excluded)).
  - by rewrite (mem_select_dtypes_object_none df n Hg).
Qed.

Lemma mem_text_excluded d df n :
  is_Some (get df n) -> mem n (text_excluded d df) = text_skips d n.
Proof.
  intros Hs. unfold text_excluded, text_skips.
  assert (forall l1 l2, mem n (l1 ++ l2) = mem n l1 || mem n l2) as Happ
    by (intros; unfold mem; apply existsb_app).
  assert (mem n (columns df) = true) as Hm by (by apply mem_true, get_Some_columns).
  unfold carries.
  destruct d; simpl; rewrite ?Happ, !mem_keyword_columns, ?columns_first_loop, ?Hm; done.
Qed.

Lemma get_typed d df n :
  get (typed d df) n
  = (fun s =>
       let s1 := if carries d (first_category d) n then first_conversion d s else s in
       if carries d (second_category d) n then second_conversion d s1 else s1)
    <$> get (deduplicate d df) n.
Proof.
  unfold typed, carries. rewrite get_second_loop, get_first_loop, !mem_keyword_columns.
  rewrite columns_first_loop.
  destruct (get (deduplicate d df) n) as [s|] eqn:Hg; simpl.
  - assert (mem n (columns (deduplicate d df)) = true) as ->
      by (apply mem_true, get_Some_columns; rewrite Hg; by eexists).
    simpl.
    by destruct (Py.any_in (keywords d (first_category d)) (Py.lower n)),
                (Py.any_in (keywords d (second_category d)) (Py.lower n)).
  - by destruct (_ && _), (_ && _).
Qed.

(** The frame a cleaner saves, column by column *)
Lemma get_frame_of d df n :
  NoDup (columns df) ->
  get (frame_of d df) n = cleaned_column d n <$> get (deduplicate d df) n.
Proof.
  intros Hnd. rewrite frame_of_stages, get_text_loop by (by rewrite columns_typed).
  rewrite get_typed. destruct (get (deduplicate d df) n) as [s|] eqn:Hg; simpl; [|done].
  rewrite mem_text_excluded by eauto. done.
Qed.

Lemma get_drop_duplicates df n :
  get (drop_duplicates df) n
  = (fun s => {| dtype_of := dtype_of s;
                 values := select (map negb (duplicated df)) (values s) |}) <$> get df n.
Proof.
  unfold get, drop_duplicates. simpl. generalize (map negb (duplicated df)) as keep.
  intros keep. induction (cols df) as [|[m s] cs IH]; simpl; [done|].
  destruct (String.eqb m n); [done | exact IH].
Qed.

Lemma get_imdb_table_frame df n :
  NoDup (columns df) ->
  get (imdb_table_frame df) n = cleaned_table_column <$> get (drop_duplicates df) n.
Proof.
  intros Hnd. rewrite imdb_table_frame_step. cbv zeta.
  set (df0 := drop_duplicates df).
  assert (NoDup (columns df0)) as Hnd0 by (by unfold df0; rewrite columns_drop_duplicates).
  rewrite get_for_each_step by apply to_numeric_idempotent.
  rewrite get_for_each_step by apply text_series_idempotent.
  rewrite columns_for_each_step. unfold always, outside, cleaned_table_column.
  rewrite andb_true_r.
  destruct (get df0 n) as [s|] eqn:Hg; simpl.
  - rewrite (mem_select_dtypes_object df0 n s Hnd0 Hg).
    assert (mem n (columns df0) = true) as ->
      by (apply mem_true, get_Some_columns; rewrite Hg; by eexists).
    by destruct (is_object (dtype_of s)).
  - rewrite (mem_select_dtypes_object_none df0 n Hg). simpl.
    by destruct (mem n (columns df0)).
Qed.

Lemma columns_frame_of d df : columns (frame_of d df) = columns df.
Proof. by rewrite frame_of_stages, columns_text_loop, columns_typed. Qed.

Lemma columns_imdb_table_frame df : columns (imdb_table_frame df) = columns df.
Proof.
  rewrite imdb_table_frame_step. cbv zeta.
  by rewrite !columns_for_each_step, columns_drop_duplicates.
Qed.

End ColumnWise.

(** ** The shape of the cleaned frame *)

Lemma sum_zero mask : sum mask = 0%nat -> mask = repeat false (length mask).
Proof.
  unfold sum. induction mask as [|[] mask IH]; simpl; [done|done|].
  intros E. by rewrite <- IH.
Qed.

Lemma lookup_col_length k col cs s :
  Forall (fun c => length (values (snd c)) = k) cs ->
  lookup_col col cs = Some s -> length (values s) = k.
Proof.
  induction 1 as [|[n s0] cs Hc _ IH]; simpl; [done|].
  destruct (String.eqb n col); [by intros [= <-] | exact IH].
Qed.

Lemma assign_col_length k col cs s :
  Forall (fun c => length (values (snd c)) = k) cs ->
  length (values s) = k ->
  Forall (fun c => length (values (snd c)) = k) (assign_col col s cs).
Proof.
  intros Hcs Hs. induction Hcs as [|[n s0] cs Hc Hcs IH]; simpl.
  - by constructor.
  - destruct (String.eqb n col); constructor; done.
Qed.

Lemma well_formed_update g df col :
  (forall s, length (values (g s)) = length (values s)) ->
  well_formed df -> well_formed (update g df col).
Proof.
  intros Hg Hwf. unfold update. destruct (get df col) as [s|] eqn:E; [|done].
  unfold well_formed, set. simpl. apply assign_col_length; [done|].
  rewrite Hg. by eapply lookup_col_length.
Qed.

Lemma well_formed_for_each_step P g names df :
  (forall s, length (values (g s)) = length (values s)) ->
  well_formed df -> well_formed (for_each names (col_step P g) df).
Proof.
  intros Hg. unfold for_each. revert df.
  induction names as [|n names IH]; simpl; intros df Hwf; [done|].
  apply IH. unfold col_step. destruct (P n); [by apply well_formed_update | done].
Qed.

Lemma for_each_step_ext P P' g names df :
  (forall n, n ∈ names -> P n = P' n) ->
  for_each names (col_step P g) df = for_each names (col_step P' g) df.
Proof.
  unfold for_each. revert df.
  induction names as [|n names IH]; simpl; intros df HP; [done|].
  unfold col_step at 2 4. rewrite (HP n) by (by left).
  apply IH. intros m Hm. apply HP. by right.
Qed.

Section Shape.
Context `{Library}.

Lemma length_to_numeric s : length (values (to_numeric s)) = length (values s).
Proof. unfold to_numeric. destruct (dtype_of s); simpl; by rewrite ?length_map. Qed.

Lemma length_money_series s : length (values (money_series s)) = length (values s).
Proof. unfold money_series. destruct (is_object _); simpl; by rewrite ?length_map. Qed.

Lemma length_percent_series s : length (values (percent_series s)) = length (values s).
Proof. unfold percent_series. destruct (is_object _); simpl; by rewrite ?length_map. Qed.

Lemma length_text_series s : length (values (text_series s)) = length (values s).
Proof. unfold text_series. simpl. by rewrite length_map. Qed.

Lemma length_date_series s : length (values (date_series s)) = length (values s).
Proof.
  unfold date_series, to_datetime.
  destruct (dtype_of s); simpl; by rewrite ?length_map.
Qed.

Lemma length_first_conversion d s :
  length (values (first_conversion d s)) = length (values s).
Proof.
  destruct d; simpl;
    auto using length_to_numeric, length_money_series, length_percent_series.
Qed.

Lemma length_second_conversion d s :
  length (values (second_conversion d s)) = length (values s).
Proof. destruct d; simpl; auto using length_to_numeric, length_date_series. Qed.

Lemma deduplicate_drop_duplicates d df :
  well_formed df -> deduplicate d df = drop_duplicates df.
Proof.
  intros Hwf. destruct d; simpl; try done.
  destruct (0 <? sum (duplicated df))%nat eqn:E; [done|].
  symmetry. apply drop_duplicates_fixed; [done|].
  apply Nat.ltb_ge in E. rewrite <- length_duplicated. apply sum_zero. lia.
Qed.

Lemma well_formed_deduplicate d df : well_formed df -> well_formed (deduplicate d df).
Proof.
  intros Hwf. rewrite deduplicate_drop_duplicates by done.
  by apply well_formed_drop_duplicates.
Qed.

Lemma well_formed_frame_of d df : well_formed df -> well_formed (frame_of d df).
Proof.
  intros Hwf. rewrite frame_of_stages, text_loop_step.
  apply well_formed_for_each_step; [apply length_text_series|].
  unfold typed. rewrite second_loop_step.
  apply well_formed_for_each_step; [apply length_second_conversion|].
  rewrite first_loop_step.
  apply well_formed_for_each_step; [apply length_first_conversion|].
  by apply well_formed_deduplicate.
Qed.

Lemma well_formed_imdb_table_frame df :
  well_formed df -> well_formed (imdb_table_frame df).
Proof.
  intros Hwf. rewrite imdb_table_frame_step. cbv zeta.
  apply well_formed_for_each_step; [apply length_to_numeric|].
  apply well_formed_for_each_step; [apply length_text_series|].
  by apply well_formed_drop_duplicates.
Qed.

Lemma money_series_not_object s : is_object (dtype_of (money_series s)) = false.
Proof. unfold money_series. by destruct (is_object (dtype_of s)) eqn:E. Qed.

Lemma percent_series_not_object s : is_object (dtype_of (percent_series s)) = false.
Proof. unfold percent_series. by destruct (is_object (dtype_of s)) eqn:E. Qed.

(** Of the names the text loop is told to skip only the date columns can
    still be of dtype object. *)
Lemma object_after_loops d df n s :
  get (typed d df) n = Some s ->
  is_object (dtype_of s) = true ->
  text_skips d n = carries d temporal n.
Proof.
  rewrite get_typed. destruct (get (deduplicate d df) n) as [s0|]; simpl; [|done].
  intros [= <-]. unfold text_skips.
  destruct d; simpl; try done;
    destruct (carries _ monetary n) eqn:E1 || destruct (carries _ rating n) eqn:E1;
    simpl; try done.
  - destruct (carries BoxOffice year n);
      by rewrite ?to_numeric_not_object, ?money_series_not_object.
  - destruct (carries MovieBudgets temporal n) eqn:E2; [done|].
    by rewrite money_series_not_object.
  - destruct (carries RottenTomatoesInfo year n);
      by rewrite ?to_numeric_not_object, ?percent_series_not_object.
Qed.

End Shape.

(** ** Amounts and numerals *)

Lemma read_digits_step c acc n s :
  is_digit c = true ->
  read_digits acc n (String c s) = read_digits (10 * acc + digit_value c) (S n) s.
Proof. simpl. by intros ->. Qed.

Lemma read_digits_stop c acc n s :
  is_digit c = false -> read_digits acc n (String c s) = (acc, n, String c s).
Proof. simpl. by intros ->. Qed.

Lemma append_cons c s r : String c s +:+ r = String c (s +:+ r).
Proof. reflexivity. Qed.

Lemma read_digits_uint d a k rest :
  read_digits (Z.of_nat a) k (NilEmpty.string_of_uint d +:+ rest)
  = read_digits (Z.of_nat (Nat.of_uint_acc d a)) (k + nb_digits d) rest.
Proof.
  revert a k. induction d; intros a k; cbn [NilEmpty.string_of_uint];
    [change ("" +:+ rest) with rest; simpl; by rewrite Nat.add_0_r | ..];
    rewrite append_cons, read_digits_step by reflexivity;
    cbn [Nat.of_uint_acc nb_digits]; rewrite Nat.tail_mul_spec;
    match goal with
    | |- read_digits ?x _ _ = read_digits (Z.of_nat (Nat.of_uint_acc _ ?y)) _ _ =>
        replace x with (Z.of_nat y) by (set (v := digit_value _); vm_compute in v; subst v; lia)
    end;
    rewrite IHd; f_equal; lia.
Qed.

Lemma first_digit d :
  d <> Nil ->
  exists c s, NilEmpty.string_of_uint d = String c s /\ is_digit c = true.
Proof. destruct d; [done|..]; intros _; simpl; eauto. Qed.

Lemma parse_float_digits (i : uint) (frac : option uint) :
  i <> Nil ->
  parse_float
    (NilEmpty.string_of_uint i
     +:+ match frac with
         | Some f => "." +:+ NilEmpty.string_of_uint f
         | None => ""
         end)
  = Some (Some (Fin (
      match frac with
      | Some f =>
          scale10 (Z.of_nat (Nat.of_uint_acc f (Nat.of_uint i)))
                  (- Z.of_nat (nb_digits f))
      | None => inject_Z (Z.of_nat (Nat.of_uint i))
      end))).
Proof.
  intros Hi. destruct (first_digit i Hi) as (c & s & Es & Hc).
  assert (nb_digits i <> 0%nat) as Hn by (by destruct i).
  unfold parse_float.
  set (tail := match frac with Some f => _ | None => "" end).
  assert (skip_space (NilEmpty.string_of_uint i +:+ tail)
          = NilEmpty.string_of_uint i +:+ tail) as ->.
  { rewrite Es, append_cons. simpl.
    replace (c_isspace c) with false; [done|].
    unfold is_digit, c_isspace in *. destruct (nat_of_ascii c) as [|k] eqn:E; [done|].
    symmetry. apply orb_false_iff. split.
    - apply andb_false_iff. right. apply Nat.leb_gt.
      apply andb_true_iff in Hc as [Hc _]. apply Nat.leb_le in Hc. lia.
    - apply Nat.eqb_neq. apply andb_true_iff in Hc as [Hc _]. apply Nat.leb_le in Hc. lia. }
  assert (read_sign (NilEmpty.string_of_uint i +:+ tail)
          = (false, NilEmpty.string_of_uint i +:+ tail)) as ->.
  { rewrite Es, append_cons. unfold read_sign.
    destruct c as [[] [] [] [] [] [] [] []]; try done. }
  pose proof (read_digits_uint i 0 0 tail) as Hd.
  change (Z.of_nat 0) with 0 in Hd. fold (Nat.of_uint i) in Hd.
  change (0 + nb_digits i)%nat with (nb_digits i) in Hd. rewrite Hd. clear Hd.
  destruct frac as [f|]; unfold tail.
  - rewrite append_cons. change ("" +:+ ?x) with x.
    rewrite read_digits_stop by reflexivity.
    pose proof (read_digits_uint f (Nat.of_uint i) 0 "") as Hf.
    replace (NilEmpty.string_of_uint f +:+ "") with (NilEmpty.string_of_uint f) in Hf
      by (clear; induction (NilEmpty.string_of_uint f) as [|a s IH];
          [done | by rewrite append_cons, <- IH]).
    rewrite Hf. simpl read_digits. simpl plus.
    cbv beta iota.
    match goal with
    | |- context [if ?c then _ else _] => destruct c eqn:E
    end; [apply Nat.eqb_eq in E; lia|].
    simpl. do 3 f_equal.
  - simpl read_digits.
    cbv beta iota.
    match goal with
    | |- context [if ?c then _ else _] => destruct c eqn:E
    end; [apply Nat.eqb_eq in E; lia|].
    simpl. do 3 f_equal. unfold scale10. simpl.
    rewrite Z.mul_1_r. apply inject_Z_Qred.
Qed.

Lemma to_uint_not_nil n : Nat.to_uint n <> Nil.
Proof.
  intros E. pose proof (Unsigned.of_to n) as Hn. rewrite E in Hn.
  change (Nat.of_uint Nil) with 0%nat in Hn. subst n. discriminate E.
Qed.

Lemma append_empty_r s : s +:+ "" = s.
Proof. induction s as [|a s IH]; [done | by rewrite append_cons, IH]. Qed.

Lemma parse_float_numeral n :
  parse_float (numeral n) = Some (Some (Fin (inject_Z (Z.of_nat n)))).
Proof.
  pose proof (parse_float_digits (Nat.to_uint n) None (to_uint_not_nil n)) as Hp.
  rewrite append_empty_r in Hp. unfold numeral. rewrite Hp.
  by rewrite Unsigned.of_to.
Qed.

Section Amounts.
Context `{Library}.

Lemma money_cell_str s :
  money_cell (Str s) = to_numeric_cell (Str (Py.remove_chars ["$"; ","]%char s)).
Proof. done. Qed.

Lemma percent_cell_str s :
  percent_cell (Str s) = to_numeric_cell (Str (Py.remove_chars ["%"]%char s)).
Proof. done. Qed.

Lemma to_numeric_cell_numeral n :
  to_numeric_cell (Str (numeral n)) = Num (Fin (inject_Z (Z.of_nat n))).
Proof. simpl. by rewrite parse_float_numeral. Qed.

Lemma strip_blank s :
  (forall c, Py.occurs c s = true -> Py.isspace c = true) -> Py.strip s = "".
Proof.
  intros Hs. unfold Py.strip.
  assert (Py.lstrip s = "") as ->; [|done].
  induction s as [|a s IH]; simpl; [done|].
  rewrite (Hs a) by (simpl; by rewrite Ascii.eqb_refl).
  apply IH. intros c Hc. apply Hs. simpl. by rewrite Hc, orb_true_r.
Qed.

End Amounts.

(** ** What the numeric parser rejects *)

Section Rejected.
Variable x : ascii.
Hypothesis Hx : never_in_a_number x = true.

Lemma never_digit : is_digit x = false.
Proof.
  pose proof Hx as H0. unfold never_in_a_number in H0.
  apply andb_true_iff in H0 as [Hx' _].
  apply andb_true_iff in Hx' as [Hd _]. by apply negb_true_iff.
Qed.

Lemma never_space : c_isspace x = false.
Proof.
  pose proof Hx as H0. unfold never_in_a_number in H0.
  apply andb_true_iff in H0 as [Hx' _].
  apply andb_true_iff in Hx' as [_ Hd]. by apply negb_true_iff.
Qed.

Lemma never_letter c :
  In c ["+"; "-"; "."; "e"; "n"; "a"; "i"; "f"; "t"; "y"]%char ->
  Ascii.eqb (Py.lower_char x) c = false.
Proof.
  intros Hc. pose proof Hx as H0. unfold never_in_a_number in H0.
  apply andb_true_iff in H0 as [_ Hl]. apply negb_true_iff in Hl.
  destruct (Ascii.eqb (Py.lower_char x) c) eqn:E; [|done].
  assert (existsb (Ascii.eqb (Py.lower_char x))
            ["+"; "-"; "."; "e"; "n"; "a"; "i"; "f"; "t"; "y"]%char = true) as Ht
    by (apply existsb_exists; by exists c).
  congruence.
Qed.

Lemma never_plain c :
  In c ["+"; "-"; "."; "e"]%char -> Ascii.eqb x c = false.
Proof.
  intros Hc. destruct (Ascii.eqb_spec x c) as [E|]; [|done].
  assert (Ascii.eqb (Py.lower_char x) c = false) as Hf.
  { apply never_letter. simpl in *. tauto. }
  rewrite E in Hf. simpl in Hc.
  destruct Hc as [<-|[<-|[<-|[<-|[]]]]]; discriminate Hf.
Qed.

Lemma never_E : Ascii.eqb x "E" = false.
Proof.
  destruct (Ascii.eqb_spec x "E") as [E|]; [|done].
  assert (Ascii.eqb (Py.lower_char x) "e" = false) as Hf.
  { apply never_letter. simpl. tauto. }
  rewrite E in Hf. discriminate Hf.
Qed.

Lemma occurs_skip_space s : Py.occurs x (skip_space s) = Py.occurs x s.
Proof.
  induction s as [|c s IH]; simpl; [done|].
  destruct (c_isspace c) eqn:E; [|done]. rewrite IH.
  destruct (Ascii.eqb_spec x c) as [E'|]; [subst c|done]. by rewrite never_space in E.
Qed.

Lemma occurs_read_sign s : Py.occurs x (read_sign s).2 = Py.occurs x s.
Proof.
  destruct s as [|c s]; [done|]. unfold read_sign.
  destruct (Ascii.eqb_spec c "-") as [->|Hm].
  - simpl. by rewrite (never_plain "-"%char) by (simpl; tauto).
  - destruct (Ascii.eqb_spec c "+") as [->|Hp].
    + simpl. by rewrite (never_plain "+"%char) by (simpl; tauto).
    + destruct c as [[] [] [] [] [] [] [] []]; try done.
Qed.

Lemma occurs_read_digits acc n s :
  Py.occurs x (read_digits acc n s).2 = Py.occurs x s.
Proof.
  revert acc n. induction s as [|c s IH]; intros acc n; simpl; [done|].
  destruct (is_digit c) eqn:E; [|done]. rewrite IH.
  destruct (Ascii.eqb_spec x c) as [E'|]; [subst c|done]. by rewrite never_digit in E.
Qed.

Lemma occurs_all_space s : all_space s = true -> Py.occurs x s = false.
Proof.
  induction s as [|c s IH]; simpl; [done|].
  intros [Hc Hs]%andb_true_iff. rewrite (IH Hs).
  destruct (Ascii.eqb_spec x c) as [E'|]; [subst c|done]. by rewrite never_space in Hc.
Qed.

Lemma occurs_read_exponent s e rest :
  read_exponent s = Some (e, rest) -> Py.occurs x rest = Py.occurs x s.
Proof.
  destruct s as [|c s]; simpl; [by intros [= _ <-]|].
  destruct (Ascii.eqb c "e" || Ascii.eqb c "E") eqn:E; [|by intros [= _ <-]].
  pose proof (occurs_read_sign s) as Hs. destruct (read_sign s) as [neg s1].
  pose proof (occurs_read_digits 0 0 s1) as Hd.
  destruct (read_digits 0 0 s1) as [[ev k] s2]. simpl in Hs, Hd.
  destruct (k =? 0)%nat; [done|]. intros [= _ <-]. rewrite Hd, Hs.
  assert (Ascii.eqb x c = false) as ->; [|done].
  apply orb_true_iff in E as [E|E]; apply Ascii.eqb_eq in E as ->.
  - apply never_plain. simpl. tauto.
  - apply never_E.
Qed.

Lemma occurs_lower s :
  Py.occurs (Py.lower_char x) (Py.lower s) = false -> Py.occurs x s = false.
Proof.
  induction s as [|c s IH]; simpl; [done|].
  intros [Hc Hs]%orb_false_iff. rewrite (IH Hs).
  destruct (Ascii.eqb_spec x c) as [E'|]; [subst c|done]. by rewrite Ascii.eqb_refl in Hc.
Qed.

Lemma occurs_drop_trailing_space s :
  Py.occurs x (drop_trailing_space s) = Py.occurs x s.
Proof.
  induction s as [|c s IH]; simpl; [done|].
  destruct (c_isspace c && String.eqb (drop_trailing_space s) "") eqn:E.
  - apply andb_true_iff in E as [Hc Hs]. apply String.eqb_eq in Hs.
    rewrite Hs in IH. simpl in IH. rewrite <- IH.
    destruct (Ascii.eqb_spec x c) as [E'|]; [subst c|done]. by rewrite never_space in Hc.
  - simpl. by rewrite IH.
Qed.

Lemma special_word_letters w r :
  special_word w = Some r -> Py.occurs (Py.lower_char x) w = false.
Proof.
  unfold special_word.
  assert (forall c, In c ["n"; "a"; "i"; "f"; "t"; "y"]%char ->
                    Ascii.eqb (Py.lower_char x) c = false) as Hl
    by (intros c Hc; apply never_letter; simpl in *; tauto).
  destruct (String.eqb_spec w "nan") as [->|_].
  - intros _. simpl. rewrite !Hl by (simpl; tauto). done.
  - destruct (String.eqb_spec w "inf") as [->|_].
    + intros _. simpl. rewrite !Hl by (simpl; tauto). done.
    + destruct (String.eqb_spec w "infinity") as [->|_]; [|done].
      intros _. simpl. rewrite !Hl by (simpl; tauto). done.
Qed.

Lemma parse_float_rejects s :
  Py.occurs x s = true -> parse_float s = None.
Proof.
  intros Hs. unfold parse_float.
  rewrite <- occurs_skip_space in Hs.
  pose proof (occurs_read_sign (skip_space s)) as H1.
  destruct (read_sign (skip_space s)) as [neg s1]. simpl in H1.
  pose proof (occurs_read_digits 0 0 s1) as H2.
  destruct (read_digits 0 0 s1) as [[ip ni] s2]. simpl in H2.
  assert (Py.occurs x s1 = true) as Hs1 by congruence.
  assert (Py.occurs x s2 = true) as Hs2 by congruence.
  set (frac := match s2 with String "." s2' => read_digits ip 0 s2' | _ => (ip, 0%nat, s2) end).
  assert (Py.occurs x frac.2 = true) as H3.
  { unfold frac. destruct s2 as [|c s2']; [done|].
    destruct (Ascii.eqb_spec c ".") as [->|Hne].
    - rewrite occurs_read_digits. simpl in Hs2.
      by rewrite (never_plain "."%char) in Hs2 by (simpl; tauto).
    - destruct c as [[] [] [] [] [] [] [] []]; try done. }
  destruct frac as [[m nf] s3]. simpl in H3.
  destruct ((ni + nf)%nat =? 0)%nat.
  - destruct (special_word _) as [r|] eqn:E; [|done].
    apply special_word_letters in E. apply occurs_lower in E.
    rewrite occurs_drop_trailing_space in E. congruence.
  - destruct (read_exponent s3) as [[e s4]|] eqn:E; [|done].
    apply occurs_read_exponent in E.
    destruct (all_space s4) eqn:Ha; [|done].
    apply occurs_all_space in Ha. congruence.
Qed.

End Rejected.

(** ** Date columns and keywords *)

Section DateColumns.
Context `{Library}.

Lemma get_date_column d df n s :
  NoDup (columns df) ->
  second_category d = temporal ->
  carries d temporal n = true ->
  carries d (first_category d) n = false ->
  get (deduplicate d df) n = Some s ->
  get (frame_of d df) n = Some (date_series s).
Proof.
  intros Hnd Hcat Hdate Hfirst Hs. rewrite get_frame_of, Hs by done. simpl.
  unfold cleaned_column. rewrite Hfirst, Hcat, Hdate.
  assert (second_conversion d = date_series) as -> by (by destruct d).
  assert (text_skips d n = true) as ->.
  { unfold text_skips. destruct d; try done; simpl in *; by rewrite ?Hdate, ?orb_true_r. }
  by rewrite andb_false_r.
Qed.

Lemma to_datetime_cells s :
  dtype_of s = object ->
  to_datetime s
  = Some {| dtype_of := datetime64; values := map to_datetime_cell (values s) |}.
Proof. unfold to_datetime. by intros ->. Qed.

End DateColumns.

Lemma lower_append a b : Py.lower (a +:+ b) = Py.lower a +:+ Py.lower b.
Proof.
  induction a as [|c a IH]; [done|].
  change (String c a +:+ b) with (String c (a +:+ b)). simpl. by rewrite IH.
Qed.

Lemma startswith_append x b : Py.startswith x (x +:+ b) = true.
Proof.
  induction x as [|c x IH]; [done|].
  change (String c x +:+ b) with (String c (x +:+ b)). simpl.
  by rewrite Ascii.eqb_refl, IH.
Qed.

Lemma contains_append a x b : Py.contains x (a +:+ x +:+ b) = true.
Proof.
  induction a as [|c a IH].
  - change ("" +:+ x +:+ b) with (x +:+ b).
    destruct (x +:+ b) eqn:E; simpl; rewrite <- E, startswith_append; done.
  - change (String c a +:+ x +:+ b) with (String c (a +:+ x +:+ b)). simpl.
    rewrite IH. apply orb_true_r.
Qed.

Lemma carries_substring d c pre k post :
  Py.lower k ∈ keywords d c -> carries d c (pre +:+ k +:+ post) = true.
Proof.
  intros Hk. unfold carries, Py.any_in. apply existsb_exists.
  exists (Py.lower k). split; [by apply list_elem_of_In|].
  rewrite !lower_append. apply contains_append.
Qed.

(** ** Runs that stop, and what a run leaves alone *)

Lemma bind_Ok_inv {A B} (c : M A) (k : A -> M B) s b s' :
  (c ≫= k) s = (Ok b, s') ->
  exists a s1, c s = (Ok a, s1) /\ k a s1 = (Ok b, s').
Proof.
  rewrite bind_unfold. destruct (c s) as [[a|e] s1]; [|done]. intros Hk. by eexists _, _.
Qed.

Section RunErrors.
Context `{Library}.

Lemma inventory_nil m :
  (forall n, m !! join original_data_path n = None) -> inventory m = [].
Proof.
  intros Hm. destruct (inventory m) as [|n l] eqn:E; [done|].
  assert (n ∈ inventory m) as Hn by (rewrite E; by left).
  apply elem_of_inventory in Hn as [f Hf]. by rewrite Hm in Hf.
Qed.

Lemma elem_of_glob_suffix_iff m dir suffix p :
  p ∈ glob_suffix m dir suffix
  <-> exists n, p = join dir n /\ n ∈ listdir m dir /\ Py.endswith suffix n = true.
Proof.
  unfold glob_suffix. rewrite list_elem_of_fmap. split.
  - intros (n & -> & Hn%list_elem_of_In). apply filter_In in Hn as [Hn Hs].
    exists n. by rewrite list_elem_of_In.
  - intros (n & -> & Hn & Hs). exists n. split; [done|].
    apply list_elem_of_In, filter_In. by rewrite <- list_elem_of_In.
Qed.

Lemma main_cleaners :
  main
  = (files_inventory ← inspect_dataset_files;
     bom_clean ← cleaner BoxOffice;
     budgets_clean ← cleaner MovieBudgets;
     tmdb_clean ← cleaner Tmdb;
     rt_info_clean ← cleaner RottenTomatoesInfo;
     rt_reviews_clean ← cleaner RottenTomatoesReviews;
     imdb_tables ← extract_and_clean_imdb_data;
     cleaned_files ← generate_cleaning_summary;
     mret {| files_inventory := files_inventory;
             bom_clean := bom_clean;
             budgets_clean := budgets_clean;
             tmdb_clean := tmdb_clean;
             rt_info_clean := rt_info_clean;
             rt_reviews_clean := rt_reviews_clean;
             imdb_tables := imdb_tables;
             cleaned_files := cleaned_files |}).
Proof. done. Qed.

Lemma main_Ok_inv s r s' :
  main s = (Ok r, s') ->
  files_inventory r = inventory (fs s)
  /\ cleaned_files r = glob_suffix (fs s') cleaned_data_path ".csv".
Proof.
  rewrite main_cleaners. intros Hrun.
  apply bind_Ok_inv in Hrun as (files & s0 & Hi & Hrun).
  rewrite inspect_outcome in Hi.
  assert (files = inventory (fs s)) as ->.
  { destruct (kind_of (fs s) original_data_path); try done.
    destruct (inventory (fs s)); by simplify_eq. }
  do 6 (apply bind_Ok_inv in Hrun as (? & ? & _ & Hrun)).
  apply bind_Ok_inv in Hrun as (cf & s7 & Hs & Hrun).
  rewrite summary_outcome in Hs. injection Hs as <- <-.
  by injection Hrun as <- <-.
Qed.

(** A run that returns has found the output directory free and has gone
    through the main block. *)
Lemma run_script_Ok_inv m r s' :
  run_script m = (Ok r, s') ->
  m !! cleaned_data_path = None
  /\ main {| fs := m; open_connections := 0 |} = (Ok r, s').
Proof.
  rewrite run_script_run, mkdir_cleaned.
  destruct (is_file m cleaned_data_path) eqn:E; [done|].
  intros Hrun. split; [by apply is_file_false | done].
Qed.

(** The preamble changes no file: what the main block keeps, the script
    keeps. *)
Lemma preserves_run_script Q m :
  stable Q -> Q m -> Q (fs (run_script m).2).
Proof.
  intros HQ Hm. rewrite run_script_run.
  destruct (mkdir_error m cleaned_data_path); [done|].
  destruct (main _) as [r s'] eqn:E. simpl.
  by apply (preserves_main _ HQ _ _ _ E).
Qed.

End RunErrors.

(** ** The tables of the database *)

Lemma string_length_append s1 s2 :
  String.length (s1 +:+ s2) = (String.length s1 + String.length s2)%nat.
Proof.
  induction s1 as [|a s1 IH]; [done|].
  change (String a s1 +:+ s2) with (String a (s1 +:+ s2)). simpl. by rewrite IH.
Qed.

Lemma append_inj_r s1 s2 r : s1 +:+ r = s2 +:+ r -> s1 = s2.
Proof.
  revert s2. induction s1 as [|a s1 IH]; intros [|b s2] E; [done|..].
  - apply (f_equal String.length) in E.
    change (String b s2 +:+ r) with (String b (s2 +:+ r)) in E.
    change ("" +:+ r) with r in E. simpl in E. rewrite string_length_append in E. lia.
  - apply (f_equal String.length) in E.
    change (String a s1 +:+ r) with (String a (s1 +:+ r)) in E.
    change ("" +:+ r) with r in E. simpl in E. rewrite string_length_append in E. lia.
  - change (String a (s1 +:+ r) = String b (s2 +:+ r)) in E.
    injection E as -> E. by rewrite (IH s2 E).
Qed.

Lemma imdb_output_inj t t' : imdb_output t = imdb_output t' -> t = t'.
Proof.
  unfold imdb_output, join. intros E. apply app_inv_head in E.
  injection E as E. apply String.app_inj in E. by apply append_inj_r in E.
Qed.

Lemma imdb_output_not_named t d : imdb_output t <> output_file d.
Proof. by destruct d. Qed.

Lemma lookup_table_is_Some t tables :
  is_Some (lookup_table t tables) <-> t ∈ map fst tables.
Proof.
  induction tables as [|[n df] tables IH]; simpl.
  - split; [by intros [] | by intros ?%elem_of_nil].
  - destruct (String.eqb_spec n t) as [->|Hne].
    + split; [intros _; by left | by eexists].
    + rewrite IH. split; [by right|]. intros [?|?]%elem_of_cons; [congruence|done].
Qed.

Lemma last_write_elem W p f : last_write W p = Some f -> (p, f) ∈ W.
Proof.
  induction W as [|[q g] W IH]; simpl; [done|].
  destruct (last_write W p) as [g'|].
  - intros [= ->]. right. by apply IH.
  - destruct (decide (q = p)) as [->|]; [|done]. intros [= ->]. by left.
Qed.

Lemma last_write_is_Some W p : p ∈ map fst W -> is_Some (last_write W p).
Proof.
  induction W as [|[q g] W IH]; simpl; [by intros ?%elem_of_nil|].
  intros [E|Hp]%elem_of_cons.
  - simpl in E. subst q.
    destruct (last_write W p); [by eexists|]. rewrite decide_True by done. by eexists.
  - destruct (IH Hp) as [f ->]. by eexists.
Qed.

Section Tables.
Context `{Library}.

Lemma count_loop_pure_ok tables names :
  Forall (fun t => sql_name_ok t = true /\ t ∈ map fst tables) names ->
  count_loop_pure (Some (Database tables)) names = Ok tt.
Proof.
  induction 1 as [|t names [Hok Ht] _ IH]; simpl; [done|].
  unfold select_all_pure. rewrite Hok.
  apply lookup_table_is_Some in Ht as [df ->]. exact IH.
Qed.


Lemma clean_loop_pure_ok tables names acc :
  Forall (fun t => sql_name_ok t = true /\ t ∈ map fst tables) names ->
  exists cleaned W,
    clean_loop_pure (Some (Database tables)) names acc = (Ok cleaned, W)
    /\ (forall t, cleaned !! t
                  = if decide (t ∈ names) then cleaned_table tables t else acc !! t)
    /\ map fst W = map imdb_output names
    /\ Forall (fun w => exists t df,
                 lookup_table t tables = Some df
                 /\ w = (imdb_output t, Table (imdb_table_frame df))) W.
Proof.
  intros Hn. revert acc. induction Hn as [|t names [Hok Ht] _ IH]; intros acc.
  - exists acc, []. split; [done|]. split; [|by split].
    intros t. rewrite decide_False; [done|]. by intros ?%elem_of_nil.
  - simpl. unfold select_all_pure. rewrite Hok.
    apply lookup_table_is_Some in Ht as [df Hdf]. rewrite Hdf.
    destruct (IH (<[t := imdb_table_frame df]> acc)) as (cleaned & W & -> & Hc & Hp & HW).
    eexists _, _. split; [done|]. split; [|split].
    + intros t'. rewrite Hc.
      destruct (decide (t' ∈ names)) as [Hin|Hnin].
      * rewrite decide_True; [done | by right].
      * destruct (decide (t = t')) as [->|Hne].
        -- rewrite decide_True by (by left). rewrite lookup_insert_eq.
           unfold cleaned_table. by rewrite Hdf.
        -- rewrite decide_False by (intros [?|?]%elem_of_cons; congruence).
           by rewrite lookup_insert_ne.
    + simpl. by rewrite Hp.
    + constructor; [by eexists _, _ | done].
Qed.





(** The extractor on an archive that yields a database. *)
Lemma extract_with_database s members db_path rest tables :
  mkdir_error (fs s) extract_path = None ->
  fs s !! zip_path = Some (Archive members) ->
  glob_suffix (extract_files members extract_path (fs s)) extract_path ".db"
  = db_path :: rest ->
  extract_files members extract_path (fs s) !! db_path = Some (Database tables) ->
  extract_and_clean_imdb_data s
  = let '(r, W, o) :=
      match count_loop_pure (Some (Database tables)) (map fst tables) with
      | Ok _ =>
          match clean_loop_pure (Some (Database tables)) (map fst tables) ∅ with
          | (Ok cleaned_tables, W) => (Ok (Some cleaned_tables), W, false)
          | (Raise e, W) => (Raise e, W, true)
          end
      | Raise e => (Raise e, [], true)
      end in
    (r, after_outcome W o (with_fs (extract_files members extract_path (fs s)) s)).
Proof.
  intros Hdir Hzip Hglob Hdb. rewrite extract_outcome_run. unfold extract_outcome.
  rewrite Hdir, (open_file_Some _ _ _ Hzip). cbv zeta.
  rewrite <- extract_files_writes, Hglob.
  unfold connected_outcome. unfold is_file. rewrite Hdb.
  rewrite bool_decide_eq_true_2 by (by eexists).
  destruct (count_loop_pure _ _) as [[]|e].
  - destruct (clean_loop_pure _ _ _) as [[cleaned|e] W];
      unfold after_outcome, with_fs; simpl;
      by rewrite apply_writes_app, extract_files_writes.
  - unfold after_outcome, with_fs; simpl.
    by rewrite apply_writes_app, extract_files_writes.
Qed.

Lemma extract_tables s members db_path rest tables :
  mkdir_error (fs s) extract_path = None ->
  fs s !! zip_path = Some (Archive members) ->
  glob_suffix (extract_files members extract_path (fs s)) extract_path ".db"
  = db_path :: rest ->
  extract_files members extract_path (fs s) !! db_path = Some (Database tables) ->
  Forall (fun t => sql_name_ok t = true) (map fst tables) ->
  exists cleaned s',
    extract_and_clean_imdb_data s = (Ok (Some cleaned), s')
    /\ open_connections s' = open_connections s
    /\ (forall t, cleaned !! t = cleaned_table tables t)
    /\ (forall t df,
          lookup_table t tables = Some df ->
          fs s' !! imdb_output t = Some (Table (imdb_table_frame df)))
    /\ (forall p,
          (forall t, t ∈ map fst tables -> p <> imdb_output t) ->
          fs s' !! p = extract_files members extract_path (fs s) !! p).
Proof.
  intros Hdir Hzip Hglob Hdb Hok.
  assert (Forall (fun t => sql_name_ok t = true /\ t ∈ map fst tables) (map fst tables))
    as Hn.
  { apply Forall_forall. intros t Ht. split; [|done].
    by apply (proj1 (Forall_forall _ _) Hok). }
  rewrite (extract_with_database s members db_path rest tables) by done.
  rewrite (count_loop_pure_ok tables _ Hn).
  destruct (clean_loop_pure_ok tables _ ∅ Hn) as (cleaned & W & -> & Hc & Hp & HW).
  eexists _, _. split; [done|]. split; [done|]. split; [|split].
  - intros t. rewrite Hc. destruct (decide (t ∈ map fst tables)) as [Hin|Hnin]; [done|].
    rewrite lookup_empty. unfold cleaned_table.
    destruct (lookup_table t tables) as [df|] eqn:E; [|done].
    destruct Hnin. apply lookup_table_is_Some. by eexists.
  - intros t df Hdf. simpl. rewrite lookup_apply_writes.
    assert (imdb_output t ∈ map fst W) as Hin.
    { rewrite Hp. apply list_elem_of_fmap. exists t. split; [done|].
      apply lookup_table_is_Some. by eexists. }
    destruct (last_write_is_Some W _ Hin) as [f Hf]. rewrite Hf.
    apply last_write_elem in Hf.
    apply (proj1 (Forall_forall _ _) HW) in Hf as (t' & df' & Hdf' & Heq).
    pose proof (f_equal fst Heq) as Ht. pose proof (f_equal snd Heq) as Hf'.
    cbn [fst snd] in Ht, Hf'. apply imdb_output_inj in Ht as <-. congruence.
  - intros p Hp'. simpl. apply apply_writes_other. rewrite Hp.
    intros (t & -> & Ht)%list_elem_of_fmap. by apply (Hp' t).
Qed.

End Tables.

(** ** The whole run on complete inputs *)

Lemma endswith_append_l suffix a b :
  Py.endswith suffix b = true -> Py.endswith suffix (a +:+ b) = true.
Proof.
  intros Hb. induction a as [|c a IH]; [done|].
  change (String c a +:+ b) with (String c (a +:+ b)). simpl.
  rewrite IH. apply orb_true_r.
Qed.

Lemma imdb_output_csv t :
  Py.endswith ".csv" ("imdb_" +:+ t +:+ "_cleaned.csv") = true.
Proof. by do 2 apply endswith_append_l. Qed.

Section WholeRun.
Context `{Library}.

Lemma extracted_not_output parents name d :
  (extract_path ++ parents) ++ [name] <> output_file d.
Proof. by destruct d. Qed.

Lemma extract_files_after_outputs members raw ds m p :
  (forall d, p <> output_file d) ->
  extract_files members extract_path (outputs_written raw ds m) !! p
  = extract_files members extract_path m !! p.
Proof.
  intros Hp. rewrite !extract_files_writes, !lookup_apply_writes.
  by rewrite outputs_written_other.
Qed.

Lemma glob_after_outputs members raw ds m :
  glob_suffix (extract_files members extract_path (outputs_written raw ds m))
    extract_path ".db"
  = glob_suffix (extract_files members extract_path m) extract_path ".db".
Proof.
  apply glob_suffix_ext. intros n. rewrite !elem_of_listdir.
  assert (forall rest d, (extract_path ++ n :: rest)%list <> output_file d) as Hne
    by (by intros rest []).
  split; intros [rest Hr]; exists rest.
  - by rewrite extract_files_after_outputs in Hr.
  - by rewrite extract_files_after_outputs.
Qed.

(** The run on complete sources with an archive that leaves no [.db] entry
    in the extraction directory. *)
Lemma run_without_database m raw members :
  directories_free m ->
  (forall d, m !! source_file d = Some (Table (raw d))) ->
  m !! zip_path = Some (Archive members) ->
  glob_suffix (extract_files members extract_path (outputs_written raw datasets m))
    extract_path ".db" = [] ->
  exists r s',
    run_script m = (Ok r, s')
    /\ imdb_tables r = None
    /\ open_connections s' = 0%nat
    /\ forall d,
        fs s' !! output_file d = Some (Table (frame_of d (raw d)))
        /\ output_file d ∈ cleaned_files r.
Proof.
  intros (Ho & Hc & He) Hsrc Hzip Hglob.
  rewrite (run_script_main m Hc), main_cleaners.
  set (s0 := {| fs := m; open_connections := 0 |}).
  destruct (inspect_run s0 _ _ Ho (Hsrc BoxOffice)) as (files & Hfiles).
  rewrite bind_unfold, Hfiles.
  rewrite (cleaners_run raw s0) by done.
  rewrite bind_unfold, (extract_without_database _ members); cycle 1.
  { by apply (mkdir_extracted_after_outputs raw datasets m _ _ He Ho (Hsrc BoxOffice)). }
  { change (outputs_written raw datasets m !! zip_path = Some (Archive members)).
    rewrite outputs_written_other; [done|]. apply zip_output_ne. }
  { done. }
  rewrite bind_unfold, summary_outcome.
  eexists _, _. split; [reflexivity|]. simpl. split; [done|]. split; [done|].
  intros d.
  assert (extract_files members extract_path (outputs_written raw datasets m)
            !! output_file d = Some (Table (frame_of d (raw d)))) as Hout.
  { rewrite extract_files_other by (intros; apply extracted_output_ne).
    apply outputs_written_output. destruct d; unfold datasets; set_solver. }
  split; [done|].
  unfold output_file in *. eapply elem_of_glob_suffix; [exact Hout|]. by destruct d.
Qed.

End WholeRun.

(** ** Cleaning a cleaned frame, and the result [None] *)

Lemma cols_ext (cs1 cs2 : list (string * Series)) :
  map fst cs1 = map fst cs2 ->
  NoDup (map fst cs1) ->
  (forall n, lookup_col n cs1 = lookup_col n cs2) ->
  cs1 = cs2.
Proof.
  revert cs2. induction cs1 as [|[n s] cs1 IH]; intros [|[n' s'] cs2]; simpl; try done.
  intros Hc Hd Hl.
  pose proof (NoDup_cons_1_1 _ _ Hd) as Hnotin. pose proof (NoDup_cons_1_2 _ _ Hd) as Hnd.
  injection Hc as Hn0 Hn. subst n'.
  pose proof (Hl n) as Hs. rewrite String.eqb_refl in Hs. injection Hs as <-.
  f_equal. apply IH; [done|done|]. intros m. specialize (Hl m).
  destruct (String.eqb_spec n m) as [E|Hne]; [subst m; clear Hl|done].
  assert (lookup_col n cs1 = None) as ->.
  { destruct (lookup_col n cs1) eqn:E; [|done].
    destruct Hnotin. apply lookup_col_Some. by eexists. }
  symmetry. destruct (lookup_col n cs2) eqn:E; [|done].
  destruct Hnotin. rewrite Hn. apply lookup_col_Some. by eexists.
Qed.

Lemma frame_ext df1 df2 :
  nrows df1 = nrows df2 ->
  columns df1 = columns df2 ->
  NoDup (columns df1) ->
  (forall n, get df1 n = get df2 n) ->
  df1 = df2.
Proof.
  destruct df1 as [k1 cs1], df2 as [k2 cs2]. unfold columns, get. simpl.
  intros -> Hc Hnd Hg. f_equal. by apply cols_ext.
Qed.

Section Recleaning.
Context `{Library}.

Lemma money_series_fixed s : is_object (dtype_of s) = false -> money_series s = s.
Proof. unfold money_series. by intros ->. Qed.

Lemma percent_series_fixed s : is_object (dtype_of s) = false -> percent_series s = s.
Proof. unfold percent_series. by intros ->. Qed.

Lemma first_conversion_not_object d s :
  is_object (dtype_of (first_conversion d s)) = false.
Proof.
  destruct d; simpl;
    auto using money_series_not_object, percent_series_not_object, to_numeric_not_object.
Qed.

Lemma second_conversion_keeps_not_object d s :
  is_object (dtype_of s) = false -> is_object (dtype_of (second_conversion d s)) = false.
Proof.
  intros Hs. destruct d; simpl;
    auto using to_numeric_not_object, date_series_keeps_not_object.
Qed.

(** Timestamps survive the passage through their integer nanoseconds. *)
Lemma date_numeric_date s :
  dtype_of s = numeric \/ dtype_of s = boolean ->
  date_series (to_numeric (date_series s)) = date_series s.
Proof.
  intros Hd.
  assert (date_series s
          = {| dtype_of := datetime64; values := map to_datetime_cell (values s) |})
    as ->.
  { unfold date_series, to_datetime. by destruct Hd as [-> | ->]. }
  unfold to_numeric. simpl. unfold date_series, to_datetime. simpl.
  rewrite !map_map. f_equal. apply map_ext. intros c.
  destruct c as [| |t|[q|b]|b|t]; simpl; try done;
    try destruct (parse_datetime t) as [z|]; simpl; by rewrite ?Qfloor_Z, ?Z.div_1_r.
Qed.

Lemma to_numeric_dtype s :
  dtype_of (to_numeric s) = numeric \/ dtype_of (to_numeric s) = boolean.
Proof. unfold to_numeric. destruct (dtype_of s) eqn:E; simpl; rewrite ?E; auto. Qed.

Lemma cleaned_column_idempotent d n s :
  cleaned_column d n (cleaned_column d n s) = cleaned_column d n s.
Proof.
  unfold cleaned_column.
  destruct (carries d (first_category d) n) eqn:E1.
  - (* a column of the first keyword list is not of dtype object afterwards *)
    set (s1 := first_conversion d s).
    assert (is_object (dtype_of s1) = false) as H1 by apply first_conversion_not_object.
    destruct (carries d (second_category d) n) eqn:E2.
    + pose proof (second_conversion_keeps_not_object d s1 H1) as H2.
      rewrite H2. simpl.
      assert (second_conversion d (first_conversion d (second_conversion d s1))
              = second_conversion d s1) as Hfix.
      { subst s1. destruct d; simpl in *.
        - rewrite (money_series_fixed (to_numeric _)) by apply to_numeric_not_object.
          apply to_numeric_idempotent.
        - rewrite (money_series_fixed (date_series _)) by done.
          apply date_series_idempotent.
        - apply date_numeric_date, to_numeric_dtype.
        - rewrite (percent_series_fixed (to_numeric _)) by apply to_numeric_not_object.
          apply to_numeric_idempotent.
        - apply date_numeric_date, to_numeric_dtype. }
      rewrite Hfix. by rewrite H2.
    + rewrite H1. simpl. subst s1. rewrite first_conversion_idempotent.
      by rewrite first_conversion_not_object.
  - destruct (carries d (second_category d) n) eqn:E2.
    + assert (text_skips d n = true \/ is_object (dtype_of (second_conversion d s)) = false)
        as Hsk.
      { unfold text_skips. destruct d; simpl in *; rewrite ?E1, ?E2; auto;
          right; apply to_numeric_not_object. }
      assert ((is_object (dtype_of (second_conversion d s)) && negb (text_skips d n))
              = false) as Hb.
      { destruct Hsk as [-> | ->]; [apply andb_false_r | done]. }
      rewrite Hb. rewrite second_conversion_idempotent. by rewrite Hb.
    + destruct (is_object (dtype_of s) && negb (text_skips d n)) eqn:Hb.
      * simpl. apply andb_true_iff in Hb as [_ ->]. simpl.
        by rewrite text_series_idempotent.
      * by rewrite Hb.
Qed.

(** A cleaner applied to a frame it has produced changes nothing when
    that frame holds no repeated row. *)
Lemma frame_of_fixed d df :
  well_formed df ->
  NoDup (columns df) ->
  sum (duplicated (frame_of d df)) = 0%nat ->
  frame_of d (frame_of d df) = frame_of d df.
Proof.
  intros Hwf Hnd Hdup. set (F := frame_of d df) in *.
  assert (well_formed F) as HwfF by (by apply well_formed_frame_of).
  assert (NoDup (columns F)) as HndF by (unfold F; by rewrite columns_frame_of).
  assert (deduplicate d F = F) as Hded.
  { rewrite deduplicate_drop_duplicates by done. apply drop_duplicates_fixed; [done|].
    rewrite <- length_duplicated. by apply sum_zero. }
  apply frame_ext.
  - change (len (frame_of d F) = len F). rewrite len_frame_of, Hdup. lia.
  - apply columns_frame_of.
  - by rewrite columns_frame_of.
  - intros n. rewrite get_frame_of, Hded by done. unfold F at 1 2.
    rewrite get_frame_of by done.
    destruct (get (deduplicate d df) n) as [s|]; simpl; [|done].
    by rewrite cleaned_column_idempotent.
Qed.

Lemma connected_outcome_not_none db m :
  (connected_outcome db m).1.1 <> Ok None.
Proof.
  unfold connected_outcome. destruct (is_file m db); [|done].
  destruct (m !! db) as [[| |tables|]|]; try done.
  destruct (count_loop_pure _ _) as [[]|e]; [|done].
  by destruct (clean_loop_pure _ _ _) as [[cleaned|e] W].
Qed.

End Recleaning.

(** * The claims of the specification *)



(** The end-to-end scenario of the specification: of the four rows of the
    raw box-office table the second repeats the first, and a gross reads
    ["$500,000"]; the cleaned table has three rows and the gross is the
    number 500000. *)
Example box_office_scenario :
  len Examples.box_office = 4%nat
  /\ len (@box_office_frame example_library Examples.box_office) = 3%nat
  /\ get (@box_office_frame example_library Examples.box_office) "domestic_gross"
     = Some {| dtype_of := numeric;
               values := [Num (Fin 500000); Num (Fin (2469 # 2)); NaN] |}
  /\ get (@box_office_frame example_library Examples.box_office) "title"
     = Some {| dtype_of := object;
               values := [Str "Toy Story 3"; Str "Inception"; NaN] |}.
Proof. repeat split; reflexivity. Qed.

(** C2 as stated fails: not every monetary column is treated that way.
    The movie-metadata cleaner has [budget] and [revenue] in its list of
    number columns and parses them with nothing removed, so the cell
    ["$1,234.50"] of a [budget] column becomes null there, where the
    box-office cleaner makes it the number 1234.50. *)
Lemma tmdb_budget_counterexample :
  "budget" ∈ keyword_columns (keywords BoxOffice monetary) Examples.priced
  /\ "budget" ∈ keyword_columns (keywords Tmdb generic_number) Examples.priced
  /\ get (@frame_of example_library BoxOffice Examples.priced) "budget"
     = Some {| dtype_of := numeric; values := [Num (Fin (2469 # 2))] |}
  /\ get (@frame_of example_library Tmdb Examples.priced) "budget"
     = Some {| dtype_of := numeric; values := [NaN] |}.
Proof.
  split; [|split; [|split]]; try reflexivity.
  all: vm_compute; by left.
Qed.

(** C2, as the code has it.  In the box-office and the budgets cleaner,
    the monetary loop (the first loop after deduplication) turns every
    column whose name carries a monetary keyword and whose dtype is object
    into a numeric column:
    each cell is stringified, every ['$'] and [','] is removed, and the
    rest is parsed, what does not parse becoming NaN; a monetary column of
    another dtype is left as it is.  No step can raise.  The cell
    ["$1,234.50"] becomes the number 1234.50. *)
Theorem monetary_normalization `{Library}
    (d : dataset) (df : DataFrame) (col : string) (s : Series) :
  d = BoxOffice \/ d = MovieBudgets ->
  col ∈ keyword_columns (keywords d monetary) df ->
  get df col = Some s ->
  (forall raw,
      frame_of d raw
      = text_loop (text_excluded d (deduplicate d raw))
          (second_loop d (first_loop d (deduplicate d raw))))
  /\ get (first_loop d df) col = Some (money_series s)
  /\ (is_object (dtype_of s) = true ->
      money_series s = {| dtype_of := numeric; values := map money_cell (values s) |})
  /\ (is_object (dtype_of s) = false -> money_series s = s)
  /\ (forall c,
        let text := Py.remove_chars ["$"; ","]%char (py_str c) in
        money_cell c = to_numeric_cell (Str text)
        /\ Py.occurs "$" text = false
        /\ Py.occurs "," text = false
        /\ (money_cell c = NaN \/ exists x, money_cell c = Num x))
  /\ money_cell (Str "$1,234.50") = Num (Fin (2469 # 2))
  /\ (2469 # 2 == 1234.50)%Q.
Proof.
  intros Hd Hcol Hget. split; [|split; [|split; [|split; [|split; [|split]]]]].
  - intros raw. apply frame_of_stages.
  - rewrite get_first_loop, Hget.
    assert (first_category d = monetary) as Hc by (by destruct Hd as [->| ->]).
    rewrite Hc. apply mem_true in Hcol. rewrite Hcol. simpl.
    by destruct Hd as [->| ->].
  - intros Ho. unfold money_series. by rewrite Ho.
  - intros Ho. unfold money_series. by rewrite Ho.
  - intros c text. split; [done|]. split; [by apply remove_chars_occurs|].
    split; [by apply remove_chars_occurs|]. apply to_numeric_cell_numeric_or_null.
  - reflexivity.
  - reflexivity.
Qed.

Lemma monetary_normalization_witness :
  get (@first_loop example_library BoxOffice Examples.box_office) "domestic_gross"
  = Some {| dtype_of := numeric;
            values := [Num (Fin 500000); Num (Fin 500000); Num (Fin (2469 # 2)); NaN] |}.
Proof.
  destruct (@monetary_normalization example_library BoxOffice Examples.box_office
              "domestic_gross"
              (Examples.column object [Str "$500,000"; Str "$500,000";
                                       Str "$1,234.50"; Str "n/a"]))
    as (_ & Hget & _); [by left | by vm_compute; left | reflexivity |].
  exact Hget.
Defined.

(** C3 as stated fails for a cleaner as a whole: cleaning a frame that has
    been cleaned can change it.  Rows are compared before the text is
    trimmed, so two titles that differ by a leading space are both kept and
    come out equal; the second cleaning then removes one of them. *)
Lemma recleaning_counterexample :
  well_formed Examples.two_titles
  /\ NoDup (columns Examples.two_titles)
  /\ len (@frame_of example_library Tmdb Examples.two_titles) = 2%nat
  /\ len (@frame_of example_library Tmdb
            (@frame_of example_library Tmdb Examples.two_titles)) = 1%nat
  /\ @frame_of example_library Tmdb (@frame_of example_library Tmdb Examples.two_titles)
     <> @frame_of example_library Tmdb Examples.two_titles.
Proof.
  split; [|split; [|split; [|split]]].
  - unfold well_formed. simpl. repeat constructor.
  - apply (bool_decide_unpack _). by vm_compute.
  - reflexivity.
  - reflexivity.
  - intros E. apply (f_equal len) in E. vm_compute in E. discriminate E.
Qed.

(** C3, as the code has it.  Cleaning is a function of the raw input: two
    runs of a cleaner on sources holding the same table, both saving their
    output, return the same frame and leave the same output file, and a
    cleaner run again on the state it has left ends in that same state.  Each step is idempotent:
    deduplication, on a frame with one cell per row and column; each
    keyword loop; the text loop, on a frame with distinct column names; and
    saving the output.  A whole cleaner applied to a frame it has produced
    changes nothing when that frame holds no repeated row.  Running the
    whole script again on the files a run has left ends in the same way,
    with the same result but for the order of the inventory, and leaves
    the same files, whether the first run ended normally or raised. *)
Theorem cleaning_is_idempotent `{Library} (df : DataFrame) :
  well_formed df ->
  NoDup (columns df) ->
  (forall d s1 s2 raw,
      fs s1 !! source_file d = Some (Table raw) ->
      fs s2 !! source_file d = Some (Table raw) ->
      consistent (fs (cleaner d s1).2) ->
      consistent (fs (cleaner d s2).2) ->
      (cleaner d s1).1 = (cleaner d s2).1
      /\ fs (cleaner d s1).2 !! output_file d = fs (cleaner d s2).2 !! output_file d
      /\ fs (cleaner d s1).2 !! output_file d = Some (Table (frame_of d raw)))
  /\ (forall d s, cleaner d (cleaner d s).2 = cleaner d s)
  /\ drop_duplicates (drop_duplicates df) = drop_duplicates df
  /\ (forall d,
        deduplicate d (deduplicate d df) = deduplicate d df
        /\ first_loop d (first_loop d df) = first_loop d df
        /\ second_loop d (second_loop d df) = second_loop d df)
  /\ (forall excluded,
        text_loop excluded (text_loop excluded df) = text_loop excluded df)
  /\ (let text_columns := select_dtypes_object df in
      for_each text_columns text_body (for_each text_columns text_body df)
      = for_each text_columns text_body df)
  /\ (forall text_columns names,
        let body := fun df col =>
          if negb (mem col text_columns) then numeric_body df col else df in
        for_each names body (for_each names body df) = for_each names body df)
  /\ (forall p s, (to_csv df p;; to_csv df p) s = to_csv df p s)
  /\ (forall d,
        sum (duplicated (frame_of d df)) = 0%nat ->
        frame_of d (frame_of d df) = frame_of d df)
  /\ (forall m,
        (run_script (fs (run_script m).2)).2 = (run_script m).2
        /\ same_outcome (run_script m).1 (run_script (fs (run_script m).2)).1).
Proof.
  intros Hwf Hnd.
  split; [|split; [|split; [|split; [|split; [|split; [|split; [|split; [|split]]]]]]]].
  - intros d s1 s2 raw H1 H2 _ _.
    rewrite (cleaner_run d s1 raw H1), (cleaner_run d s2 raw H2).
    simpl. by rewrite !lookup_insert_eq.
  - intros d s. apply cleaner_again.
  - by apply drop_duplicates_idempotent.
  - intros d. split; [by apply deduplicate_idempotent|].
    split; [apply first_loop_idempotent | apply second_loop_idempotent].
  - intros excluded. by apply text_loop_idempotent.
  - apply imdb_text_loop_idempotent.
  - intros text_columns names. apply imdb_numeric_loop_idempotent.
  - intros p s. unfold to_csv. rewrite bind_unfold. unfold write_file. simpl.
    by rewrite insert_insert_eq.
  - intros d. by apply frame_of_fixed.
  - intros m. apply run_script_again.
Qed.

Lemma cleaning_is_idempotent_witness :
  @frame_of example_library BoxOffice
    (@frame_of example_library BoxOffice Examples.box_office)
  = @frame_of example_library BoxOffice Examples.box_office
  /\ (@run_script example_library
        (fs (@run_script example_library Examples.files_with_database).2)).2
     = (@run_script example_library Examples.files_with_database).2.
Proof.
  destruct (@cleaning_is_idempotent example_library Examples.box_office)
    as (_ & _ & _ & _ & _ & _ & _ & _ & Hframe & Hrun).
  - unfold well_formed. simpl. repeat constructor.
  - apply (bool_decide_unpack _). by vm_compute.
  - split; [|apply Hrun]. apply Hframe. by vm_compute.
Defined.

(** C4 as stated fails: the keyword categories are not exclusive.  In the
    budgets cleaner a column named [release_gross] is claimed by the
    monetary and by the temporal category and is normalized by both, the
    parsed amount ending up as a timestamp. *)
Lemma categories_overlap_counterexample :
  "release_gross" ∈ @claimed example_library MovieBudgets monetary Examples.budgets
  /\ "release_gross" ∈ @claimed example_library MovieBudgets temporal Examples.budgets
  /\ get (@first_loop example_library MovieBudgets Examples.budgets) "release_gross"
     = Some {| dtype_of := numeric; values := [Num (Fin 5)] |}
  /\ get (@frame_of example_library MovieBudgets Examples.budgets) "release_gross"
     = Some {| dtype_of := datetime64; values := [Timestamp 5] |}.
Proof.
  split; [|split; [|split]]; try reflexivity.
  all: vm_compute; by left.
Qed.

(** C4, as the code has it.  Classification is deterministic: each of the
    five named cleaners is its deduplication followed by its two keyword
    loops and the text loop, in that order; what a keyword category claims
    depends on the column names only; and the textual category never
    claims a column that a keyword category of the cleaner claims.  (Two
    keyword categories may claim the same column.)  A table of the
    database has no keyword categories: its object columns are treated as
    text and exactly the others as numbers. *)
Theorem classification_fixed_order `{Library} (d : dataset) (df : DataFrame) :
  NoDup (columns df) ->
  frame_of d df
  = text_loop (text_excluded d (deduplicate d df))
      (second_loop d (first_loop d (deduplicate d df)))
  /\ (forall df' c,
        c <> textual -> columns df' = columns df -> claimed d c df' = claimed d c df)
  /\ (forall n c,
        c <> textual -> n ∈ claimed d textual df -> n ∉ claimed d c df)
  /\ imdb_table_frame df
     = (let df0 := drop_duplicates df in
        let text_columns := select_dtypes_object df0 in
        let df1 := for_each text_columns (col_step always text_series) df0 in
        for_each (columns df1) (col_step (outside text_columns) to_numeric) df1).
Proof.
  intros Hnd. split; [apply frame_of_stages|]. split; [|split].
  - intros df' c Hc Hcols. destruct c; try done; by apply keyword_columns_names.
  - intros n c Hc. by apply textual_excludes_keyword_categories.
  - apply imdb_table_frame_step.
Qed.

Lemma classification_fixed_order_witness :
  "movie" ∈ @claimed example_library MovieBudgets textual Examples.budgets
  /\ "movie" ∉ @claimed example_library MovieBudgets monetary Examples.budgets.
Proof.
  assert ("movie" ∈ @claimed example_library MovieBudgets textual Examples.budgets)
    as Hin by (vm_compute; by left).
  split; [exact Hin|].
  destruct (@classification_fixed_order example_library MovieBudgets Examples.budgets)
    as (_ & _ & Hex & _).
  - apply (bool_decide_unpack _). by vm_compute.
  - by apply Hex.
Defined.

(** C5 as stated fails.  The cell ["8%5"] has no ['%'] suffix, so under the
    stated rule it does not parse and becomes null, but the movie-info
    cleaner makes it the number 85; and in the reviews cleaner the cell
    ["85%"] of a rating column becomes null, not 85. *)
Lemma percent_suffix_counterexample :
  @percent_cell example_library (Str "8%5") = Num (Fin 85)
  /\ @rating_cell_as_specified example_library (Str "8%5") = NaN
  /\ "rating" ∈ keyword_columns (keywords RottenTomatoesReviews rating) Examples.ratings
  /\ get (@frame_of example_library RottenTomatoesReviews Examples.ratings) "rating"
     = Some {| dtype_of := numeric; values := [NaN; NaN] |}.
Proof. split; [|split; [|split]]; try reflexivity. vm_compute. by left. Qed.

(** C5, as the code has it.  In the movie-info cleaner, the rating loop
    (the first loop after deduplication) turns every column whose name
    carries a rating keyword and whose dtype is object into a numeric
    column: each cell is stringified, every ['%'] is removed wherever it
    stands, and the rest is parsed, what does not parse becoming NaN.  The
    cell ["85%"] becomes the number 85. *)
Theorem percent_signs_removed `{Library} (df : DataFrame) (col : string) (s : Series) :
  col ∈ keyword_columns (keywords RottenTomatoesInfo rating) df ->
  get df col = Some s ->
  is_object (dtype_of s) = true ->
  (forall raw,
      rotten_tomatoes_info_frame raw
      = text_loop (text_excluded RottenTomatoesInfo (drop_duplicates raw))
          (second_loop RottenTomatoesInfo
             (first_loop RottenTomatoesInfo (drop_duplicates raw))))
  /\ get (first_loop RottenTomatoesInfo df) col
     = Some {| dtype_of := numeric; values := map percent_cell (values s) |}
  /\ (forall c,
        let text := Py.remove_chars ["%"]%char (py_str c) in
        percent_cell c = to_numeric_cell (Str text)
        /\ Py.occurs "%" text = false
        /\ (percent_cell c = NaN \/ exists x, percent_cell c = Num x))
  /\ percent_cell (Str "85%") = Num (Fin 85).
Proof.
  intros Hcol Hget Ho. split; [|split; [|split]].
  - intros raw. apply (frame_of_stages RottenTomatoesInfo).
  - rewrite get_first_loop, Hget. apply mem_true in Hcol. simpl in Hcol |- *.
    rewrite Hcol. simpl. unfold percent_series. by rewrite Ho.
  - intros c text. split; [done|]. split; [by apply remove_chars_occurs|].
    apply to_numeric_cell_numeric_or_null.
  - reflexivity.
Qed.

Lemma percent_signs_removed_witness :
  get (@first_loop example_library RottenTomatoesInfo Examples.ratings) "rating"
  = Some {| dtype_of := numeric; values := [Num (Fin 85); Num (Fin 85)] |}.
Proof.
  destruct (@percent_signs_removed example_library Examples.ratings "rating"
              (Examples.column object [Str "85%"; Str "8%5"]))
    as (_ & Hget & _); [by vm_compute; left | reflexivity | reflexivity |].
  exact Hget.
Defined.

(** C6 fails on the database tables.  A NULL in a text column is read as
    [None]; [astype(str)] makes it the string ["None"], which the
    replacement of ["nan"] does not catch: the cleaned cell is a string,
    not a null. *)
Theorem imdb_null_becomes_text :
  (forall L : Library, @text_cell L PyNone = Str "None")
  /\ isnull PyNone = true
  /\ get Examples.movie_basics "genres"
     = Some {| dtype_of := object; values := [Str " Drama "; PyNone] |}
  /\ get (@imdb_table_frame example_library Examples.movie_basics) "genres"
     = Some {| dtype_of := object; values := [Str "Drama"; Str "None"] |}
  /\ isnull (Str "None") = false.
Proof. repeat split; reflexivity. Qed.






(** C9. Both generated notebooks have format version 4.4, a markdown cell
    and a code cell, and every code cell has an empty list of outputs and a
    null execution count. *)
Theorem notebooks_well_formed :
  Forall
    (fun nb =>
       Notebooks.field "nbformat" nb = Some (Notebooks.JInt 4)
       /\ Notebooks.field "nbformat_minor" nb = Some (Notebooks.JInt 4)
       /\ (exists c, c ∈ Notebooks.cells nb /\ Notebooks.is_cell_of_type "markdown" c)
       /\ (exists c, c ∈ Notebooks.cells nb /\ Notebooks.is_cell_of_type "code" c)
       /\ Forall
            (fun c =>
               Notebooks.is_cell_of_type "code" c ->
               Notebooks.field "outputs" c = Some (Notebooks.JList [])
               /\ Notebooks.field "execution_count" c = Some Notebooks.JNull)
            (Notebooks.cells nb))
    Notebooks.generated_notebooks.
Proof.
  unfold Notebooks.generated_notebooks, Notebooks.is_cell_of_type.
  repeat apply List.Forall_cons; try apply List.Forall_nil.
  all: split; [reflexivity|]; split; [reflexivity|].
  all: split; [eexists; split; [by left | reflexivity]|].
  all: split; [eexists; split; [by right; left | reflexivity]|].
  all: repeat apply List.Forall_cons; try apply List.Forall_nil.
  all: first [ intros E; discriminate E | intros _; split; reflexivity ].
Qed.

(** C10. The text treatment of a column replaces it by its cells under
    [text_cell], and [text_cell] makes null every cell whose string form,
    stripped, is ["nan"]: the null itself, and equally the text ["nan"]
    with or without whitespace around it. *)
Theorem nan_text_becomes_null `{Library}
    (df : DataFrame) (col : string) (s : Series) (c : cell) :
  get df col = Some s ->
  c ∈ values s ->
  Py.strip (py_str c) = "nan" ->
  get (text_body df col) col
  = Some {| dtype_of := object; values := map text_cell (values s) |}
  /\ text_cell c = NaN
  /\ text_cell (Str "nan") = text_cell NaN
  /\ text_cell (Str "  nan ") = text_cell NaN.
Proof.
  intros Hget Hc Hnan. split; [by apply get_text_body|]. split; [|by split].
  destruct (text_cell_cases c) as [[-> _]|[_ Hne]]; [done | by destruct Hne].
Qed.

Lemma nan_text_becomes_null_witness :
  @text_cell example_library (Str "nan ") = NaN.
Proof.
  destruct (@nan_text_becomes_null example_library Examples.ratings "critic"
              (Examples.column object [Str " A. O. Scott"; Str "nan "]) (Str "nan "))
    as (_ & Hc & _); [reflexivity | by right; left | reflexivity |].
  exact Hc.
Defined.

(** * Further properties of the code *)

(** ** The frames the cleaners save *)

(** X1. Cleaning keeps the shape of the table but for the rows that
    deduplication removes: each of the five cleaners, and the cleaning of a
    database table, returns a frame with the columns of the raw frame, under
    the same names and in the same order, and with one cell per row in every
    column. *)
Theorem cleaning_keeps_the_shape `{Library} (d : dataset) (df : DataFrame) :
  well_formed df ->
  columns (frame_of d df) = columns df
  /\ well_formed (frame_of d df)
  /\ columns (imdb_table_frame df) = columns df
  /\ well_formed (imdb_table_frame df).
Proof.
  intros Hwf. split; [apply columns_frame_of|]. split; [by apply well_formed_frame_of|].
  split; [apply columns_imdb_table_frame | by apply well_formed_imdb_table_frame].
Qed.

Lemma cleaning_keeps_the_shape_witness :
  columns (@frame_of example_library BoxOffice Examples.box_office)
  = ["title"; "studio"; "domestic_gross"; "year"]
  /\ well_formed (@frame_of example_library BoxOffice Examples.box_office).
Proof.
  destruct (@cleaning_keeps_the_shape example_library BoxOffice Examples.box_office)
    as (Hc & Hwf & _).
  - unfold well_formed. simpl. repeat constructor.
  - split; [exact Hc | exact Hwf].
Defined.

(** X2. A cleaner works column by column: on a frame with distinct column
    names, each column of the saved frame is a function of its name and of
    the column of that name in the deduplicated frame, namely the
    conversions of the keyword loops whose keywords the name carries,
    followed by the text treatment when the column is still of dtype object
    and is not skipped by name.  In particular a column whose name carries
    no keyword and whose dtype is not object is saved as deduplication left
    it. *)
Theorem cleaned_column_by_column `{Library} (d : dataset) (df : DataFrame) :
  NoDup (columns df) ->
  (forall n, get (frame_of d df) n = cleaned_column d n <$> get (deduplicate d df) n)
  /\ (forall n s,
        get (deduplicate d df) n = Some s ->
        carries d (first_category d) n = false ->
        carries d (second_category d) n = false ->
        is_object (dtype_of s) = false ->
        get (frame_of d df) n = Some s).
Proof.
  intros Hnd. split; [intros n; by apply get_frame_of|].
  intros n s Hs H1 H2 Ho. rewrite get_frame_of, Hs by done. simpl.
  unfold cleaned_column. by rewrite H1, H2, Ho.
Qed.

Lemma cleaned_column_by_column_witness :
  get (@frame_of example_library BoxOffice Examples.box_office) "title"
  = Some {| dtype_of := object;
            values := [Str "Toy Story 3"; Str "Inception"; NaN] |}.
Proof.
  destruct (@cleaned_column_by_column example_library BoxOffice Examples.box_office)
    as (Hget & _).
  - apply (bool_decide_unpack _). by vm_compute.
  - rewrite Hget. reflexivity.
Defined.

(** X3. The cleaning of a database table works column by column as well: a
    column of dtype object gets the text treatment, every other column goes
    through [pd.to_numeric]; a column that is numeric or boolean already is
    saved as deduplication left it. *)
Theorem table_column_by_column `{Library} (df : DataFrame) :
  NoDup (columns df) ->
  (forall n,
      get (imdb_table_frame df) n = cleaned_table_column <$> get (drop_duplicates df) n)
  /\ (forall n s,
        get (drop_duplicates df) n = Some s ->
        dtype_of s = numeric \/ dtype_of s = boolean ->
        get (imdb_table_frame df) n = Some s).
Proof.
  intros Hnd. split; [intros n; by apply get_imdb_table_frame|].
  intros n s Hs Hd. rewrite get_imdb_table_frame, Hs by done. simpl.
  unfold cleaned_table_column, to_numeric. by destruct Hd as [-> | ->].
Qed.

Lemma table_column_by_column_witness :
  get (@imdb_table_frame example_library Examples.movie_basics) "runtime_minutes"
  = Some {| dtype_of := numeric; values := [Num (Fin 90); NaN] |}.
Proof.
  destruct (@table_column_by_column example_library Examples.movie_basics)
    as (_ & Hnum).
  - apply (bool_decide_unpack _). by vm_compute.
  - apply Hnum; [reflexivity | by left].
Defined.

(** X4. The test [if duplicates > 0] of the box-office cleaner changes
    nothing: the cleaner returns what it would return if it called
    [drop_duplicates] unconditionally, as the four other cleaners do. *)
Theorem box_office_guard_is_redundant `{Library} (bom_df : DataFrame) :
  well_formed bom_df ->
  box_office_frame bom_df
  = (let bom_clean := drop_duplicates bom_df in
     let money_columns :=
       keyword_columns ["gross"; "revenue"; "budget"; "sales"] bom_clean in
     let bom_clean := for_each money_columns money_body bom_clean in
     let year_columns := keyword_columns ["year"] bom_clean in
     let bom_clean := for_each year_columns numeric_body bom_clean in
     text_loop money_columns bom_clean).
Proof.
  intros Hwf. unfold box_office_frame. cbv zeta.
  change (if (0 <? sum (duplicated bom_df))%nat then drop_duplicates bom_df else bom_df)
    with (deduplicate BoxOffice bom_df).
  by rewrite (deduplicate_drop_duplicates BoxOffice bom_df Hwf).
Qed.

Lemma box_office_guard_is_redundant_witness :
  @box_office_frame example_library Examples.budgets
  = @text_loop example_library ["release_gross"]
      (for_each ["release_gross"] (@money_body example_library)
         (drop_duplicates Examples.budgets)).
Proof.
  rewrite (@box_office_guard_is_redundant example_library Examples.budgets).
  - reflexivity.
  - unfold well_formed. simpl. repeat constructor.
Defined.

(** X5. The text loop never rewrites a monetary, year, rating or other
    number column, whether it is told to skip it or not: when the text loop
    starts such a column is no longer of dtype object.  So each cleaner
    saves what it would save if its text loop skipped the date columns
    only (and, where there is no date loop, nothing at all). *)
Theorem number_columns_need_no_exclusion `{Library} (d : dataset) (df : DataFrame) :
  NoDup (columns df) ->
  frame_of d df
  = text_loop (keyword_columns (keywords d temporal) df)
      (second_loop d (first_loop d (deduplicate d df))).
Proof.
  intros Hnd. rewrite frame_of_stages, !text_loop_step.
  apply for_each_step_ext. intros n Hn.
  destruct (select_dtypes_object_get (typed d df) n) as (s & Hg & Ho);
    [by rewrite columns_typed | done |].
  assert (is_Some (get (deduplicate d df) n)) as Hs.
  { apply get_Some_columns. rewrite columns_deduplicate, <- (columns_typed d df).
    apply get_Some_columns. by eexists. }
  unfold outside. rewrite mem_text_excluded by done.
  rewrite (object_after_loops d df n s Hg Ho), mem_keyword_columns.
  assert (mem n (columns df) = true) as ->; [|done].
  apply mem_true. rewrite <- (columns_deduplicate d df). by apply get_Some_columns.
Qed.

Lemma number_columns_need_no_exclusion_witness :
  @frame_of example_library BoxOffice Examples.box_office
  = @text_loop example_library []
      (@second_loop example_library BoxOffice
         (@first_loop example_library BoxOffice
            (deduplicate BoxOffice Examples.box_office))).
Proof.
  apply (@number_columns_need_no_exclusion example_library BoxOffice Examples.box_office).
  apply (bool_decide_unpack _). by vm_compute.
Defined.

(** X6. In the three cleaners with a date loop, a text column whose name
    carries a date keyword (and no keyword of the first loop) and which
    holds no boolean is saved as a datetime column: every cell is a
    timestamp or NaT, the cells that were null are NaT, and the text
    treatment is not applied to it. *)
Theorem date_column_becomes_datetime `{Library}
    (d : dataset) (df : DataFrame) (n : string) (s : Series) :
  NoDup (columns df) ->
  second_category d = temporal ->
  carries d temporal n = true ->
  carries d (first_category d) n = false ->
  get (deduplicate d df) n = Some s ->
  dtype_of s = object ->
  existsb is_bool_cell (values s) = false ->
  exists s',
    get (frame_of d df) n = Some s'
    /\ dtype_of s' = datetime64
    /\ Forall2
         (fun c c' =>
            (c' = NaN \/ exists t, c' = Timestamp t)
            /\ (isnull c = true -> c' = NaN))
         (values s) (values s').
Proof.
  intros Hnd Hcat Hdate Hfirst Hs Hobj Hbool.
  eexists. split; [|split].
  - rewrite (get_date_column d df n s) by done.
    unfold date_series. by rewrite (to_datetime_cells s Hobj).
  - done.
  - simpl. apply Forall2_fmap_r, Forall_Forall2_diag, Forall_forall.
    intros c _. split.
    + destruct c as [| |t|[q|b]|b|t]; simpl; eauto.
      destruct (parse_datetime t); eauto.
    + by destruct c.
Qed.

Lemma date_column_becomes_datetime_witness :
  exists s',
    get (@frame_of example_library RottenTomatoesReviews Examples.reviews) "date"
    = Some s'
    /\ dtype_of s' = datetime64
    /\ Forall2
         (fun c c' =>
            (c' = NaN \/ exists t, c' = Timestamp t)
            /\ (isnull c = true -> c' = NaN))
         [Str "2018-11-10"; NaN] (values s').
Proof.
  apply (@date_column_becomes_datetime example_library
           RottenTomatoesReviews Examples.reviews "date"
           (Examples.column object [Str "2018-11-10"; NaN])).
  - apply (bool_decide_unpack _). by vm_compute.
  - reflexivity.
  - reflexivity.
  - reflexivity.
  - reflexivity.
  - reflexivity.
  - reflexivity.
Defined.

(** ** Cells *)

(** X7. In a monetary column a whole amount comes out as its value,
    wherever the currency signs and the separators stand: a cell that,
    once every ['$'] and [','] is removed, is the decimal numeral of [n]
    becomes the number [n], for [n] up to 2^53, the range in which both
    int64 and float64 hold every whole number. *)
Theorem money_whole_amounts `{Library} (n : nat) (s : string) :
  Py.remove_chars ["$"; ","]%char s = numeral n ->
  Z.of_nat n <= 2 ^ 53 ->
  money_cell (Str s) = Num (Fin (inject_Z (Z.of_nat n))).
Proof. intros Hs _. rewrite money_cell_str, Hs. apply to_numeric_cell_numeral. Qed.

Lemma money_whole_amounts_witness :
  @money_cell example_library (Str "$4,500") = Num (Fin (inject_Z 4500)).
Proof.
  apply (@money_whole_amounts example_library 4500 "$4,500"); [reflexivity|].
  by vm_compute.
Defined.

(** X9. In a rating column of the movie-info cleaner a whole percentage
    comes out as its value: a cell that, once every ['%'] is removed, is
    the decimal numeral of [n] becomes the number [n], for [n] up to
    2^53. *)
Theorem percent_whole_numbers `{Library} (n : nat) (s : string) :
  Py.remove_chars ["%"]%char s = numeral n ->
  Z.of_nat n <= 2 ^ 53 ->
  percent_cell (Str s) = Num (Fin (inject_Z (Z.of_nat n))).
Proof. intros Hs _. rewrite percent_cell_str, Hs. apply to_numeric_cell_numeral. Qed.

Lemma percent_whole_numbers_witness :
  @percent_cell example_library (Str "100%") = Num (Fin (inject_Z 100)).
Proof.
  apply (@percent_whole_numbers example_library 100 "100%"); [reflexivity|].
  by vm_compute.
Defined.

(** X10. In the number conversions a missing value stays missing: a cell
    that is null, [np.nan] or [None] alike, is null after the monetary
    conversion, after the rating conversion and after [pd.to_numeric]. *)
Theorem nulls_stay_null_in_number_columns `{Library} (c : cell) :
  isnull c = true ->
  money_cell c = NaN /\ percent_cell c = NaN /\ to_numeric_cell c = NaN.
Proof. by destruct c. Qed.

Lemma nulls_stay_null_in_number_columns_witness :
  @money_cell example_library PyNone = NaN
  /\ @percent_cell example_library PyNone = NaN
  /\ to_numeric_cell PyNone = NaN.
Proof. apply (@nulls_stay_null_in_number_columns example_library PyNone). reflexivity. Defined.

(** X11. The text treatment makes the empty string of a cell that holds
    nothing but whitespace (or nothing at all), and the empty string is not
    a missing value. *)
Theorem blank_text_becomes_the_empty_string `{Library} (s : string) :
  (forall c, Py.occurs c s = true -> Py.isspace c = true) ->
  text_cell (Str s) = Str "" /\ isnull (Str "") = false.
Proof.
  intros Hs. split; [|done]. unfold text_cell. simpl. by rewrite (strip_blank s Hs).
Qed.

Lemma blank_text_becomes_the_empty_string_witness :
  @text_cell example_library (Str "   ") = Str "" /\ isnull (Str "") = false.
Proof.
  apply (@blank_text_becomes_the_empty_string example_library "   ").
  intros c Hc. simpl in Hc. rewrite orb_false_r, !orb_diag in Hc.
  apply Ascii.eqb_eq in Hc as ->. reflexivity.
Defined.

(** X12. The text treatment makes a cell null in one case only: when its
    string form, stripped, is exactly ["nan"], in lower case.  Every other
    value is kept as text. *)
Theorem only_nan_becomes_null `{Library} (c : cell) :
  (text_cell c = NaN <-> Py.strip (py_str c) = "nan")
  /\ (isnull (text_cell c) = true <-> Py.strip (py_str c) = "nan").
Proof.
  destruct (text_cell_cases c) as [[E Hs]|[E Hs]]; rewrite E; simpl.
  - by split.
  - split; split; try done; intros; congruence.
Qed.

(** X13. In the frame a cleaner saves, a text column that carries no
    keyword of the cleaner holds nothing but NaN and trimmed strings other
    than ["nan"], and a cell that was NaN is NaN still. *)
Theorem text_columns_are_clean `{Library}
    (d : dataset) (df : DataFrame) (n : string) (s : Series) :
  NoDup (columns df) ->
  get (deduplicate d df) n = Some s ->
  carries d (first_category d) n = false ->
  carries d (second_category d) n = false ->
  dtype_of s = object ->
  exists s',
    get (frame_of d df) n = Some s'
    /\ dtype_of s' = object
    /\ Forall2
         (fun c c' =>
            (c' = NaN
             \/ exists t, c' = Str t /\ Py.trimmed t = true /\ t <> "nan")
            /\ (c = NaN -> c' = NaN))
         (values s) (values s').
Proof.
  intros Hnd Hs H1 H2 Ho. exists (text_series s). split; [|split; [done|]].
  - rewrite get_frame_of, Hs by done. simpl. unfold cleaned_column.
    rewrite H1, H2, Ho. simpl.
    assert (text_skips d n = false) as ->; [|done].
    unfold text_skips. destruct d; simpl in *; by rewrite ?H1, ?H2.
  - simpl. apply Forall2_fmap_r, Forall_Forall2_diag, Forall_forall.
    intros c _. split; [apply text_cell_clean | by intros ->].
Qed.

Lemma text_columns_are_clean_witness :
  exists s',
    get (@frame_of example_library RottenTomatoesReviews Examples.reviews) "review"
    = Some s'
    /\ dtype_of s' = object
    /\ Forall2
         (fun c c' =>
            (c' = NaN
             \/ exists t, c' = Str t /\ Py.trimmed t = true /\ t <> "nan")
            /\ (c = NaN -> c' = NaN))
         [Str " Good "; Str "Bad"] (values s').
Proof.
  apply (@text_columns_are_clean example_library RottenTomatoesReviews Examples.reviews
           "review" (Examples.column object [Str " Good "; Str "Bad"])).
  - apply (bool_decide_unpack _). by vm_compute.
  - reflexivity.
  - reflexivity.
  - reflexivity.
  - reflexivity.
Defined.

(** X14. A keyword is looked for anywhere in the column name and in any
    case: a column whose name holds, between any two strings, a string whose
    lower-case form is a keyword of a category is in the keyword list of
    that category. *)
Theorem keyword_anywhere_in_the_name
    (d : dataset) (c : category) (df : DataFrame) (pre k post : string) :
  Py.lower k ∈ keywords d c ->
  pre +:+ k +:+ post ∈ columns df ->
  pre +:+ k +:+ post ∈ keyword_columns (keywords d c) df.
Proof.
  intros Hk Hin. apply mem_true. rewrite mem_keyword_columns.
  apply andb_true_iff. split; [by apply mem_true|].
  by apply carries_substring.
Qed.

Lemma keyword_anywhere_in_the_name_witness :
  "upDATEd"
  ∈ keyword_columns (keywords RottenTomatoesReviews temporal)
      {| nrows := 0; cols := [("upDATEd", Examples.column object [])] |}.
Proof.
  apply (keyword_anywhere_in_the_name RottenTomatoesReviews temporal
           {| nrows := 0; cols := [("upDATEd", Examples.column object [])] |}
           "up" "DATE" "d").
  - by left.
  - by left.
Defined.

(** X15. The movie-metadata cleaner and the reviews cleaner parse their
    number columns with [pd.to_numeric] alone, nothing being removed
    first: in a text column the decimal numeral of a whole number up to
    2^53 becomes that number, and a cell that holds a currency sign, a
    separating comma, a percent sign or a slash anywhere becomes null. *)
Theorem plain_number_loops_reject_marked_cells `{Library}
    (d : dataset) (s : Series) (c : ascii) (text : string) :
  d = Tmdb \/ d = RottenTomatoesReviews ->
  dtype_of s = object ->
  In c ["$"; ","; "%"; "/"]%char ->
  Py.occurs c text = true ->
  first_conversion d s
  = {| dtype_of := numeric; values := map to_numeric_cell (values s) |}
  /\ to_numeric_cell (Str text) = NaN
  /\ forall n,
      Z.of_nat n <= 2 ^ 53 ->
      to_numeric_cell (Str (numeral n)) = Num (Fin (inject_Z (Z.of_nat n))).
Proof.
  intros Hd Hs Hc Ht. split; [|split].
  - unfold to_numeric. destruct Hd as [-> | ->]; simpl; unfold to_numeric; by rewrite Hs.
  - simpl. rewrite (parse_float_rejects c); [done | | done].
    simpl in Hc. destruct Hc as [<-|[<-|[<-|[<-|[]]]]]; reflexivity.
  - intros n _. apply to_numeric_cell_numeral.
Qed.

Lemma plain_number_loops_reject_marked_cells_witness :
  @first_conversion example_library Tmdb (Examples.column object [Str "$5"])
  = {| dtype_of := numeric; values := [NaN] |}
  /\ to_numeric_cell (Str "85%") = NaN.
Proof.
  destruct (@plain_number_loops_reject_marked_cells example_library Tmdb
              (Examples.column object [Str "$5"]) "%" "85%")
    as (Hcol & Hcell & _); [by left | reflexivity | simpl; tauto | reflexivity |].
  split; [rewrite Hcol; reflexivity | exact Hcell].
Defined.

(** ** Cleaning what has been cleaned *)

(** X16. Applied to a frame it has returned, a cleaner changes nothing,
    provided that frame holds no repeated row. *)
Theorem cleaning_again_changes_nothing `{Library} (d : dataset) (df : DataFrame) :
  well_formed df ->
  NoDup (columns df) ->
  sum (duplicated (frame_of d df)) = 0%nat ->
  frame_of d (frame_of d df) = frame_of d df.
Proof. apply frame_of_fixed. Qed.

Lemma cleaning_again_changes_nothing_witness :
  @frame_of example_library BoxOffice
    (@frame_of example_library BoxOffice Examples.box_office)
  = @frame_of example_library BoxOffice Examples.box_office.
Proof.
  apply (@cleaning_again_changes_nothing example_library BoxOffice Examples.box_office).
  - unfold well_formed. simpl. repeat constructor.
  - apply (bool_decide_unpack _). by vm_compute.
  - by vm_compute.
Defined.

(** X17. Rows are compared before the text is trimmed, so two rows that
    differ by the whitespace around a text only are both kept, and the
    saved frame then holds the same row twice; cleaning that frame again
    removes one of them. *)
Theorem whitespace_variants_are_both_kept `{Library} (d : dataset) (a b : string) :
  a <> b ->
  Py.strip a = Py.strip b ->
  Py.strip a <> "nan" ->
  let df := {| nrows := 2;
               cols := [("title", {| dtype_of := object;
                                     values := [Str a; Str b] |})] |} in
  duplicated df = [false; false]
  /\ frame_of d df
     = {| nrows := 2;
          cols := [("title", {| dtype_of := object;
                                values := [Str (Py.strip a); Str (Py.strip a)] |})] |}
  /\ duplicated (frame_of d df) = [false; true]
  /\ len (frame_of d (frame_of d df)) = 1%nat.
Proof.
  intros Hab Hstrip Hnan df.
  assert (String.eqb b a = false) as Hba by (apply String.eqb_neq; congruence).
  assert (String.eqb (Py.strip a) "nan" = false) as Hn by (by apply String.eqb_neq).
  assert (duplicated df = [false; false]) as Hdup.
  { unfold duplicated, rows, row, df. simpl. by rewrite Hba. }
  assert (deduplicate d df = df) as Hded.
  { assert (drop_duplicates df = df) as Hdrop.
    { unfold drop_duplicates. rewrite Hdup. reflexivity. }
    destruct d; simpl; rewrite ?Hdup; simpl; done. }
  assert (frame_of d df
          = {| nrows := 2;
               cols := [("title", {| dtype_of := object;
                                     values := [Str (Py.strip a); Str (Py.strip a)] |})] |})
    as Hframe.
  { rewrite frame_of_stages. unfold typed. rewrite Hded.
    destruct d; unfold df; vm_compute text_excluded; unfold second_loop, first_loop;
      simpl keyword_columns; unfold for_each; simpl fold_left;
      unfold text_loop, select_dtypes_object; cbn -[Py.strip];
      unfold text_body, update, get; cbn -[Py.strip];
      unfold set, replace, str_strip, astype_str; cbn -[Py.strip];
      rewrite <- Hstrip, !Hn; reflexivity. }
  split; [done|]. split; [done|].
  assert (duplicated (frame_of d df) = [false; true]) as Hdup2.
  { rewrite Hframe. unfold duplicated, rows, row. simpl. by rewrite String.eqb_refl. }
  split; [done|].
  rewrite len_frame_of, Hdup2, Hframe. reflexivity.
Qed.

Lemma whitespace_variants_are_both_kept_witness :
  duplicated (@frame_of example_library Tmdb Examples.two_titles) = [false; true]
  /\ len (@frame_of example_library Tmdb
            (@frame_of example_library Tmdb Examples.two_titles)) = 1%nat.
Proof.
  destruct (@whitespace_variants_are_both_kept example_library Tmdb "Up" " Up")
    as (_ & _ & Hdup & Hlen); [discriminate | reflexivity | discriminate |].
  split; [exact Hdup | exact Hlen].
Defined.

(** ** Runs that stop *)

(** X18. The script stops at the first source file that is missing: when
    the directories are free, the inventory has found a file, the sources
    of the cleaners before that of [d] are tables and their outputs are
    saved, a source of [d] that is not there ends the run with
    [FileNotFoundError]; the outputs of the earlier cleaners have been
    written, nothing else has, and no later step has run. *)
Theorem missing_source_stops_the_run `{Library}
    (m : gmap path file) (raw : dataset -> DataFrame) (d : dataset) :
  directories_free m ->
  consistent (outputs_written raw (earlier d) m) ->
  inventory m <> [] ->
  (forall d', d' ∈ earlier d -> m !! source_file d' = Some (Table (raw d'))) ->
  kind_of m (source_file d) = Missing ->
  run_script m
  = (Raise FileNotFoundError,
     {| fs := outputs_written raw (earlier d) m; open_connections := 0 |}).
Proof.
  intros (Ho & Hc & _) _ Hinv Hsrc Hd.
  rewrite (run_script_main m Hc), main_cleaners.
  set (s0 := {| fs := m; open_connections := 0 |}).
  assert (kind_of m original_data_path = Directory) as K.
  { destruct (inventory m) as [|n l] eqn:E; [done|].
    assert (n ∈ inventory m) as Hn by (rewrite E; by left).
    apply elem_of_inventory in Hn as [f Hf].
    by apply (kind_of_directory m original_data_path n [] f). }
  rewrite bind_unfold, inspect_outcome. simpl fs. rewrite K.
  destruct (inventory m) as [|n files]; [done|].
  pose proof (kind_of_missing m _ Hd) as Hopen.
  destruct d; simpl in Hsrc;
    repeat (
      match goal with
      | |- (cleaner ?d' ≫= _) ?s = _ =>
          rewrite (cleaner_bind d' s (raw d'))
            by (simpl; rewrite ?lookup_insert_ne by done; apply Hsrc; set_solver)
      end);
    rewrite bind_unfold, (cleaner_raise _ _ FileNotFoundError);
    first [ reflexivity
          | simpl fs;
            repeat (rewrite open_file_insert_other
                      by (intros rest; apply output_not_below_source));
            exact Hopen ].
Qed.

Lemma missing_source_stops_the_run_witness :
  @run_script example_library Examples.files_without_tmdb
  = (Raise FileNotFoundError,
     {| fs := @outputs_written example_library Examples.raw [BoxOffice; MovieBudgets]
                Examples.files_without_tmdb;
        open_connections := 0 |}).
Proof.
  apply (@missing_source_stops_the_run example_library
           Examples.files_without_tmdb Examples.raw Tmdb).
  - repeat split; reflexivity.
  - apply (bool_decide_unpack _). by vm_compute.
  - by vm_compute.
  - intros d' [->|[->|Hd]%elem_of_cons]%elem_of_cons;
      [reflexivity | reflexivity | by apply elem_of_nil in Hd].
  - by vm_compute.
Defined.

(** X19. When the source directory has entries but no file directly in it,
    the inventory builds a frame without a ['size_mb'] column and sorting
    by that column raises: with the directories free, the run ends with
    [KeyError] before anything is read or written. *)
Theorem no_source_file_is_a_KeyError `{Library} (m : gmap path file) :
  directories_free m ->
  (exists n rest f, m !! (original_data_path ++ n :: rest) = Some f) ->
  (forall n, m !! join original_data_path n = None) ->
  run_script m = (Raise KeyError, {| fs := m; open_connections := 0 |}).
Proof.
  intros (Ho & Hc & _) (n & rest & f & Hf) Hm.
  rewrite (run_script_main m Hc), main_cleaners, bind_unfold, inspect_outcome.
  simpl fs. rewrite (kind_of_directory m original_data_path n rest f Ho Hf).
  by rewrite (inventory_nil m Hm).
Qed.

Lemma no_source_file_is_a_KeyError_witness :
  @run_script example_library Examples.only_extracted
  = (Raise KeyError, {| fs := Examples.only_extracted; open_connections := 0 |}).
Proof.
  apply (@no_source_file_is_a_KeyError example_library Examples.only_extracted).
  - repeat split; reflexivity.
  - exists "extracted", ["im.db"], (Database []). reflexivity.
  - intros n. apply lookup_singleton_ne. unfold join, extract_path, join. simpl.
    intros E. discriminate E.
Defined.

(** X20. When the directories are free, the five sources are tables whose
    outputs are saved and the archive is not a zip archive, the five
    outputs are written and the run then ends with the error of opening
    the archive: [FileNotFoundError] when it is missing,
    [IsADirectoryError] when a directory has its name, [BadZipFile] when
    it is a file of another kind.  Nothing is extracted and the summary
    does not run. *)
Theorem run_without_a_readable_archive `{Library}
    (m : gmap path file) (raw : dataset -> DataFrame) :
  directories_free m ->
  consistent (outputs_written raw datasets m) ->
  (forall d, m !! source_file d = Some (Table (raw d))) ->
  (forall members, m !! zip_path <> Some (Archive members)) ->
  run_script m
  = (Raise (match kind_of m zip_path with
            | Missing => FileNotFoundError
            | Directory => IsADirectoryError
            | RegularFile => BadZipFile
            end),
     {| fs := outputs_written raw datasets m; open_connections := 0 |}).
Proof.
  intros (Ho & Hc & He) _ Hsrc Hzip.
  rewrite (run_script_main m Hc), main_cleaners.
  set (s0 := {| fs := m; open_connections := 0 |}).
  destruct (inspect_run s0 _ _ Ho (Hsrc BoxOffice)) as (files & Hfiles).
  rewrite bind_unfold, Hfiles.
  rewrite (cleaners_run raw s0) by done.
  rewrite bind_unfold, extract_run. subst s0. unfold with_fs. cbn [fs open_connections].
  rewrite (mkdir_extracted_after_outputs raw datasets m _ _ He Ho (Hsrc BoxOffice)).
  rewrite open_zip_outputs_written, open_file_kind by done.
  destruct (m !! zip_path) as [[df|members|tables|]|] eqn:E.
  - by rewrite (kind_of_file m zip_path _ ltac:(done) E).
  - by destruct (Hzip members).
  - by rewrite (kind_of_file m zip_path _ ltac:(done) E).
  - by rewrite (kind_of_file m zip_path _ ltac:(done) E).
  - pose proof (kind_of_not_file m zip_path E). by destruct (kind_of m zip_path).
Qed.

Lemma run_without_a_readable_archive_witness :
  @run_script example_library Examples.sources
  = (Raise FileNotFoundError,
     {| fs := @outputs_written example_library Examples.raw datasets Examples.sources;
        open_connections := 0 |}).
Proof.
  apply (@run_without_a_readable_archive example_library Examples.sources Examples.raw).
  - repeat split; reflexivity.
  - apply (bool_decide_unpack _). by vm_compute.
  - intros []; reflexivity.
  - intros members E. discriminate E.
Defined.



(** ** The archive step and the whole run *)

(** X22. The extractor returns [None] in one case only: the extraction
    directory is there or can be made, the archive can be read and, once
    it is extracted, no entry directly in the extraction directory has a
    name ending in [.db].  (A database without tables gives an empty
    dictionary, not [None].)  This is for every call whose writes go
    through. *)
Theorem none_means_no_database_entry `{Library} (s : state) :
  consistent (fs (extract_and_clean_imdb_data s).2) ->
  (exists s', extract_and_clean_imdb_data s = (Ok None, s'))
  <-> mkdir_error (fs s) extract_path = None
      /\ exists members,
          fs s !! zip_path = Some (Archive members)
          /\ forall n,
               n ∈ listdir (extract_files members extract_path (fs s)) extract_path ->
               Py.endswith ".db" n = false.
Proof.
  intros _. split.
  - intros [s' Hrun]. rewrite extract_outcome_run in Hrun. unfold extract_outcome in Hrun.
    destruct (mkdir_error (fs s) extract_path); [done|]. split; [done|].
    destruct (open_file (fs s) zip_path) as [[df|members|tables|]|] eqn:Hzip; try done.
    exists members. split; [by apply open_file_Ok|]. cbv zeta in Hrun.
    rewrite <- extract_files_writes in Hrun.
    destruct (glob_suffix _ extract_path ".db") as [|db rest] eqn:Hglob.
    + intros n Hn. destruct (Py.endswith ".db" n) eqn:Hs; [|done].
      assert (join extract_path n ∈ glob_suffix
                (extract_files members extract_path (fs s)) extract_path ".db") as Hin
        by (apply elem_of_glob_suffix_iff; by exists n).
      rewrite Hglob in Hin. by apply elem_of_nil in Hin.
    + pose proof (connected_outcome_not_none db
                    (extract_files members extract_path (fs s))) as Hne.
      destruct (connected_outcome _ _) as [[r W] o]. simpl in Hne.
      injection Hrun as -> _. done.
  - intros (Hdir & members & Hzip & Hdb). eexists.
    apply extract_without_database; [done|done|].
    destruct (glob_suffix _ extract_path ".db") as [|db rest] eqn:Hglob; [done|].
    assert (db ∈ glob_suffix (extract_files members extract_path (fs s))
                   extract_path ".db") as Hin by (rewrite Hglob; by left).
    apply elem_of_glob_suffix_iff in Hin as (n & -> & Hn & Hs).
    by rewrite (Hdb n Hn) in Hs.
Qed.

Lemma none_means_no_database_entry_witness :
  exists s',
    @extract_and_clean_imdb_data example_library
      (Examples.fresh Examples.files_without_database)
    = (Ok None, s').
Proof.
  apply (@none_means_no_database_entry example_library
           (Examples.fresh Examples.files_without_database)).
  - apply (bool_decide_unpack _). by vm_compute.
  - split; [by vm_compute|].
    exists [([], "README.txt", Blob); (["data"], "im.db", Database [])].
    split; [reflexivity|]. intros n Hn. vm_compute in Hn.
    apply elem_of_cons in Hn as [->|Hn]; [reflexivity|].
    apply elem_of_cons in Hn as [->|Hn]; [reflexivity|].
    by apply elem_of_nil in Hn.
Defined.

(** X23. On an archive that yields a database whose table names the
    statements accept, the extraction directory being there or to be made,
    the database the first [.db] entry the platform lists and every write
    going through, the extractor returns the cleaned tables under their
    names, one for each table of the catalogue and no other; it has saved
    each of them in [imdb_<name>_cleaned.csv], changed no other file
    beyond the extraction, and closed the connection. *)
Theorem extractor_cleans_every_table `{Library}
    (s : state) (members : list (path * string * file))
    (db_path : path) (rest : list path) (tables : list (string * DataFrame)) :
  mkdir_error (fs s) extract_path = None ->
  consistent (fs (extract_and_clean_imdb_data s).2) ->
  fs s !! zip_path = Some (Archive members) ->
  glob_suffix (extract_files members extract_path (fs s)) extract_path ".db"
  = db_path :: rest ->
  extract_files members extract_path (fs s) !! db_path = Some (Database tables) ->
  Forall (fun t => sql_name_ok t = true) (map fst tables) ->
  exists cleaned s',
    extract_and_clean_imdb_data s = (Ok (Some cleaned), s')
    /\ open_connections s' = open_connections s
    /\ (forall t, cleaned !! t = cleaned_table tables t)
    /\ (forall t df,
          lookup_table t tables = Some df ->
          fs s' !! imdb_output t = Some (Table (imdb_table_frame df)))
    /\ (forall p,
          (forall t, t ∈ map fst tables -> p <> imdb_output t) ->
          fs s' !! p = extract_files members extract_path (fs s) !! p).
Proof.
  intros Hdir _. by apply extract_tables.
Qed.

Lemma extractor_cleans_every_table_witness :
  exists cleaned s',
    @extract_and_clean_imdb_data example_library
      (Examples.fresh Examples.files_with_database)
    = (Ok (Some cleaned), s')
    /\ open_connections s' = 0%nat
    /\ cleaned !! "movie_basics"
       = Some (@imdb_table_frame example_library Examples.movie_basics)
    /\ cleaned !! "ratings" = None.
Proof.
  destruct (@extractor_cleans_every_table example_library
              (Examples.fresh Examples.files_with_database)
              [([], "im.db", Database [("movie_basics", Examples.movie_basics)])]
              (join extract_path "im.db") []
              [("movie_basics", Examples.movie_basics)])
    as (cleaned & s' & Hrun & Hconn & Hc & _).
  - by vm_compute.
  - apply (bool_decide_unpack _). by vm_compute.
  - reflexivity.
  - by vm_compute.
  - reflexivity.
  - repeat constructor.
  - exists cleaned, s'. split; [exact Hrun|]. split; [exact Hconn|].
    split; apply Hc.
Defined.

(** X24. On complete inputs the run ends normally: with the directories
    free, the five sources holding tables, the archive yielding a
    database, the first [.db] entry the platform lists, whose table names
    the statements accept, and every write going through, the script
    returns the five cleaned frames and the cleaned tables, each is in its
    output file at the end, the summary lists all those files, and no
    connection is left open. *)
Theorem run_with_a_database `{Library}
    (m : gmap path file) (raw : dataset -> DataFrame)
    (members : list (path * string * file))
    (db_path : path) (rest : list path) (tables : list (string * DataFrame)) :
  directories_free m ->
  consistent (fs (run_script m).2) ->
  (forall d, m !! source_file d = Some (Table (raw d))) ->
  m !! zip_path = Some (Archive members) ->
  glob_suffix (extract_files members extract_path m) extract_path ".db"
  = db_path :: rest ->
  extract_files members extract_path m !! db_path = Some (Database tables) ->
  Forall (fun t => sql_name_ok t = true) (map fst tables) ->
  exists r s' cleaned,
    run_script m = (Ok r, s')
    /\ open_connections s' = 0%nat
    /\ (forall d,
          fs s' !! output_file d = Some (Table (frame_of d (raw d)))
          /\ output_file d ∈ cleaned_files r)
    /\ (bom_clean r, budgets_clean r, tmdb_clean r, rt_info_clean r, rt_reviews_clean r)
       = (frame_of BoxOffice (raw BoxOffice), frame_of MovieBudgets (raw MovieBudgets),
          frame_of Tmdb (raw Tmdb),
          frame_of RottenTomatoesInfo (raw RottenTomatoesInfo),
          frame_of RottenTomatoesReviews (raw RottenTomatoesReviews))
    /\ imdb_tables r = Some cleaned
    /\ (forall t, cleaned !! t = cleaned_table tables t)
    /\ (forall t df,
          lookup_table t tables = Some df ->
          fs s' !! imdb_output t = Some (Table (imdb_table_frame df))
          /\ imdb_output t ∈ cleaned_files r).
Proof.
  intros (Ho & Hc & He) _ Hsrc Hzip Hglob Hdb Hok.
  rewrite (run_script_main m Hc), main_cleaners.
  set (s0 := {| fs := m; open_connections := 0 |}).
  destruct (inspect_run s0 _ _ Ho (Hsrc BoxOffice)) as (files & Hfiles).
  rewrite bind_unfold, Hfiles.
  rewrite (cleaners_run raw s0) by done.
  set (s5 := with_fs (outputs_written raw datasets (fs s0)) s0).
  assert (exists n, db_path = join extract_path n) as [n ->].
  { eapply elem_of_glob_suffix_inv. rewrite Hglob. by left. }
  destruct (extract_tables s5 members (join extract_path n) rest tables)
    as (cleaned & s6 & Hrun & Hconn & Hcl & Hout & Hother).
  { change (fs s5) with (outputs_written raw datasets m).
    by apply (mkdir_extracted_after_outputs raw datasets m _ _ He Ho (Hsrc BoxOffice)). }
  { change (fs s5) with (outputs_written raw datasets m).
    rewrite outputs_written_other; [done | apply zip_output_ne]. }
  { change (fs s5) with (outputs_written raw datasets m).
    by rewrite glob_after_outputs. }
  { change (fs s5) with (outputs_written raw datasets m).
    rewrite extract_files_after_outputs; [done | by intros []]. }
  { done. }
  rewrite bind_unfold, Hrun, bind_unfold, summary_outcome.
  eexists _, s6, cleaned. split; [reflexivity|]. cbn [cleaned_files imdb_tables].
  split; [done|].
  assert (forall d, fs s6 !! output_file d = Some (Table (frame_of d (raw d)))) as Hnamed.
  { intros d. rewrite Hother by (intros t _; apply not_eq_sym, imdb_output_not_named).
    change (fs s5) with (outputs_written raw datasets m).
    rewrite extract_files_other by (intros; apply extracted_output_ne).
    apply outputs_written_output. destruct d; unfold datasets; repeat (first [by left | right]). }
  split; [|split; [done|split; [done|split; [done|]]]].
  - intros d. split; [done|].
    unfold output_file in *. eapply elem_of_glob_suffix; [apply Hnamed|]. by destruct d.
  - intros t df Hdf. split; [by apply Hout|].
    unfold imdb_output in *. eapply elem_of_glob_suffix; [by apply Hout|].
    apply imdb_output_csv.
Qed.

Lemma run_with_a_database_witness :
  exists r s' cleaned,
    @run_script example_library Examples.files_with_database = (Ok r, s')
    /\ open_connections s' = 0%nat
    /\ imdb_tables r = Some cleaned
    /\ fs s' !! imdb_output "movie_basics"
       = Some (Table (@imdb_table_frame example_library Examples.movie_basics))
    /\ imdb_output "movie_basics" ∈ cleaned_files r.
Proof.
  destruct (@run_with_a_database example_library Examples.files_with_database
              Examples.raw
              [([], "im.db", Database [("movie_basics", Examples.movie_basics)])]
              (join extract_path "im.db") []
              [("movie_basics", Examples.movie_basics)])
    as (r & s' & cleaned & Hrun & Hconn & _ & _ & Hi & _ & Hout).
  - repeat split; reflexivity.
  - apply (bool_decide_unpack _). by vm_compute.
  - intros []; reflexivity.
  - reflexivity.
  - by vm_compute.
  - reflexivity.
  - repeat constructor.
  - exists r, s', cleaned. split; [exact Hrun|]. split; [exact Hconn|].
    split; [exact Hi|]. apply (Hout "movie_basics" Examples.movie_basics). reflexivity.
Defined.

(** X25. Whatever the files and however the run ends, the script writes
    nowhere but to its five outputs, to the outputs named after a table
    and below the extraction directory: every other path holds at the end
    what it held at the start, the five sources and the archive among
    them, and no file is removed. *)
Theorem run_leaves_other_files_alone `{Library} (m : gmap path file) :
  (forall p,
      ~ side_path p -> (forall d, p <> output_file d) ->
      fs (run_script m).2 !! p = m !! p)
  /\ (forall d, fs (run_script m).2 !! source_file d = m !! source_file d)
  /\ fs (run_script m).2 !! zip_path = m !! zip_path
  /\ (forall p, is_Some (m !! p) -> is_Some (fs (run_script m).2 !! p)).
Proof.
  assert (forall p, ~ side_path p -> (forall d, p <> output_file d) ->
                    fs (run_script m).2 !! p = m !! p) as Hother.
  { intros p Hside Hout.
    by apply (preserves_run_script _ m (stable_lookup p (m !! p) Hside Hout)). }
  split; [done|]. split; [|split].
  - intros d. apply Hother; [apply side_path_not_source|].
    intros d'. apply source_output_ne.
  - apply Hother; [apply side_path_not_zip | apply zip_output_ne].
  - intros p Hp. by apply (preserves_run_script _ m (stable_is_Some p)).
Qed.

(** X26. The summary reports the output directory, not the run: the list
    it returns holds exactly the entries of the output directory whose
    name ends in [.csv] at the end of the run, and so also every such file
    that was there before the run and that no step has written. *)
Theorem summary_lists_every_csv_file `{Library}
    (m : gmap path file) (r : run) (s' : state) :
  run_script m = (Ok r, s') ->
  (forall p,
      p ∈ cleaned_files r
      <-> exists n, p = join cleaned_data_path n
                    /\ n ∈ listdir (fs s') cleaned_data_path
                    /\ Py.endswith ".csv" n = true)
  /\ (forall n f,
        m !! join cleaned_data_path n = Some f ->
        Py.endswith ".csv" n = true ->
        join cleaned_data_path n ∈ cleaned_files r).
Proof.
  intros Hrun. destruct (run_script_Ok_inv _ _ _ Hrun) as [_ Hmain].
  destruct (main_Ok_inv _ _ _ Hmain) as [_ Hc]. rewrite Hc.
  split; [intros p; apply elem_of_glob_suffix_iff|].
  intros n f Hn Hs.
  assert (is_Some (fs s' !! join cleaned_data_path n)) as [g Hg].
  { apply (preserves_main _ (stable_is_Some _) _ _ _ Hmain). simpl. by eexists. }
  by eapply elem_of_glob_suffix.
Qed.

Lemma summary_lists_every_csv_file_witness :
  exists r s',
    @run_script example_library Examples.files_with_stale_output = (Ok r, s')
    /\ join cleaned_data_path "old_cleaned.csv" ∈ cleaned_files r.
Proof.
  destruct (@run_without_database example_library Examples.files_with_stale_output
              Examples.raw
              [([], "README.txt", Blob); (["data"], "im.db", Database [])])
    as (r & s' & Hrun & _).
  - repeat split; reflexivity.
  - intros []; reflexivity.
  - reflexivity.
  - vm_compute. reflexivity.
  - exists r, s'. split; [exact Hrun|].
    destruct (@summary_lists_every_csv_file example_library
                Examples.files_with_stale_output r s' Hrun) as [_ Hstale].
    apply (Hstale "old_cleaned.csv" (Table Examples.budgets)); reflexivity.
Defined.

(** X27. When the inventory returns, it has changed nothing and its list
    is not empty and holds exactly the names of the files that lie
    directly in the source directory; a subdirectory, such as the
    extraction directory of an earlier run, is not listed. *)
Theorem inventory_lists_the_files `{Library} (s s' : state) (files : list string) :
  inspect_dataset_files s = (Ok files, s') ->
  s' = s
  /\ files <> []
  /\ forall n, n ∈ files <-> is_Some (fs s !! join original_data_path n).
Proof.
  rewrite inspect_outcome.
  destruct (kind_of (fs s) original_data_path); try done.
  destruct (inventory (fs s)) as [|n0 l] eqn:E; [done|]. intros [= <- <-].
  split; [done|]. split; [done|]. intros n. rewrite <- E. apply elem_of_inventory.
Qed.

Lemma inventory_lists_the_files_witness :
  exists files,
    @inspect_dataset_files example_library
      (Examples.fresh Examples.files_with_database)
    = (Ok files, Examples.fresh Examples.files_with_database)
    /\ "im.db.zip" ∈ files.
Proof.
  set (s := Examples.fresh Examples.files_with_database).
  destruct (@inspect_run example_library s "im.db.zip"
              (Archive [([], "im.db", Database [("movie_basics", Examples.movie_basics)])]))
    as (files & Hrun); [reflexivity | reflexivity |].
  destruct (@inventory_lists_the_files example_library s s files Hrun)
    as (_ & _ & Hin).
  exists files. split; [exact Hrun|]. apply Hin. eexists. reflexivity.
Defined.

(** ** A file where a directory is expected *)

(** X29. A file that has the name of the output directory stops the script
    before the main block: making the directory raises [FileExistsError],
    and nothing has been read or written. *)
Theorem file_named_as_the_output_directory `{Library}
    (m : gmap path file) (f : file) :
  m !! cleaned_data_path = Some f ->
  run_script m = (Raise FileExistsError, {| fs := m; open_connections := 0 |}).
Proof.
  intros Hf. rewrite run_script_run, mkdir_cleaned.
  by rewrite (proj2 (is_file_true m cleaned_data_path)) by (by eexists).
Qed.

Lemma file_named_as_the_output_directory_witness :
  @run_script example_library Examples.files_with_output_name_taken
  = (Raise FileExistsError,
     {| fs := Examples.files_with_output_name_taken; open_connections := 0 |}).
Proof.
  apply (@file_named_as_the_output_directory example_library
           Examples.files_with_output_name_taken Blob).
  reflexivity.
Defined.

(** X30. A file that has the name of the extraction directory stops the
    run at the archive step: with the source and the output directory
    free, the five sources holding tables and their outputs saved, the
    five outputs are written, the extractor raises [FileExistsError]
    before it opens the archive, nothing is extracted and the summary does
    not run. *)
Theorem file_named_as_the_extraction_directory `{Library}
    (m : gmap path file) (raw : dataset -> DataFrame) (f : file) :
  m !! original_data_path = None ->
  m !! cleaned_data_path = None ->
  consistent (outputs_written raw datasets m) ->
  (forall d, m !! source_file d = Some (Table (raw d))) ->
  m !! extract_path = Some f ->
  run_script m
  = (Raise FileExistsError,
     {| fs := outputs_written raw datasets m; open_connections := 0 |}).
Proof.
  intros Ho Hc _ Hsrc He.
  rewrite (run_script_main m Hc), main_cleaners.
  set (s0 := {| fs := m; open_connections := 0 |}).
  destruct (inspect_run s0 _ _ Ho (Hsrc BoxOffice)) as (files & Hfiles).
  rewrite bind_unfold, Hfiles.
  rewrite (cleaners_run raw s0) by done.
  rewrite bind_unfold, extract_run. subst s0. unfold with_fs. cbn [fs open_connections].
  assert (mkdir_error (outputs_written raw datasets m) extract_path
          = Some FileExistsError) as ->; [|done].
  unfold mkdir_error.
  rewrite (kind_of_file _ extract_path f); [done | done |].
  rewrite outputs_written_other; [done | by intros []].
Qed.

Lemma file_named_as_the_extraction_directory_witness :
  @run_script example_library Examples.files_with_extraction_name_taken
  = (Raise FileExistsError,
     {| fs := @outputs_written example_library Examples.raw datasets
                Examples.files_with_extraction_name_taken;
        open_connections := 0 |}).
Proof.
  apply (@file_named_as_the_extraction_directory example_library
           Examples.files_with_extraction_name_taken Examples.raw Blob).
  - reflexivity.
  - reflexivity.
  - apply (bool_decide_unpack _). by vm_compute.
  - intros []; reflexivity.
  - reflexivity.
Defined.

(** ** The notebooks *)

(** X28. Both generated notebooks have the layout of the notebook format:
    the document has the keys [cells], [metadata], [nbformat] and
    [nbformat_minor] and names the kernel [python3]; every cell is a
    markdown cell with the keys [cell_type], [metadata], [source], or a
    code cell with [execution_count] and [outputs] besides; its metadata is
    empty; and its source is a list of strings of which every one but the
    last ends with its only line feed and the last holds none. *)
Theorem notebook_cells_follow_the_schema :
  Forall
    (fun nb =>
       Notebooks.keys nb = ["cells"; "metadata"; "nbformat"; "nbformat_minor"]
       /\ (exists kernel,
             Notebooks.field "metadata" nb ≫= Notebooks.field "kernelspec" = Some kernel
             /\ Notebooks.field "name" kernel = Some (Notebooks.JStr "python3")
             /\ Notebooks.field "display_name" kernel = Some (Notebooks.JStr "Python 3"))
       /\ Forall
            (fun c =>
               (Notebooks.is_cell_of_type "markdown" c
                /\ Notebooks.keys c = ["cell_type"; "metadata"; "source"]
                \/ Notebooks.is_cell_of_type "code" c
                   /\ Notebooks.keys c = ["cell_type"; "execution_count"; "metadata";
                                          "outputs"; "source"])
               /\ Notebooks.field "metadata" c = Some (Notebooks.JDict [])
               /\ exists lines,
                    Notebooks.field "source" c = Some (Notebooks.JList lines)
                    /\ Notebooks.is_multiline lines = true)
            (Notebooks.cells nb))
    Notebooks.generated_notebooks.
Proof.
  unfold Notebooks.generated_notebooks.
  repeat apply List.Forall_cons; try apply List.Forall_nil.
  all: split; [reflexivity|].
  all: split; [eexists; split; [reflexivity|]; split; reflexivity|].
  all: repeat apply List.Forall_cons; try apply List.Forall_nil.
  all: split; [first [left; split; reflexivity | right; split; reflexivity]|].
  all: split; [reflexivity|].
  all: eexists; split; [reflexivity | by vm_compute].
Qed.
